(** * urban_api: the logic layer over the urban objects database

    A shallow embedding of [urban_api/logic/physical_objects.py] and of the
    helpers [logic/impl/helpers/territories_physical_objects.py] and
    [logic/impl/helpers/territory_services.py].

    The Python functions build SQLAlchemy statements and run them on an
    [AsyncConnection].  Here a statement is a value of type [statement], the
    connection is a state (the session's view of the tables, the committed
    tables and the list of statements executed so far) and every function of
    the logic layer is a computation in a state-and-exception monad that
    builds the same statements, in the same order, as its Python source. *)

From Stdlib Require Import ZArith List String Ascii Bool Lia SpecFloat.
From Stdlib Require Import Permutation Sorted.
Import ListNotations.
Local Open Scope string_scope.
Local Open Scope list_scope.
Local Open Scope Z_scope.

(** * The model *)

(** ** Tables, columns and values *)

(** The tables of [urban_db.entities] that the logic layer imports. *)
Inductive table : Type :=
  | territories_data
  | physical_object_types_dict
  | physical_objects_data
  | object_geometries_data
  | urban_objects_data
  | services_data
  | service_types_dict
  | territory_types_dict
  | living_buildings_data.

Definition table_eqb (a b : table) : bool :=
  match a, b with
  | territories_data, territories_data
  | physical_object_types_dict, physical_object_types_dict
  | physical_objects_data, physical_objects_data
  | object_geometries_data, object_geometries_data
  | urban_objects_data, urban_objects_data
  | services_data, services_data
  | service_types_dict, service_types_dict
  | territory_types_dict, territory_types_dict
  | living_buildings_data, living_buildings_data => true
  | _, _ => false
  end.

(** [t.c.name] of SQLAlchemy. *)
Definition column : Type := table * string.
Definition c (t : table) (name : string) : column := (t, name).

(** A JSON document, as stored in the [properties] columns. *)
Inductive json : Type :=
  | JInt (z : Z)
  | JStr (s : string)
  | JObj (o : members)
with members : Type :=
  | MNil
  | MCons (key : string) (v : json) (rest : members).

(** What a cell holds.  [VGeom srid wkt] is a spatial value built by
    [ST_GeomFromText(wkt, srid)]; [VGeoJSON g] is the document
    [cast(ST_AsGeoJSON(g), JSONB)], both functions of PostGIS being kept
    symbolic.  A float is a binary64 value (sign, mantissa, exponent).
    Python's [None] is SQL's NULL. *)
Inductive value : Type :=
  | VNull
  | VInt (z : Z)
  | VStr (s : string)
  | VFloat (x : spec_float)
  | VJson (j : json)
  | VGeom (srid : Z) (wkt : string)
  | VGeoJSON (g : value).

Definition is_null (v : value) : bool :=
  match v with VNull => true | _ => false end.

(** SQL's [=] on two non-null scalars; the logic layer compares integers and
    strings only. *)
Definition value_eqb (a b : value) : bool :=
  match a, b with
  | VInt x, VInt y => Z.eqb x y
  | VStr x, VStr y => String.eqb x y
  | _, _ => false
  end.

(** A stored row, or the mapping of a result row: column name (or label) to
    value, in column order. *)
Definition row : Type := list (string * value).

(** The value of a column; NULL for a column the row does not have. *)
Fixpoint rget (r : row) (name : string) : value :=
  match r with
  | [] => VNull
  | (k, v) :: r' => if String.eqb k name then v else rget r' name
  end.

(** A row of a join: one stored row per joined table, leftmost first. *)
Definition jrow : Type := list (table * row).

(** The value of a qualified column, from the row of its table. *)
Fixpoint jget (j : jrow) (col : column) : value :=
  match j with
  | [] => VNull
  | (t, r) :: j' => if table_eqb t (fst col) then rget r (snd col) else jget j' col
  end.

(** ** Statements *)

Inductive predicate : Type :=
  | PEqCol (a b : column)              (* a == b, both columns *)
  | PEq (a : column) (v : value)       (* a == :param *)
  | PIsNull (a : column)               (* a IS NULL *)
  | PIlike (a : column) (pattern : string).

Inductive selectable : Type :=
  | STable (t : table)                 (* every column of t *)
  | SCol (a : column)                  (* a, named after the column *)
  | SLabel (a : column) (label : string)
  | SGeoJSON (a : column) (label : string)
  | SSum (a : column).                 (* func.sum(a) *)

Inductive from_clause : Type :=
  | FTable (t : table)
  | FJoin (left : from_clause) (right : table) (onclause : predicate).

Inductive statement : Type :=
  | Select (columns : list selectable) (froms : option from_clause)
           (whereclause : list predicate)
  | Insert (t : table) (vals : list (string * value))
           (returning : list selectable)
  | Update (t : table) (whereclause : list predicate)
           (vals : list (string * value)) (returning : list selectable).

(** [column == other] of SQLAlchemy's column operators: comparing with
    [None] renders [IS NULL], comparing with anything else renders
    [= :param]. *)
Definition col_eq (a : column) (v : value) : predicate :=
  if is_null v then PIsNull a else PEq a v.

Definition py_int (o : option Z) : value :=
  match o with Some z => VInt z | None => VNull end.

Definition select (columns : list selectable) : statement :=
  Select columns None [].

Definition join (l : from_clause) (t : table) (onclause : predicate) : from_clause :=
  FJoin l t onclause.

Definition select_from (s : statement) (f : from_clause) : statement :=
  match s with
  | Select cols _ w => Select cols (Some f) w
  | _ => s
  end.

(** [.where(p1, ..., pn)] adds its criteria to those already there. *)
Definition where_ (s : statement) (ps : list predicate) : statement :=
  match s with
  | Select cols f w => Select cols f (w ++ ps)
  | Update t w vs ret => Update t (w ++ ps) vs ret
  | Insert _ _ _ => s
  end.

Definition insert (t : table) : statement := Insert t [] [].
Definition update (t : table) : statement := Update t [] [] [].

(** [.values(k1=v1, ...)]: a later value of a key replaces an earlier one. *)
Fixpoint set_value (vs : list (string * value)) (k : string) (v : value)
  : list (string * value) :=
  match vs with
  | [] => [(k, v)]
  | (k', v') :: vs' =>
      if String.eqb k' k then (k, v) :: vs' else (k', v') :: set_value vs' k v
  end.

Definition set_values (vs kvs : list (string * value)) : list (string * value) :=
  fold_left (fun acc kv => set_value acc (fst kv) (snd kv)) kvs vs.

Definition values (s : statement) (kvs : list (string * value)) : statement :=
  match s with
  | Insert t vs ret => Insert t (set_values vs kvs) ret
  | Update t w vs ret => Update t w (set_values vs kvs) ret
  | Select _ _ _ => s
  end.

Definition returning (s : statement) (cols : list selectable) : statement :=
  match s with
  | Insert t vs ret => Insert t vs (ret ++ cols)
  | Update t w vs ret => Update t w vs (ret ++ cols)
  | Select _ _ _ => s
  end.

Definition whereclause_of (s : statement) : list predicate :=
  match s with
  | Select _ _ w => w
  | Update _ w _ _ => w
  | Insert _ _ _ => []
  end.

(** ** The database *)

(** The columns of each table that the logic layer names, primary key
    first.  [urban_db.entities] declares them; [urban_object_id] is never
    named by the logic layer. *)
Definition columns (t : table) : list string :=
  match t with
  | territories_data => ["territory_id"]
  | physical_object_types_dict => ["physical_object_type_id"; "name"]
  | physical_objects_data =>
      ["physical_object_id"; "physical_object_type_id"; "name"; "properties"]
  | object_geometries_data =>
      ["object_geometry_id"; "territory_id"; "geometry"; "centre_point"; "address"]
  | urban_objects_data =>
      ["urban_object_id"; "physical_object_id"; "object_geometry_id"; "service_id"]
  | services_data =>
      ["service_id"; "service_type_id"; "territory_type_id"; "name";
       "capacity_real"; "properties"]
  | service_types_dict =>
      ["service_type_id"; "urban_function_id"; "name"; "capacity_modeled"; "code"]
  | territory_types_dict => ["territory_type_id"; "name"]
  | living_buildings_data =>
      ["living_building_id"; "physical_object_id"; "residents_number";
       "living_area"; "properties"]
  end.

Definition primary_key (t : table) : string := hd "" (columns t).

(** A table: its rows and the next value of the sequence behind its
    generated primary key. *)
Record stored : Type := mk_stored { rows : list row; next_id : Z }.

Definition database : Type := table -> stored.

Definition set_table (db : database) (t : table) (s : stored) : database :=
  fun t' => if table_eqb t' t then s else db t'.

(** ** Evaluation of predicates *)

Definition lower (ch : ascii) : ascii :=
  let n := nat_of_ascii ch in
  if ((65 <=? n) && (n <=? 90))%nat then ascii_of_nat (n + 32) else ch.

(** LIKE: [%] matches any run of characters, [_] any one character and a
    backslash takes the next character of the pattern literally. *)
Fixpoint like_match (p s : list ascii) {struct p} : bool :=
  match p with
  | [] => match s with [] => true | _ :: _ => false end
  | "%"%char :: p' =>
      (fix any (s0 : list ascii) : bool :=
         like_match p' s0
         || match s0 with [] => false | _ :: s1 => any s1 end) s
  | "_"%char :: p' =>
      match s with [] => false | _ :: s' => like_match p' s' end
  | "\"%char :: x :: p' =>
      match s with [] => false | y :: s' => Ascii.eqb x y && like_match p' s' end
  | x :: p' =>
      match s with [] => false | y :: s' => Ascii.eqb x y && like_match p' s' end
  end.

Definition ilike (s pattern : string) : bool :=
  like_match (map lower (list_ascii_of_string pattern))
             (map lower (list_ascii_of_string s)).

(** A criterion holds on a row when it evaluates to true; a comparison with
    NULL evaluates to NULL, which is not true. *)
Definition holds (j : jrow) (p : predicate) : bool :=
  match p with
  | PEqCol a b => value_eqb (jget j a) (jget j b)
  | PEq a v => value_eqb (jget j a) v
  | PIsNull a => is_null (jget j a)
  | PIlike a pattern =>
      match jget j a with VStr s => ilike s pattern | _ => false end
  end.

Definition holds_all (ps : list predicate) (j : jrow) : bool :=
  forallb (holds j) ps.

(** ** Evaluation of statements *)

(** Inner joins, as nested loops. *)
Fixpoint eval_from (db : database) (f : from_clause) : list jrow :=
  match f with
  | FTable t => map (fun r => [(t, r)]) (rows (db t))
  | FJoin l t onclause =>
      flat_map
        (fun j => flat_map
                    (fun r => let j' := j ++ [(t, r)] in
                              if holds j' onclause then [j'] else [])
                    (rows (db t)))
        (eval_from db l)
  end.

Fixpoint table_row (j : jrow) (t : table) : row :=
  match j with
  | [] => []
  | (t', r) :: j' => if table_eqb t' t then r else table_row j' t
  end.

Definition as_geojson (v : value) : value :=
  match v with VNull => VNull | g => VGeoJSON g end.

Definition project_one (j : jrow) (s : selectable) : row :=
  match s with
  | STable t => table_row j t
  | SCol a => [(snd a, jget j a)]
  | SLabel a label => [(label, jget j a)]
  | SGeoJSON a label => [(label, as_geojson (jget j a))]
  | SSum a => [("sum_1", jget j a)]
  end.

Definition project (cols : list selectable) (j : jrow) : row :=
  flat_map (project_one j) cols.

(** SUM skips NULLs and is NULL when nothing is left to add. *)
Definition sql_add (acc v : value) : value :=
  match acc, v with
  | VInt a, VInt b => VInt (a + b)
  | VNull, VInt b => VInt b
  | _, _ => acc
  end.

Definition sql_sum (vs : list value) : value := fold_left sql_add vs VNull.

(** Without [select_from], the FROM list is the table the columns come
    from. *)
Definition selectable_table (s : selectable) : table :=
  match s with
  | STable t => t
  | SCol a | SLabel a _ | SGeoJSON a _ | SSum a => fst a
  end.

Definition from_of (cols : list selectable) (froms : option from_clause)
  : option from_clause :=
  match froms, cols with
  | Some f, _ => Some f
  | None, s :: _ => Some (FTable (selectable_table s))
  | None, [] => None
  end.

Definition eval_select (db : database) (cols : list selectable)
           (froms : option from_clause) (w : list predicate) : list row :=
  match from_of cols froms with
  | None => []
  | Some f =>
      let js := filter (holds_all w) (eval_from db f) in
      match cols with
      | [SSum a] => [[("sum_1", sql_sum (map (fun j => jget j a) js))]]
      | _ => map (project cols) js
      end
  end.

(** The row an INSERT stores: the next value of the sequence for the
    primary key, the given values, NULL elsewhere. *)
Definition new_row (t : table) (id : Z) (vals : list (string * value)) : row :=
  map (fun k => (k, if String.eqb k (primary_key t) then VInt id else rget vals k))
      (columns t).

(** The row an UPDATE makes of a stored row: the values laid over it. *)
Definition row_update (r : row) (vals : list (string * value)) : row :=
  set_values r vals.

Definition update_rows (t : table) (w : list predicate)
           (vals : list (string * value)) (rs : list row) : list row :=
  map (fun r => if holds_all w [(t, r)] then row_update r vals else r) rs.

Inductive exception : Type :=
  | HTTPException (status_code : Z) (detail : string)
  | NoResultFound
  | MultipleResultsFound
  | ProgrammingError.

(** What running a statement gives: the rows of its result and the
    database after it.  An UPDATE with nothing to set renders an empty SET
    list, which the database refuses.  The constraints of the schema
    (foreign keys, NOT NULL, UNIQUE) are not part of the model: the logic
    layer looks references up itself before it writes. *)
Definition run (db : database) (s : statement)
  : exception + (list row * database) :=
  match s with
  | Select cols froms w => inr (eval_select db cols froms w, db)
  | Insert t vals ret =>
      let id := next_id (db t) in
      let r := new_row t id vals in
      inr ([project ret [(t, r)]],
           set_table db t (mk_stored (rows (db t) ++ [r]) (id + 1)))
  | Update t w vals ret =>
      match vals with
      | [] => inl ProgrammingError
      | _ :: _ =>
          let hit := filter (fun r => holds_all w [(t, r)]) (rows (db t)) in
          inr (map (fun r => project ret [(t, row_update r vals)]) hit,
               set_table db t
                 (mk_stored (update_rows t w vals (rows (db t))) (next_id (db t))))
      end
  end.

(** ** The connection *)

(** An [AsyncConnection] inside its transaction: the tables as the session
    sees them, the tables as last committed (what remains if the session
    ends without a commit) and the statements executed so far. *)
Record AsyncConnection : Type := mk_conn {
  session : database;
  committed : database;
  executed : list statement
}.

(** A coroutine of the logic layer: it returns or raises, and leaves the
    connection in a new state. *)
Definition io (A : Type) : Type :=
  AsyncConnection -> (exception + A) * AsyncConnection.

Definition ret {A : Type} (a : A) : io A := fun conn => (inr a, conn).

Definition raise {A : Type} (e : exception) : io A := fun conn => (inl e, conn).

Definition bind {A B : Type} (m : io A) (k : A -> io B) : io B :=
  fun conn =>
    match m conn with
    | (inl e, conn') => (inl e, conn')
    | (inr a, conn') => k a conn'
    end.

Notation "x <- m ;; k" := (bind m (fun x => k))
  (at level 100, m at next level, right associativity).

Definition execute (s : statement) : io (list row) :=
  fun conn =>
    let log := executed conn ++ [s] in
    match run (session conn) s with
    | inl e => (inl e, mk_conn (session conn) (committed conn) log)
    | inr (rs, db') => (inr rs, mk_conn db' (committed conn) log)
    end.

Definition commit : io unit :=
  fun conn => (inr tt, mk_conn (session conn) (session conn) (executed conn)).

(** The methods of a result that the logic layer calls. *)
Definition one_or_none (rs : list row) : io (option row) :=
  match rs with
  | [] => ret None
  | [r] => ret (Some r)
  | _ :: _ :: _ => raise MultipleResultsFound
  end.

Definition one (rs : list row) : io row :=
  match rs with
  | [] => raise NoResultFound
  | [r] => ret r
  | _ :: _ :: _ => raise MultipleResultsFound
  end.

Definition first_column (r : row) : value :=
  match r with [] => VNull | (_, v) :: _ => v end.

Definition scalar (rs : list row) : io value :=
  match rs with
  | [] => ret VNull
  | r :: _ => ret (first_column r)
  end.

Definition scalar_one (rs : list row) : io value :=
  r <- one rs ;; ret (first_column r).

(** ** Schemas and DTOs *)

(** A DTO is built from the mapping of a result row by keyword, so it is
    that mapping. *)
Definition PhysicalObjectTypeDTO (kw : row) : row := kw.
Definition PhysicalObjectDataDTO (kw : row) : row := kw.
Definition PhysicalObjectWithGeometryDTO (kw : row) : row := kw.
Definition LivingBuildingsDTO (kw : row) : row := kw.
Definition ServiceDTO (kw : row) : row := kw.
Definition ServiceWithGeometryDTO (kw : row) : row := kw.
Definition ObjectGeometryDTO (kw : row) : row := kw.

Definition py_str (o : option string) : value :=
  match o with Some s => VStr s | None => VNull end.

Definition py_float (o : option spec_float) : value :=
  match o with Some x => VFloat x | None => VNull end.

Definition py_dict (o : option members) : value :=
  match o with Some m => VJson (JObj m) | None => VNull end.

(** Modelled from the spec: the request schemas of [urban_api.schemas],
    which the logic layer imports.  Their fields are the ones the functions
    below read; a geometry field holds the text that
    [str(g.as_shapely_geometry())] gives. *)
Record PhysicalObjectsTypesPost : Type := {
  pot_name : string
}.

Record PhysicalObjectsDataPost : Type := {
  post_geometry : string;
  post_territory_id : Z;
  post_centre_point : string;
  post_address : option string;
  post_physical_object_type_id : Z;
  post_name : option string;
  post_properties : members
}.

Record PhysicalObjectsDataPut : Type := {
  put_physical_object_type_id : Z;
  put_name : option string;
  put_properties : members
}.

Record PhysicalObjectsDataPatch : Type := {
  patch_physical_object_type_id : option Z;
  patch_name : option string;
  patch_properties : option members
}.

Record LivingBuildingsDataPost : Type := {
  lb_post_physical_object_id : Z;
  lb_post_residents_number : option Z;
  lb_post_living_area : option spec_float;
  lb_post_properties : members
}.

Record LivingBuildingsDataPut : Type := {
  lb_put_physical_object_id : Z;
  lb_put_residents_number : option Z;
  lb_put_living_area : option spec_float;
  lb_put_properties : members
}.

Record LivingBuildingsDataPatch : Type := {
  lb_patch_physical_object_id : option Z;
  lb_patch_residents_number : option Z;
  lb_patch_living_area : option spec_float;
  lb_patch_properties : option members
}.

(** [model_dump().items()]: every field with its value, [None] for a field
    the request left out. *)
Definition model_dump_physical_object (p : PhysicalObjectsDataPatch)
  : list (string * value) :=
  [("physical_object_type_id", py_int (patch_physical_object_type_id p));
   ("name", py_str (patch_name p));
   ("properties", py_dict (patch_properties p))].

Definition model_dump_living_building (p : LivingBuildingsDataPatch)
  : list (string * value) :=
  [("physical_object_id", py_int (lb_patch_physical_object_id p));
   ("residents_number", py_int (lb_patch_residents_number p));
   ("living_area", py_float (lb_patch_living_area p));
   ("properties", py_dict (lb_patch_properties p))].

(** ** logic/physical_objects.py *)

Definition add_physical_object_type_to_db
           (physical_object_type : PhysicalObjectsTypesPost) : io row :=
  let statement :=
    where_ (select [STable physical_object_types_dict])
           [col_eq (c physical_object_types_dict "name")
                   (VStr (pot_name physical_object_type))] in
  rs <- execute statement ;;
  result <- one_or_none rs ;;
  match result with
  | Some _ =>
      raise (HTTPException 400 "Invalid input (physical object type already exists)")
  | None =>
      let statement :=
        returning
          (values (insert physical_object_types_dict)
                  [("name", VStr (pot_name physical_object_type))])
          [STable physical_object_types_dict] in
      rs <- execute statement ;;
      result <- one rs ;;
      _ <- commit ;;
      ret (PhysicalObjectTypeDTO result)
  end.

Definition get_physical_object_by_id_from_db (physical_object_id : value) : io row :=
  let statement :=
    where_
      (select_from
         (select [STable physical_objects_data;
                  SLabel (c physical_object_types_dict "name") "physical_object_type_name";
                  SCol (c object_geometries_data "address")])
         (join
            (join
               (join (FTable physical_objects_data)
                     urban_objects_data
                     (PEqCol (c physical_objects_data "physical_object_id")
                             (c urban_objects_data "physical_object_id")))
               object_geometries_data
               (PEqCol (c urban_objects_data "object_geometry_id")
                       (c object_geometries_data "object_geometry_id")))
            physical_object_types_dict
            (PEqCol (c physical_objects_data "physical_object_type_id")
                    (c physical_object_types_dict "physical_object_type_id"))))
      [col_eq (c physical_objects_data "physical_object_id") physical_object_id] in
  rs <- execute statement ;;
  result <- one_or_none rs ;;
  match result with
  | None => raise (HTTPException 404 "Given id is not found")
  | Some result => ret (PhysicalObjectDataDTO result)
  end.

Definition add_physical_object_with_geometry_to_db
           (physical_object : PhysicalObjectsDataPost) : io (list (string * value)) :=
  let statement :=
    where_ (select [STable territories_data])
           [col_eq (c territories_data "territory_id")
                   (VInt (post_territory_id physical_object))] in
  rs <- execute statement ;;
  territory <- one_or_none rs ;;
  match territory with
  | None => raise (HTTPException 404 "Given territory id is not found")
  | Some _ =>
  let statement :=
    where_ (select [STable physical_object_types_dict])
           [col_eq (c physical_object_types_dict "physical_object_type_id")
                   (VInt (post_physical_object_type_id physical_object))] in
  rs <- execute statement ;;
  physical_object_type <- one_or_none rs ;;
  match physical_object_type with
  | None => raise (HTTPException 404 "Given physical object type id is not found")
  | Some _ =>
  let statement :=
    returning
      (values (insert physical_objects_data)
              [("physical_object_type_id",
                VInt (post_physical_object_type_id physical_object));
               ("name", py_str (post_name physical_object));
               ("properties", VJson (JObj (post_properties physical_object)))])
      [SCol (c physical_objects_data "physical_object_id")] in
  rs <- execute statement ;;
  physical_object_id <- scalar_one rs ;;
  let statement :=
    returning
      (values (insert object_geometries_data)
              [("territory_id", VInt (post_territory_id physical_object));
               ("geometry", VGeom 4326 (post_geometry physical_object));
               ("centre_point", VGeom 4326 (post_centre_point physical_object));
               ("address", py_str (post_address physical_object))])
      [SCol (c object_geometries_data "object_geometry_id")] in
  rs <- execute statement ;;
  object_geometry_id <- scalar_one rs ;;
  let statement :=
    values (insert urban_objects_data)
           [("physical_object_id", physical_object_id);
            ("object_geometry_id", object_geometry_id)] in
  _ <- execute statement ;;
  _ <- commit ;;
  ret [("physical_object_id", physical_object_id);
       ("object_geometry_id", object_geometry_id);
       ("territory_id", VInt (post_territory_id physical_object))]
  end
  end.

Definition put_physical_object_to_db
           (physical_object : PhysicalObjectsDataPut) (physical_object_id : Z) : io row :=
  let statement :=
    where_ (select [STable physical_objects_data])
           [col_eq (c physical_objects_data "physical_object_id")
                   (VInt physical_object_id)] in
  rs <- execute statement ;;
  requested_physical_object <- one_or_none rs ;;
  match requested_physical_object with
  | None => raise (HTTPException 404 "Given physical object id is not found")
  | Some _ =>
  let statement :=
    where_ (select [STable physical_object_types_dict])
           [col_eq (c physical_object_types_dict "physical_object_type_id")
                   (VInt (put_physical_object_type_id physical_object))] in
  rs <- execute statement ;;
  physical_object_type <- one_or_none rs ;;
  match physical_object_type with
  | None => raise (HTTPException 404 "Given physical object type id is not found")
  | Some _ =>
  let statement :=
    returning
      (values
         (where_ (update physical_objects_data)
                 [col_eq (c physical_objects_data "physical_object_id")
                         (VInt physical_object_id)])
         [("physical_object_type_id",
           VInt (put_physical_object_type_id physical_object));
          ("name", py_str (put_name physical_object));
          ("properties", VJson (JObj (put_properties physical_object)))])
      [STable physical_objects_data] in
  rs <- execute statement ;;
  result <- one rs ;;
  _ <- commit ;;
  get_physical_object_by_id_from_db (rget result "physical_object_id")
  end
  end.

(** The loop of the two patch functions over [model_dump().items()]: a
    field that is not [None] goes to [values_to_update], the foreign key
    [fk] after a look-up of its new value in [parent]. *)
Fixpoint collect_values_to_update
         (fk : string) (parent : table) (parent_key : string) (fk_value : value)
         (not_found : string)
         (items : list (string * value)) (values_to_update : list (string * value))
  : io (list (string * value)) :=
  match items with
  | [] => ret values_to_update
  | (k, v) :: items' =>
      if is_null v then
        collect_values_to_update fk parent parent_key fk_value not_found
                                 items' values_to_update
      else
        _ <- (if String.eqb k fk then
                let new_statement :=
                  where_ (select [STable parent])
                         [col_eq (c parent parent_key) fk_value] in
                rs <- execute new_statement ;;
                found <- one_or_none rs ;;
                match found with
                | None => raise (HTTPException 404 not_found)
                | Some _ => ret tt
                end
              else ret tt) ;;
        collect_values_to_update fk parent parent_key fk_value not_found
                                 items' (set_value values_to_update k v)
  end.

Definition patch_physical_object_to_db
           (physical_object : PhysicalObjectsDataPatch) (physical_object_id : Z) : io row :=
  let statement :=
    where_ (select [STable physical_objects_data])
           [col_eq (c physical_objects_data "physical_object_id")
                   (VInt physical_object_id)] in
  rs <- execute statement ;;
  requested_physical_object <- one_or_none rs ;;
  match requested_physical_object with
  | None => raise (HTTPException 404 "Given physical object id is not found")
  | Some _ =>
  let statement :=
    returning
      (where_ (update physical_objects_data)
              [col_eq (c physical_objects_data "physical_object_id")
                      (VInt physical_object_id)])
      [STable physical_objects_data] in
  values_to_update <-
    collect_values_to_update
      "physical_object_type_id" physical_object_types_dict "physical_object_type_id"
      (py_int (patch_physical_object_type_id physical_object))
      "Given physical object type id is not found"
      (model_dump_physical_object physical_object) [] ;;
  let statement := values statement values_to_update in
  rs <- execute statement ;;
  result <- one rs ;;
  _ <- commit ;;
  get_physical_object_by_id_from_db (rget result "physical_object_id")
  end.

Definition get_living_building_by_id_from_db (living_building_id : value) : io row :=
  let statement :=
    where_
      (select_from
         (select [SCol (c living_buildings_data "living_building_id");
                  SCol (c living_buildings_data "residents_number");
                  SCol (c living_buildings_data "living_area");
                  SCol (c living_buildings_data "properties");
                  SCol (c physical_objects_data "physical_object_id");
                  SLabel (c physical_objects_data "name") "physical_object_name";
                  SLabel (c physical_objects_data "properties") "physical_object_properties";
                  SCol (c physical_object_types_dict "physical_object_type_id");
                  SLabel (c physical_object_types_dict "name") "physical_object_type_name";
                  SLabel (c object_geometries_data "address") "physical_object_address"])
         (join
            (join
               (join
                  (join (FTable living_buildings_data)
                        physical_objects_data
                        (PEqCol (c physical_objects_data "physical_object_id")
                                (c living_buildings_data "physical_object_id")))
                  physical_object_types_dict
                  (PEqCol (c physical_objects_data "physical_object_type_id")
                          (c physical_object_types_dict "physical_object_type_id")))
               urban_objects_data
               (PEqCol (c urban_objects_data "physical_object_id")
                       (c physical_objects_data "physical_object_id")))
            object_geometries_data
            (PEqCol (c urban_objects_data "object_geometry_id")
                    (c object_geometries_data "object_geometry_id"))))
      [col_eq (c living_buildings_data "living_building_id") living_building_id] in
  rs <- execute statement ;;
  result <- one rs ;;
  _ <- commit ;;
  ret (LivingBuildingsDTO result).

Definition add_living_building_to_db (living_building : LivingBuildingsDataPost) : io row :=
  let statement :=
    where_ (select [STable physical_objects_data])
           [col_eq (c physical_objects_data "physical_object_id")
                   (VInt (lb_post_physical_object_id living_building))] in
  rs <- execute statement ;;
  physical_object <- one_or_none rs ;;
  match physical_object with
  | None => raise (HTTPException 404 "Given physical object id is not found")
  | Some _ =>
  let statement :=
    returning
      (values (insert living_buildings_data)
              [("physical_object_id", VInt (lb_post_physical_object_id living_building));
               ("residents_number", py_int (lb_post_residents_number living_building));
               ("living_area", py_float (lb_post_living_area living_building));
               ("properties", VJson (JObj (lb_post_properties living_building)))])
      [SCol (c living_buildings_data "living_building_id")] in
  rs <- execute statement ;;
  living_building_id <- scalar_one rs ;;
  _ <- commit ;;
  get_living_building_by_id_from_db living_building_id
  end.

Definition put_living_building_to_db
           (living_building : LivingBuildingsDataPut) (living_building_id : Z) : io row :=
  let statement :=
    where_ (select [STable living_buildings_data])
           [col_eq (c living_buildings_data "living_building_id")
                   (VInt living_building_id)] in
  rs <- execute statement ;;
  requested_living_building <- one_or_none rs ;;
  match requested_living_building with
  | None => raise (HTTPException 404 "Given living building id is not found")
  | Some _ =>
  let statement :=
    where_ (select [STable physical_objects_data])
           [col_eq (c physical_objects_data "physical_object_id")
                   (VInt (lb_put_physical_object_id living_building))] in
  rs <- execute statement ;;
  physical_object <- one_or_none rs ;;
  match physical_object with
  | None => raise (HTTPException 404 "Given physical object id is not found")
  | Some _ =>
  let statement :=
    returning
      (values
         (where_ (update living_buildings_data)
                 [col_eq (c living_buildings_data "living_building_id")
                         (VInt living_building_id)])
         [("physical_object_id", VInt (lb_put_physical_object_id living_building));
          ("residents_number", py_int (lb_put_residents_number living_building));
          ("living_area", py_float (lb_put_living_area living_building));
          ("properties", VJson (JObj (lb_put_properties living_building)))])
      [STable living_buildings_data] in
  rs <- execute statement ;;
  result <- one rs ;;
  _ <- commit ;;
  get_living_building_by_id_from_db (rget result "living_building_id")
  end
  end.

Definition patch_living_building_to_db
           (living_building : LivingBuildingsDataPatch) (living_building_id : Z) : io row :=
  let statement :=
    where_ (select [STable living_buildings_data])
           [col_eq (c living_buildings_data "living_building_id")
                   (VInt living_building_id)] in
  rs <- execute statement ;;
  requested_living_building <- one_or_none rs ;;
  match requested_living_building with
  | None => raise (HTTPException 404 "Given living building id is not found")
  | Some _ =>
  let statement :=
    returning
      (where_ (update living_buildings_data)
              [col_eq (c living_buildings_data "living_building_id")
                      (VInt living_building_id)])
      [STable living_buildings_data] in
  values_to_update <-
    collect_values_to_update
      "physical_object_id" physical_objects_data "physical_object_id"
      (py_int (lb_patch_physical_object_id living_building))
      "Given physical object id is not found"
      (model_dump_living_building living_building) [] ;;
  let statement := values statement values_to_update in
  rs <- execute statement ;;
  result <- one rs ;;
  _ <- commit ;;
  get_living_building_by_id_from_db (rget result "living_building_id")
  end.

Definition get_services_by_physical_object_id_from_db
           (physical_object_id : Z) (service_type_id territory_type_id : option Z)
  : io (list row) :=
  let statement :=
    where_ (select [STable physical_objects_data])
           [col_eq (c physical_objects_data "physical_object_id")
                   (VInt physical_object_id)] in
  rs <- execute statement ;;
  physical_object <- one_or_none rs ;;
  match physical_object with
  | None => raise (HTTPException 404 "Given physical object id is not found")
  | Some _ =>
  let statement :=
    where_
      (select_from
         (select [SCol (c services_data "service_id");
                  SCol (c services_data "name");
                  SCol (c services_data "capacity_real");
                  SCol (c services_data "properties");
                  SCol (c service_types_dict "service_type_id");
                  SCol (c service_types_dict "urban_function_id");
                  SLabel (c service_types_dict "name") "service_type_name";
                  SLabel (c service_types_dict "capacity_modeled")
                         "service_type_capacity_modeled";
                  SLabel (c service_types_dict "code") "service_type_code";
                  SCol (c territory_types_dict "territory_type_id");
                  SLabel (c territory_types_dict "name") "territory_type_name"])
         (join
            (join
               (join (FTable services_data)
                     urban_objects_data
                     (PEqCol (c services_data "service_id")
                             (c urban_objects_data "service_id")))
               service_types_dict
               (PEqCol (c service_types_dict "service_type_id")
                       (c services_data "service_type_id")))
            territory_types_dict
            (PEqCol (c territory_types_dict "territory_type_id")
                    (c services_data "territory_type_id"))))
      [col_eq (c urban_objects_data "physical_object_id") (VInt physical_object_id)] in
  let statement :=
    match service_type_id with
    | Some id => where_ statement [col_eq (c services_data "service_type_id") (VInt id)]
    | None => statement
    end in
  let statement :=
    match territory_type_id with
    | Some id =>
        where_ statement [col_eq (c territory_types_dict "territory_type_id") (VInt id)]
    | None => statement
    end in
  result <- execute statement ;;
  ret (map ServiceDTO result)
  end.

Definition get_services_with_geometry_by_physical_object_id_from_db
           (physical_object_id : Z) (service_type_id territory_type_id : option Z)
  : io (list row) :=
  let statement :=
    where_ (select [STable physical_objects_data])
           [col_eq (c physical_objects_data "physical_object_id")
                   (VInt physical_object_id)] in
  rs <- execute statement ;;
  physical_object <- one_or_none rs ;;
  match physical_object with
  | None => raise (HTTPException 404 "Given physical object id is not found")
  | Some _ =>
  let statement :=
    where_
      (select_from
         (select [SCol (c services_data "service_id");
                  SCol (c services_data "name");
                  SCol (c services_data "capacity_real");
                  SCol (c services_data "properties");
                  SCol (c service_types_dict "service_type_id");
                  SCol (c service_types_dict "urban_function_id");
                  SLabel (c service_types_dict "name") "service_type_name";
                  SLabel (c service_types_dict "capacity_modeled")
                         "service_type_capacity_modeled";
                  SLabel (c service_types_dict "code") "service_type_code";
                  SCol (c territory_types_dict "territory_type_id");
                  SLabel (c territory_types_dict "name") "territory_type_name";
                  SGeoJSON (c object_geometries_data "geometry") "geometry";
                  SGeoJSON (c object_geometries_data "centre_point") "centre_point"])
         (join
            (join
               (join
                  (join (FTable services_data)
                        urban_objects_data
                        (PEqCol (c services_data "service_id")
                                (c urban_objects_data "service_id")))
                  object_geometries_data
                  (PEqCol (c object_geometries_data "object_geometry_id")
                          (c urban_objects_data "object_geometry_id")))
               service_types_dict
               (PEqCol (c service_types_dict "service_type_id")
                       (c services_data "service_type_id")))
            territory_types_dict
            (PEqCol (c territory_types_dict "territory_type_id")
                    (c services_data "territory_type_id"))))
      [col_eq (c urban_objects_data "physical_object_id") (VInt physical_object_id)] in
  let statement :=
    match service_type_id with
    | Some id => where_ statement [col_eq (c services_data "service_type_id") (VInt id)]
    | None => statement
    end in
  let statement :=
    match territory_type_id with
    | Some id =>
        where_ statement [col_eq (c territory_types_dict "territory_type_id") (VInt id)]
    | None => statement
    end in
  result <- execute statement ;;
  ret (map ServiceWithGeometryDTO result)
  end.

Definition get_physical_object_geometries_from_db (physical_object_id : Z)
  : io (list row) :=
  let statement :=
    where_ (select [STable physical_objects_data])
           [col_eq (c physical_objects_data "physical_object_id")
                   (VInt physical_object_id)] in
  rs <- execute statement ;;
  physical_object <- one_or_none rs ;;
  match physical_object with
  | None => raise (HTTPException 404 "Given physical object id is not found")
  | Some _ =>
  let statement :=
    where_
      (select_from
         (select [SCol (c object_geometries_data "object_geometry_id");
                  SCol (c object_geometries_data "territory_id");
                  SCol (c object_geometries_data "address");
                  SGeoJSON (c object_geometries_data "geometry") "geometry";
                  SGeoJSON (c object_geometries_data "centre_point") "centre_point"])
         (join (FTable urban_objects_data)
               object_geometries_data
               (PEqCol (c urban_objects_data "object_geometry_id")
                       (c object_geometries_data "object_geometry_id"))))
      [col_eq (c urban_objects_data "physical_object_id") (VInt physical_object_id)] in
  result <- execute statement ;;
  ret (map ObjectGeometryDTO result)
  end.

(** ** logic/impl/helpers/territories_physical_objects.py *)

Definition get_physical_objects_by_territory_id_from_db
           (territory_id : Z) (physical_object_type : option Z) (name : option string)
  : io (list row) :=
  let statement :=
    where_ (select [STable territories_data])
           [col_eq (c territories_data "territory_id") (VInt territory_id)] in
  rs <- execute statement ;;
  territory <- one_or_none rs ;;
  match territory with
  | None => raise (HTTPException 404 "Given territory id is not found")
  | Some _ =>
  let statement :=
    where_
      (select_from
         (select [SCol (c physical_objects_data "physical_object_id");
                  SCol (c physical_objects_data "physical_object_type_id");
                  SLabel (c physical_object_types_dict "name") "physical_object_type_name";
                  SCol (c physical_objects_data "name");
                  SCol (c object_geometries_data "address");
                  SCol (c physical_objects_data "properties")])
         (join
            (join
               (join (FTable physical_objects_data)
                     urban_objects_data
                     (PEqCol (c physical_objects_data "physical_object_id")
                             (c urban_objects_data "physical_object_id")))
               object_geometries_data
               (PEqCol (c urban_objects_data "object_geometry_id")
                       (c object_geometries_data "object_geometry_id")))
            physical_object_types_dict
            (PEqCol (c physical_objects_data "physical_object_type_id")
                    (c physical_object_types_dict "physical_object_type_id"))))
      [col_eq (c object_geometries_data "territory_id") (VInt territory_id)] in
  let statement :=
    match physical_object_type with
    | Some t =>
        where_ statement
               [col_eq (c physical_objects_data "physical_object_type_id") (VInt t)]
    | None => statement
    end in
  let statement :=
    match name with
    | Some n =>
        where_ statement
               [PIlike (c physical_objects_data "name") ("%" ++ n ++ "%")%string]
    | None => statement
    end in
  result <- execute statement ;;
  ret (map PhysicalObjectDataDTO result)
  end.

Definition get_physical_objects_with_geometry_by_territory_id_from_db
           (territory_id : Z) (physical_object_type : option Z) (name : option string)
  : io (list row) :=
  let statement :=
    where_ (select [STable territories_data])
           [col_eq (c territories_data "territory_id") (VInt territory_id)] in
  rs <- execute statement ;;
  territory <- one_or_none rs ;;
  match territory with
  | None => raise (HTTPException 404 "Given territory id is not found")
  | Some _ =>
  let statement :=
    where_
      (select_from
         (select [SCol (c physical_objects_data "physical_object_id");
                  SCol (c physical_objects_data "physical_object_type_id");
                  SCol (c physical_objects_data "name");
                  SCol (c object_geometries_data "address");
                  SCol (c physical_objects_data "properties");
                  SGeoJSON (c object_geometries_data "geometry") "geometry";
                  SGeoJSON (c object_geometries_data "centre_point") "centre_point"])
         (join
            (join (FTable physical_objects_data)
                  urban_objects_data
                  (PEqCol (c physical_objects_data "physical_object_id")
                          (c urban_objects_data "physical_object_id")))
            object_geometries_data
            (PEqCol (c urban_objects_data "object_geometry_id")
                    (c object_geometries_data "object_geometry_id"))))
      [col_eq (c object_geometries_data "territory_id") (VInt territory_id)] in
  let statement :=
    match physical_object_type with
    | Some t =>
        where_ statement
               [col_eq (c physical_objects_data "physical_object_type_id") (VInt t)]
    | None => statement
    end in
  let statement :=
    match name with
    | Some n =>
        where_ statement
               [PIlike (c physical_objects_data "name") ("%" ++ n ++ "%")%string]
    | None => statement
    end in
  result <- execute statement ;;
  ret (map PhysicalObjectWithGeometryDTO result)
  end.

(** ** logic/impl/helpers/territory_services.py *)

Definition get_services_by_territory_id_from_db
           (territory_id : Z) (service_type_id : option Z) (name : option string)
  : io (list row) :=
  let statement :=
    where_ (select [STable territories_data])
           [col_eq (c territories_data "territory_id") (VInt territory_id)] in
  rs <- execute statement ;;
  territory <- one_or_none rs ;;
  match territory with
  | None => raise (HTTPException 404 "Given territory id is not found")
  | Some _ =>
  let statement :=
    where_
      (select_from
         (select [SCol (c services_data "service_id");
                  SCol (c services_data "name");
                  SCol (c services_data "capacity_real");
                  SCol (c services_data "properties");
                  SCol (c service_types_dict "service_type_id");
                  SCol (c service_types_dict "urban_function_id");
                  SLabel (c service_types_dict "name") "service_type_name";
                  SLabel (c service_types_dict "capacity_modeled")
                         "service_type_capacity_modeled";
                  SLabel (c service_types_dict "code") "service_type_code";
                  SCol (c territory_types_dict "territory_type_id");
                  SLabel (c territory_types_dict "name") "territory_type_name"])
         (join
            (join
               (join
                  (join (FTable services_data)
                        urban_objects_data
                        (PEqCol (c services_data "service_id")
                                (c urban_objects_data "service_id")))
                  object_geometries_data
                  (PEqCol (c urban_objects_data "object_geometry_id")
                          (c object_geometries_data "object_geometry_id")))
               service_types_dict
               (PEqCol (c service_types_dict "service_type_id")
                       (c services_data "service_type_id")))
            territory_types_dict
            (PEqCol (c territory_types_dict "territory_type_id")
                    (c services_data "territory_type_id"))))
      [col_eq (c object_geometries_data "territory_id") (VInt territory_id)] in
  let statement :=
    match service_type_id with
    | Some id => where_ statement [col_eq (c services_data "service_type_id") (VInt id)]
    | None => statement
    end in
  let statement :=
    match name with
    | Some n =>
        where_ statement [PIlike (c services_data "name") ("%" ++ n ++ "%")%string]
    | None => statement
    end in
  result <- execute statement ;;
  ret (map ServiceDTO result)
  end.

Definition get_services_with_geometry_by_territory_id_from_db
           (territory_id : Z) (service_type_id : option Z) (name : option string)
  : io (list row) :=
  let statement :=
    where_ (select [STable territories_data])
           [col_eq (c territories_data "territory_id") (VInt territory_id)] in
  rs <- execute statement ;;
  territory <- one_or_none rs ;;
  match territory with
  | None => raise (HTTPException 404 "Given territory id is not found")
  | Some _ =>
  let statement :=
    where_
      (select_from
         (select [SCol (c services_data "service_id");
                  SCol (c services_data "name");
                  SCol (c services_data "capacity_real");
                  SCol (c services_data "properties");
                  SCol (c service_types_dict "service_type_id");
                  SCol (c service_types_dict "urban_function_id");
                  SLabel (c service_types_dict "name") "service_type_name";
                  SLabel (c service_types_dict "capacity_modeled")
                         "service_type_capacity_modeled";
                  SLabel (c service_types_dict "code") "service_type_code";
                  SCol (c territory_types_dict "territory_type_id");
                  SLabel (c territory_types_dict "name") "territory_type_name";
                  SGeoJSON (c object_geometries_data "geometry") "geometry";
                  SGeoJSON (c object_geometries_data "centre_point") "centre_point"])
         (join
            (join
               (join
                  (join (FTable services_data)
                        urban_objects_data
                        (PEqCol (c services_data "service_id")
                                (c urban_objects_data "service_id")))
                  object_geometries_data
                  (PEqCol (c urban_objects_data "object_geometry_id")
                          (c object_geometries_data "object_geometry_id")))
               service_types_dict
               (PEqCol (c service_types_dict "service_type_id")
                       (c services_data "service_type_id")))
            territory_types_dict
            (PEqCol (c territory_types_dict "territory_type_id")
                    (c services_data "territory_type_id"))))
      [col_eq (c object_geometries_data "territory_id") (VInt territory_id)] in
  let statement :=
    match service_type_id with
    | Some id => where_ statement [col_eq (c services_data "service_type_id") (VInt id)]
    | None => statement
    end in
  let statement :=
    match name with
    | Some n =>
        where_ statement [PIlike (c services_data "name") ("%" ++ n ++ "%")%string]
    | None => statement
    end in
  result <- execute statement ;;
  ret (map ServiceWithGeometryDTO result)
  end.

Definition get_services_capacity_by_territory_id_from_db
           (territory_id : Z) (service_type_id : option Z) : io value :=
  let statement :=
    where_ (select [STable territories_data])
           [col_eq (c territories_data "territory_id") (VInt territory_id)] in
  rs <- execute statement ;;
  territory <- one_or_none rs ;;
  match territory with
  | None => raise (HTTPException 404 "Given territory id is not found")
  | Some _ =>
  let statement :=
    where_
      (select_from
         (select [SSum (c services_data "capacity_real")])
         (join
            (join (FTable services_data)
                  urban_objects_data
                  (PEqCol (c services_data "service_id")
                          (c urban_objects_data "service_id")))
            object_geometries_data
            (PEqCol (c urban_objects_data "object_geometry_id")
                    (c object_geometries_data "object_geometry_id"))))
      [col_eq (c object_geometries_data "territory_id") (VInt territory_id);
       col_eq (c services_data "service_type_id") (py_int service_type_id)] in
  rs <- execute statement ;;
  result <- scalar rs ;;
  ret result
  end.

(** ** Ordered selects *)

(** [statement.order_by(key)]: a SELECT with an ORDER BY clause on one
    column, ascending. *)
Inductive ordered_statement : Type :=
  | OrderBy (s : statement) (key : column).

Definition order_by (s : statement) (key : column) : ordered_statement :=
  OrderBy s key.

(** The order of ORDER BY ... ASC: integers by value, NULL (and whatever
    is not an integer) last. *)
Definition value_leb (a b : value) : bool :=
  match a, b with
  | VInt x, VInt y => Z.leb x y
  | VInt _, _ => true
  | _, VInt _ => false
  | _, _ => true
  end.

Fixpoint insert_on {A : Type} (key : A -> value) (x : A) (l : list A) : list A :=
  match l with
  | [] => [x]
  | y :: l' =>
      if value_leb (key x) (key y) then x :: l else y :: insert_on key x l'
  end.

Definition sort_on {A : Type} (key : A -> value) (l : list A) : list A :=
  fold_right (insert_on key) [] l.

Definition eval_ordered (db : database) (q : ordered_statement) : list row :=
  match q with
  | OrderBy (Select cols froms w) key =>
      match from_of cols froms with
      | None => []
      | Some f =>
          map (project cols)
              (sort_on (fun j => jget j key) (filter (holds_all w) (eval_from db f)))
      end
  | OrderBy _ _ => []
  end.

(** Executing an ordered select; the log keeps its SELECT. *)
Definition execute_ordered (q : ordered_statement) : io (list row) :=
  fun conn =>
    match q with
    | OrderBy s _ =>
        (inr (eval_ordered (session conn) q),
         mk_conn (session conn) (committed conn) (executed conn ++ [s]))
    end.

Definition get_physical_object_types_from_db : io (list row) :=
  let statement :=
    order_by (select [STable physical_object_types_dict])
             (c physical_object_types_dict "physical_object_type_id") in
  rs <- execute_ordered statement ;;
  ret (map PhysicalObjectTypeDTO rs).

(** * Specification vocabulary *)

(** ** Presence of a key *)

(** The rows of [t] whose column [k] equals [v]: what
    [select(t).where(t.c.k == v)] returns. *)
Definition matching (db : database) (t : table) (k : string) (v : value) : list row :=
  filter (fun r => value_eqb (rget r k) v) (rows (db t)).

(** [v] is a key of no row of [t]. *)
Definition absent (db : database) (t : table) (k : string) (v : value) : Prop :=
  matching db t k v = [].

(** [v] is the key of a row of [t] and, [k] being a unique column, of that
    row only. *)
Definition present (db : database) (t : table) (k : string) (v : value) : Prop :=
  List.length (matching db t k v) = 1%nat.

(** ** What a call executed *)

(** The existence check that opens the functions of the logic layer, as
    the connection logs it. *)
Definition check (t : table) (k : string) (v : value) : statement :=
  Select [STable t] None [PEq (c t k) v].

(** A SELECT over a join. *)
Definition is_join_query (s : statement) : bool :=
  match s with
  | Select _ (Some (FJoin _ _ _)) _ => true
  | _ => false
  end.

(** An INSERT or an UPDATE. *)
Definition is_write (s : statement) : bool :=
  match s with
  | Select _ _ _ => false
  | Insert _ _ _ | Update _ _ _ _ => true
  end.

(** The connection after one more statement that changed nothing. *)
Definition logged (conn : AsyncConnection) (ss : list statement) : AsyncConnection :=
  mk_conn (session conn) (committed conn) (executed conn ++ ss).

(** The query a read ends with: the last statement it executed. *)
Definition generated {A : Type} (out : (exception + A) * AsyncConnection) : statement :=
  last (executed (snd out)) (select []).

(** How a read scoped to territory [T] ends when [T] does not exist: the
    404, with the existence check executed and nothing else. *)
Definition territory_not_found {A : Type} (conn : AsyncConnection) (T : Z)
  : (exception + A) * AsyncConnection :=
  (inl (HTTPException 404 "Given territory id is not found"),
   logged conn [check territories_data "territory_id" (VInt T)]).

(** ** Optional filters *)

(** The criterion of an optional filter: none for [None]. *)
Definition optional {A : Type} (o : option A) (crit : A -> predicate) : list predicate :=
  match o with
  | Some a => [crit a]
  | None => []
  end.

(** The join and the sum of the capacity aggregation, with the criteria
    [w]. *)
Definition capacity_query (w : list predicate) : statement :=
  Select [SSum (c services_data "capacity_real")]
         (Some (FJoin
                  (FJoin (FTable services_data)
                         urban_objects_data
                         (PEqCol (c services_data "service_id")
                                 (c urban_objects_data "service_id")))
                  object_geometries_data
                  (PEqCol (c urban_objects_data "object_geometry_id")
                          (c object_geometries_data "object_geometry_id"))))
         w.

(** ** Partial updates *)

(** The fields of a payload that are not [None]. *)
Definition non_null (items : list (string * value)) : list (string * value) :=
  filter (fun kv => negb (is_null (snd kv))) items.

(** The first value bound to [k]. *)
Fixpoint lookup (kvs : list (string * value)) (k : string) : option value :=
  match kvs with
  | [] => None
  | (k', v) :: kvs' => if String.eqb k' k then Some v else lookup kvs' k
  end.

(** The value a payload gives for column [k], if it gives one. *)
Definition written (items : list (string * value)) (k : string) : option value :=
  lookup (non_null items) k.

(** What the patch of the row keyed [id] makes of a table: in that row,
    every column for which the payload has a value holds that value and
    every other column holds what it held; every other row is the same. *)
Definition patched (key : string) (id : Z) (items : list (string * value))
           (before after : list row) : Prop :=
  Forall2
    (fun r r' =>
       if value_eqb (rget r key) (VInt id)
       then forall k, rget r' k = match written items k with
                                  | Some v => v
                                  | None => rget r k
                                  end
       else r' = r)
    before after.

(** Whether the loop over the payload comes to look the foreign key up. *)
Definition looks_up (fk : string) (items : list (string * value)) : bool :=
  existsb (fun kv => negb (is_null (snd kv)) && String.eqb (fst kv) fk) items.

(** The patch of the row of [t] keyed [id] went through: the row holds the
    payload's values where the payload has one and its stored values
    elsewhere, every other row and every other table is as before, and,
    when the payload had a value at all, the result is committed. *)
Definition patch_applied (t : table) (key : string) (id : Z)
           (items : list (string * value)) (conn conn' : AsyncConnection) : Prop :=
  patched key id items (rows (session conn t)) (rows (session conn' t))
  /\ (forall t', t' <> t -> session conn' t' = session conn t')
  /\ (non_null items <> [] -> committed conn' = session conn').

(** The patch was refused with a 404: nothing was written. *)
Definition patch_refused {A : Type} (detail : string) (conn : AsyncConnection)
           (out : (exception + A) * AsyncConnection) : Prop :=
  fst out = inl (HTTPException 404 detail)
  /\ session (snd out) = session conn
  /\ committed (snd out) = committed conn
  /\ exists ss, executed (snd out) = executed conn ++ ss
                /\ existsb is_write ss = false.

(** ** Rows of the composite create *)

(** The rows that a request [p] is stored as, under the generated ids. *)
Definition physical_object_row (id : Z) (p : PhysicalObjectsDataPost) : row :=
  [("physical_object_id", VInt id);
   ("physical_object_type_id", VInt (post_physical_object_type_id p));
   ("name", py_str (post_name p));
   ("properties", VJson (JObj (post_properties p)))].

Definition object_geometry_row (id : Z) (p : PhysicalObjectsDataPost) : row :=
  [("object_geometry_id", VInt id);
   ("territory_id", VInt (post_territory_id p));
   ("geometry", VGeom 4326 (post_geometry p));
   ("centre_point", VGeom 4326 (post_centre_point p));
   ("address", py_str (post_address p))].

Definition urban_object_row (id physical_object_id object_geometry_id : Z) : row :=
  [("urban_object_id", VInt id);
   ("physical_object_id", VInt physical_object_id);
   ("object_geometry_id", VInt object_geometry_id);
   ("service_id", VNull)].

(** ** Shape of a join *)

(** The table a join starts from, the tables joined to it, all of them,
    and the ON clauses. *)
Fixpoint leftmost (f : from_clause) : table :=
  match f with
  | FTable t => t
  | FJoin l _ _ => leftmost l
  end.

Fixpoint joined_tables (f : from_clause) : list table :=
  match f with
  | FTable _ => []
  | FJoin l t _ => joined_tables l ++ [t]
  end.

Fixpoint tables_of (f : from_clause) : list table :=
  match f with
  | FTable t => [t]
  | FJoin l t _ => tables_of l ++ [t]
  end.

Fixpoint on_clauses (f : from_clause) : list predicate :=
  match f with
  | FTable _ => []
  | FJoin l _ onclause => on_clauses l ++ [onclause]
  end.

(** The rows of [t] cut down to those keyed [v]. *)
Definition restricted (db : database) (t : table) (k : string) (v : value) : database :=
  set_table db t (mk_stored (matching db t k v) (next_id (db t))).

(** ** Capacity of the services of a territory *)

(** No two rows agree on column [k] (rows with NULL there aside). *)
Fixpoint unique_on (k : string) (rs : list row) : bool :=
  match rs with
  | [] => true
  | r :: rs' =>
      negb (existsb (fun r' => value_eqb (rget r k) (rget r' k)) rs')
      && unique_on k rs'
  end.

(** Service [s] operates in territory [T]: an urban object carries it on a
    geometry of [T]. *)
Definition operates_in (db : database) (T : Z) (s : row) : bool :=
  existsb
    (fun u =>
       value_eqb (rget s "service_id") (rget u "service_id")
       && existsb
            (fun g =>
               value_eqb (rget u "object_geometry_id") (rget g "object_geometry_id")
               && value_eqb (rget g "territory_id") (VInt T))
            (rows (db object_geometries_data)))
    (rows (db urban_objects_data)).

(** The services of type [st] that operate in territory [T]. *)
Definition services_in (db : database) (T st : Z) : list row :=
  filter (fun s => operates_in db T s
                   && value_eqb (rget s "service_type_id") (VInt st))
         (rows (db services_data)).

(** The real capacities recorded for some services. *)
Definition real_capacities (ss : list row) : list Z :=
  flat_map (fun s => match rget s "capacity_real" with
                     | VInt z => [z]
                     | _ => []
                     end) ss.

(** Their sum, or NULL when there is none. *)
Definition total (zs : list Z) : value :=
  match zs with
  | [] => VNull
  | _ :: _ => VInt (fold_right Z.add 0 zs)
  end.

(** ** Reads and replacements *)

(** A call that only read: the session's tables and the committed tables
    are the same, and what it executed holds no INSERT and no UPDATE. *)
Definition read_only {A : Type} (conn : AsyncConnection)
           (out : (exception + A) * AsyncConnection) : Prop :=
  session (snd out) = session conn
  /\ committed (snd out) = committed conn
  /\ exists ss, executed (snd out) = executed conn ++ ss
                /\ existsb is_write ss = false.

(** How a read scoped to a physical object ends when the object does not
    exist: the 404, with the existence check executed and nothing else. *)
Definition physical_object_not_found {A : Type} (conn : AsyncConnection) (id : Z)
  : (exception + A) * AsyncConnection :=
  (inl (HTTPException 404 "Given physical object id is not found"),
   logged conn [check physical_objects_data "physical_object_id" (VInt id)]).

(** What the replacement of the row keyed [id] makes of a table: in that
    row, every column that [vals] names holds the value given for it, NULL
    included, and every other column holds what it held; every other row is
    the same. *)
Definition replaced (key : string) (id : Z) (vals : list (string * value))
           (before after : list row) : Prop :=
  Forall2
    (fun r r' =>
       if value_eqb (rget r key) (VInt id)
       then forall k, rget r' k = match lookup vals k with
                                  | Some v => v
                                  | None => rget r k
                                  end
       else r' = r)
    before after.

(** The replacement of the row of [t] keyed [id] went through and is
    committed; every other table is as before. *)
Definition replace_applied (t : table) (key : string) (id : Z)
           (vals : list (string * value)) (conn conn' : AsyncConnection) : Prop :=
  replaced key id vals (rows (session conn t)) (rows (session conn' t))
  /\ (forall t', t' <> t -> session conn' t' = session conn t')
  /\ committed conn' = session conn'.

(** The values that the two replacements set. *)
Definition physical_object_values (p : PhysicalObjectsDataPut)
  : list (string * value) :=
  [("physical_object_type_id", VInt (put_physical_object_type_id p));
   ("name", py_str (put_name p));
   ("properties", VJson (JObj (put_properties p)))].

Definition living_building_values (p : LivingBuildingsDataPut)
  : list (string * value) :=
  [("physical_object_id", VInt (lb_put_physical_object_id p));
   ("residents_number", py_int (lb_put_residents_number p));
   ("living_area", py_float (lb_put_living_area p));
   ("properties", VJson (JObj (lb_put_properties p)))].

(** The row that a request for a living building is stored as, under the
    generated id. *)
Definition living_building_row (id : Z) (p : LivingBuildingsDataPost) : row :=
  [("living_building_id", VInt id);
   ("physical_object_id", VInt (lb_post_physical_object_id p));
   ("residents_number", py_int (lb_post_residents_number p));
   ("living_area", py_float (lb_post_living_area p));
   ("properties", VJson (JObj (lb_post_properties p)))].

(** The row that a new physical object type is stored as. *)
Definition physical_object_type_row (id : Z) (p : PhysicalObjectsTypesPost) : row :=
  [("physical_object_type_id", VInt id); ("name", VStr (pot_name p))].


(** * A fixture *)

(** Territory 5 holds two geometries.  Physical object 10 (type 2) sits on
    both of them, physical object 11 (type 1) on the first only and physical
    object 12 on none.  Services 50 and 51, of type 3, have real capacities
    10 and 15; service 52, of type 4, has no capacity recorded. *)
Definition fixture : database :=
  fun t =>
    match t with
    | territories_data =>
        mk_stored [[("territory_id", VInt 5)]; [("territory_id", VInt 6)]] 7
    | physical_object_types_dict =>
        mk_stored [[("physical_object_type_id", VInt 1); ("name", VStr "building")];
                   [("physical_object_type_id", VInt 2); ("name", VStr "road")]] 3
    | physical_objects_data =>
        mk_stored
          [[("physical_object_id", VInt 10); ("physical_object_type_id", VInt 2);
            ("name", VStr "A"); ("properties", VJson (JObj (MCons "x" (JInt 1) MNil)))];
           [("physical_object_id", VInt 11); ("physical_object_type_id", VInt 1);
            ("name", VStr "Tower"); ("properties", VJson (JObj MNil))];
           [("physical_object_id", VInt 12); ("physical_object_type_id", VInt 1);
            ("name", VStr "Shed"); ("properties", VJson (JObj MNil))]] 13
    | object_geometries_data =>
        mk_stored
          [[("object_geometry_id", VInt 100); ("territory_id", VInt 5);
            ("geometry", VGeom 4326 "POINT (30 60)");
            ("centre_point", VGeom 4326 "POINT (30 60)");
            ("address", VStr "1 Main St")];
           [("object_geometry_id", VInt 101); ("territory_id", VInt 5);
            ("geometry", VGeom 4326 "POINT (31 61)");
            ("centre_point", VGeom 4326 "POINT (31 61)");
            ("address", VStr "2 Side St")]] 102
    | urban_objects_data =>
        mk_stored
          [[("urban_object_id", VInt 1000); ("physical_object_id", VInt 10);
            ("object_geometry_id", VInt 100); ("service_id", VInt 50)];
           [("urban_object_id", VInt 1001); ("physical_object_id", VInt 10);
            ("object_geometry_id", VInt 101); ("service_id", VInt 51)];
           [("urban_object_id", VInt 1002); ("physical_object_id", VInt 11);
            ("object_geometry_id", VInt 100); ("service_id", VInt 52)]] 1003
    | services_data =>
        mk_stored
          [[("service_id", VInt 50); ("service_type_id", VInt 3);
            ("territory_type_id", VInt 1); ("name", VStr "School");
            ("capacity_real", VInt 10); ("properties", VJson (JObj MNil))];
           [("service_id", VInt 51); ("service_type_id", VInt 3);
            ("territory_type_id", VInt 1); ("name", VStr "High school");
            ("capacity_real", VInt 15); ("properties", VJson (JObj MNil))];
           [("service_id", VInt 52); ("service_type_id", VInt 4);
            ("territory_type_id", VInt 1); ("name", VStr "Clinic");
            ("capacity_real", VNull); ("properties", VJson (JObj MNil))]] 53
    | service_types_dict =>
        mk_stored
          [[("service_type_id", VInt 3); ("urban_function_id", VInt 1);
            ("name", VStr "education"); ("capacity_modeled", VInt 100);
            ("code", VStr "edu")];
           [("service_type_id", VInt 4); ("urban_function_id", VInt 1);
            ("name", VStr "health"); ("capacity_modeled", VInt 50);
            ("code", VStr "med")]] 5
    | territory_types_dict =>
        mk_stored [[("territory_type_id", VInt 1); ("name", VStr "city")]] 2
    | living_buildings_data =>
        mk_stored
          [[("living_building_id", VInt 7); ("physical_object_id", VInt 11);
            ("residents_number", VInt 3); ("living_area", VFloat (S754_finite false 5981343255101440 (-47)));
            ("properties", VJson (JObj MNil))]] 8
    end.

Definition fixture_conn : AsyncConnection := mk_conn fixture fixture [].

(** The fixture with service 50 carried by a second urban object of
    territory 5. *)
Definition fixture_shared : database :=
  set_table fixture urban_objects_data
    (mk_stored
       (rows (fixture urban_objects_data)
        ++ [[("urban_object_id", VInt 1003); ("physical_object_id", VInt 11);
             ("object_geometry_id", VInt 101); ("service_id", VInt 50)]])
       1004).

(** A request for a barn in territory 5 of the fixture, of the existing
    type 2. *)
Definition barn : PhysicalObjectsDataPost :=
  {| post_geometry := "POINT (30 60)"; post_territory_id := 5;
     post_centre_point := "POINT (30 60)"; post_address := None;
     post_physical_object_type_id := 2; post_name := Some "Barn";
     post_properties := MNil |}.

(** A request for territory 5 of the fixture with the type 9, which does
    not exist. *)
Definition of_unknown_type : PhysicalObjectsDataPost :=
  {| post_geometry := "POINT (30 60)"; post_territory_id := 5;
     post_centre_point := "POINT (30 60)"; post_address := None;
     post_physical_object_type_id := 9; post_name := Some "Barn";
     post_properties := MNil |}.

(** A replacement of physical object 10 of the fixture by what is stored
    for it. *)
Definition same_as_stored : PhysicalObjectsDataPut :=
  {| put_physical_object_type_id := 2;
     put_name := Some "A";
     put_properties := MCons "x" (JInt 1) MNil |}.

(** The payload [{name: "B"}] on physical object 10 of the fixture, whose
    name is "A" and whose properties are [{"x": 1}]; and a payload that
    moves it to the type 77, which does not exist. *)
Definition rename_to_B : PhysicalObjectsDataPatch :=
  {| patch_physical_object_type_id := None;
     patch_name := Some "B";
     patch_properties := None |}.

Definition retype_to_77 : PhysicalObjectsDataPatch :=
  {| patch_physical_object_type_id := Some 77;
     patch_name := Some "B";
     patch_properties := None |}.

(** A replacement of a physical object by a request without a name. *)
Definition nameless : PhysicalObjectsDataPut :=
  {| put_physical_object_type_id := 1;
     put_name := None;
     put_properties := MNil |}.

(** A replacement of a living building, and a request for a new one, that
    refer to physical object [po]. *)
Definition flat_of (po : Z) : LivingBuildingsDataPut :=
  {| lb_put_physical_object_id := po;
     lb_put_residents_number := Some 4;
     lb_put_living_area := None;
     lb_put_properties := MNil |}.

Definition new_flat_of (po : Z) : LivingBuildingsDataPost :=
  {| lb_post_physical_object_id := po;
     lb_post_residents_number := Some 4;
     lb_post_living_area := None;
     lb_post_properties := MNil |}.

(** * Facts *)

(** ** Values, rows and tables *)

Lemma value_eqb_eq (a b : value) : value_eqb a b = true -> a = b.
Proof.
  destruct a, b; simpl; try discriminate.
  - intros H. apply Z.eqb_eq in H. now subst.
  - intros H. apply String.eqb_eq in H. now subst.
Qed.

Lemma value_eqb_sym (a b : value) : value_eqb a b = value_eqb b a.
Proof.
  destruct a, b; simpl; auto using Z.eqb_sym, String.eqb_sym.
Qed.

Lemma value_eqb_not_null (a b : value) :
  value_eqb a b = true -> a <> VNull /\ b <> VNull.
Proof. destruct a, b; simpl; try discriminate; split; discriminate. Qed.

Lemma table_eqb_refl (t : table) : table_eqb t t = true.
Proof. destruct t; reflexivity. Qed.

Lemma table_eqb_eq (a b : table) : table_eqb a b = true -> a = b.
Proof. destruct a, b; simpl; intros H; try discriminate; reflexivity. Qed.

Lemma table_eqb_neq (a b : table) : a <> b -> table_eqb a b = false.
Proof.
  intros H. destruct (table_eqb a b) eqn:E; [|reflexivity].
  apply table_eqb_eq in E. contradiction.
Qed.

Lemma table_eq_dec (a b : table) : {a = b} + {a <> b}.
Proof. decide equality. Qed.

Lemma set_table_same (db : database) (t : table) (s : stored) :
  set_table db t s t = s.
Proof. unfold set_table. now rewrite table_eqb_refl. Qed.

Lemma set_table_other (db : database) (t t' : table) (s : stored) :
  t' <> t -> set_table db t s t' = db t'.
Proof. intros H. unfold set_table. now rewrite table_eqb_neq. Qed.

Lemma rget_set_value (r : row) (k : string) (v : value) (k' : string) :
  rget (set_value r k v) k' = if String.eqb k k' then v else rget r k'.
Proof.
  induction r as [|[k0 v0] r IH]; simpl.
  - reflexivity.
  - destruct (String.eqb_spec k0 k) as [->|Hne]; simpl.
    + destruct (String.eqb k k'); reflexivity.
    + rewrite IH. destruct (String.eqb_spec k0 k') as [->|Hne'].
      * destruct (String.eqb_spec k k') as [->|]; [contradiction|reflexivity].
      * reflexivity.
Qed.

Lemma lookup_not_in (kvs : list (string * value)) (k : string) :
  ~ In k (map fst kvs) -> lookup kvs k = None.
Proof.
  induction kvs as [|[k0 v0] kvs IH]; simpl; [reflexivity|].
  intros H. destruct (String.eqb_spec k0 k) as [->|Hne].
  - exfalso. apply H. now left.
  - apply IH. intros Hin. apply H. now right.
Qed.

Lemma set_value_fresh (acc : list (string * value)) (k : string) (v : value) :
  ~ In k (map fst acc) -> set_value acc k v = acc ++ [(k, v)].
Proof.
  induction acc as [|[k0 v0] acc IH]; simpl; [reflexivity|].
  intros H. destruct (String.eqb_spec k0 k) as [->|Hne].
  - exfalso. apply H. now left.
  - rewrite IH; [reflexivity|]. intros Hin. apply H. now right.
Qed.

Lemma set_values_distinct (acc kvs : list (string * value)) :
  NoDup (map fst (acc ++ kvs)) -> set_values acc kvs = acc ++ kvs.
Proof.
  revert acc. induction kvs as [|[k v] kvs IH]; intros acc H; simpl.
  - now rewrite app_nil_r.
  - change (set_values (set_value acc k v) kvs = acc ++ (k, v) :: kvs).
    rewrite set_value_fresh.
    + rewrite IH; rewrite <- app_assoc; [reflexivity|exact H].
    + rewrite map_app in H. simpl in H. apply NoDup_remove_2 in H.
      intros Hin. apply H. apply in_or_app. now left.
Qed.

Lemma rget_row_update (kvs : list (string * value)) :
  NoDup (map fst kvs) ->
  forall (r : row) (k : string),
    rget (row_update r kvs) k
    = match lookup kvs k with Some v => v | None => rget r k end.
Proof.
  induction kvs as [|[k0 v0] kvs IH]; intros H r k; [reflexivity|].
  inversion H as [|? ? Hnotin Hnodup]; subst.
  change (rget (row_update (set_value r k0 v0) kvs) k
          = match lookup ((k0, v0) :: kvs) k with Some v => v | None => rget r k end).
  rewrite (IH Hnodup). simpl. rewrite rget_set_value.
  destruct (String.eqb_spec k0 k) as [->|Hne].
  - now rewrite (lookup_not_in kvs k Hnotin).
  - reflexivity.
Qed.

Lemma NoDup_keys_non_null (items : list (string * value)) :
  NoDup (map fst items) -> NoDup (map fst (non_null items)).
Proof.
  induction items as [|[k v] items IH]; simpl; intros H; [constructor|].
  inversion H as [|? ? Hnotin Hnodup]; subst.
  destruct (negb (is_null v)); simpl; auto.
  constructor; auto.
  intros Hin. apply Hnotin.
  apply in_map_iff in Hin. destruct Hin as [[k' v'] [Hk Hin]].
  apply filter_In in Hin. destruct Hin as [Hin _].
  apply in_map_iff. exists (k', v'). auto.
Qed.

Lemma set_value_not_nil (acc : list (string * value)) (k : string) (v : value) :
  set_value acc k v <> [].
Proof.
  destruct acc as [|[k0 v0] acc]; simpl; [discriminate|].
  destruct (String.eqb k0 k); discriminate.
Qed.

Lemma set_values_not_nil (kvs acc : list (string * value)) :
  acc <> [] -> set_values acc kvs <> [].
Proof.
  revert acc. induction kvs as [|[k v] kvs IH]; intros acc H; simpl; [exact H|].
  apply IH. apply set_value_not_nil.
Qed.

Lemma set_values_nil (kvs : list (string * value)) :
  set_values [] kvs = [] -> kvs = [].
Proof.
  destruct kvs as [|[k v] kvs]; [reflexivity|]. simpl. intros H.
  exfalso. revert H. apply set_values_not_nil. discriminate.
Qed.

Lemma values_to_update_distinct (items : list (string * value)) :
  NoDup (map fst items) ->
  set_values [] (set_values [] (non_null items)) = non_null items.
Proof.
  intros H. pose proof (NoDup_keys_non_null items H) as Hn.
  rewrite (set_values_distinct [] (non_null items)) by exact Hn.
  cbn [app].
  now rewrite (set_values_distinct [] (non_null items)) by exact Hn.
Qed.

Lemma model_dump_physical_object_keys (p : PhysicalObjectsDataPatch) :
  NoDup (map fst (model_dump_physical_object p)).
Proof.
  simpl. repeat constructor; simpl; intuition discriminate.
Qed.

Lemma model_dump_living_building_keys (p : LivingBuildingsDataPatch) :
  NoDup (map fst (model_dump_living_building p)).
Proof.
  simpl. repeat constructor; simpl; intuition discriminate.
Qed.

(** ** Lists *)

Lemma Forall2_map_same {A : Type} (P : A -> A -> Prop) (f : A -> A) (l : list A) :
  (forall x, P x (f x)) -> Forall2 P l (map f l).
Proof. intros H. induction l; simpl; constructor; auto. Qed.

Lemma filter_none {A : Type} (f : A -> bool) (l : list A) :
  (forall x, In x l -> f x = false) -> filter f l = [].
Proof.
  induction l as [|a l IH]; intros H; [reflexivity|]. simpl.
  rewrite (H a) by now left. apply IH. intros x Hx. apply H. now right.
Qed.

Lemma filter_nil_none {A : Type} (p : A -> bool) (l : list A) (x : A) :
  filter p l = [] -> In x l -> p x = false.
Proof.
  intros H Hx. destruct (p x) eqn:E; [|reflexivity].
  assert (Hin : In x (filter p l)) by (apply filter_In; auto).
  rewrite H in Hin. contradiction.
Qed.

Lemma flat_map_none {A B : Type} (f : A -> list B) (l : list A) :
  (forall x, In x l -> f x = []) -> flat_map f l = [].
Proof.
  induction l as [|a l IH]; intros H; simpl; [reflexivity|].
  rewrite (H a) by now left. apply IH. intros x Hx. apply H. now right.
Qed.

Lemma existsb_none {A : Type} (p : A -> bool) (l : list A) :
  (forall x, In x l -> p x = false) -> existsb p l = false.
Proof.
  induction l as [|a l IH]; intros H; simpl; [reflexivity|].
  rewrite (H a) by now left. apply IH. intros x Hx. apply H. now right.
Qed.

Lemma flat_map_of_map {A B C : Type} (f : B -> list C) (g : A -> B) (l : list A) :
  flat_map f (map g l) = flat_map (fun x => f (g x)) l.
Proof. induction l; simpl; congruence. Qed.

Lemma flat_map_of_flat_map {A B C : Type} (f : B -> list C) (g : A -> list B)
      (l : list A) :
  flat_map f (flat_map g l) = flat_map (fun x => flat_map f (g x)) l.
Proof.
  induction l as [|a l IH]; simpl; [reflexivity|].
  now rewrite flat_map_app, IH.
Qed.

Lemma filter_of_flat_map {A B : Type} (p : B -> bool) (g : A -> list B) (l : list A) :
  filter p (flat_map g l) = flat_map (fun x => filter p (g x)) l.
Proof.
  induction l as [|a l IH]; simpl; [reflexivity|].
  now rewrite filter_app, IH.
Qed.

Lemma map_of_flat_map {A B C : Type} (f : B -> C) (g : A -> list B) (l : list A) :
  map f (flat_map g l) = flat_map (fun x => map f (g x)) l.
Proof.
  induction l as [|a l IH]; simpl; [reflexivity|].
  now rewrite map_app, IH.
Qed.

Lemma map_of_filter {A B : Type} (f : A -> B) (p : A -> bool) (l : list A) :
  map f (filter p l) = flat_map (fun x => if p x then [f x] else []) l.
Proof.
  induction l as [|a l IH]; simpl; [reflexivity|].
  destruct (p a); simpl; now rewrite IH.
Qed.

Lemma flat_map_ext_in {A B : Type} (f g : A -> list B) (l : list A) :
  (forall x, In x l -> f x = g x) -> flat_map f l = flat_map g l.
Proof.
  induction l as [|a l IH]; intros H; simpl; [reflexivity|].
  rewrite (H a) by now left. rewrite IH; [reflexivity|].
  intros x Hx. apply H. now right.
Qed.

Lemma filter_flat_map_if {A B : Type} (p : A -> bool) (f : A -> list B) (l : list A) :
  flat_map (fun x => if p x then f x else []) l = flat_map f (filter p l).
Proof.
  induction l as [|a l IH]; simpl; [reflexivity|].
  destruct (p a); simpl; now rewrite IH.
Qed.

Lemma existsb_and_const {A : Type} (p q : A -> bool) (b : bool) (l : list A) :
  existsb (fun x => p x && (q x && b)) l = existsb (fun x => p x && q x) l && b.
Proof.
  induction l as [|a l IH]; simpl; [reflexivity|]. rewrite IH.
  destruct (p a), (q a), b, (existsb (fun x => p x && q x) l); reflexivity.
Qed.

(** A nested loop that finds at most one partner is a semi-join. *)
Lemma semi_join {A B : Type} (p q : A -> bool) (l : list A) (y : B) :
  (List.length (filter p l) <= 1)%nat ->
  flat_map (fun x => if p x && q x then [y] else []) l
  = if existsb (fun x => p x && q x) l then [y] else [].
Proof.
  induction l as [|a l IH]; intros H; [reflexivity|].
  cbn [flat_map existsb filter] in *.
  destruct (p a) eqn:Ea.
  - cbn [List.length] in H.
    assert (Hnil : filter p l = []).
    { destruct (filter p l); [reflexivity|simpl in H; lia]. }
    assert (Hno : forall x, In x l -> p x && q x = false).
    { intros x Hx. now rewrite (filter_nil_none p l x Hnil Hx). }
    rewrite flat_map_none, existsb_none; auto.
    + cbn [andb orb]. destruct (q a); reflexivity.
    + intros x Hx. now rewrite Hno.
  - cbn [andb orb app]. now apply IH.
Qed.

(** ** Evaluation of criteria and of statements on one table *)

Lemma project_star (t : table) (r : row) : project [STable t] [(t, r)] = r.
Proof.
  unfold project. simpl. rewrite table_eqb_refl. apply app_nil_r.
Qed.

Lemma holds_key (t : table) (k : string) (v : value) (r : row) :
  holds_all [PEq (c t k) v] [(t, r)] = value_eqb (rget r k) v.
Proof. unfold holds_all. simpl. now rewrite table_eqb_refl, andb_true_r. Qed.

Lemma holds_on_head (t : table) (k : string) (v : value) (r : row) (rest : jrow) :
  holds_all [PEq (c t k) v] ((t, r) :: rest) = value_eqb (rget r k) v.
Proof. unfold holds_all. simpl. now rewrite table_eqb_refl, andb_true_r. Qed.

Lemma holds_all_false (w : list predicate) (j : jrow) (p : predicate) :
  In p w -> holds j p = false -> holds_all w j = false.
Proof.
  intros Hin Hp. unfold holds_all.
  destruct (forallb (holds j) w) eqn:E; [|reflexivity].
  rewrite forallb_forall in E. rewrite (E p Hin) in Hp. discriminate.
Qed.

Lemma select_star_by_key (t : table) (k : string) (v : value) (rs : list row) :
  map (project [STable t])
      (filter (holds_all [PEq (c t k) v]) (map (fun r => [(t, r)]) rs))
  = filter (fun r => value_eqb (rget r k) v) rs.
Proof.
  induction rs as [|r rs IH]; [reflexivity|].
  cbn [map filter].
  replace (holds_all [PEq (c t k) v] [(t, r)]) with (value_eqb (rget r k) v).
  - destruct (value_eqb (rget r k) v); cbn [map]; rewrite IH; auto.
    now rewrite project_star.
  - unfold holds_all. simpl. now rewrite table_eqb_refl, andb_true_r.
Qed.

Lemma eval_select_key (db : database) (t : table) (k : string) (v : value) :
  eval_select db [STable t] None [PEq (c t k) v] = matching db t k v.
Proof.
  unfold eval_select, matching. cbn [from_of selectable_table eval_from].
  apply select_star_by_key.
Qed.

Lemma matching_hits (db : database) (t : table) (k : string) (v : value) :
  filter (fun r => holds_all [PEq (c t k) v] [(t, r)]) (rows (db t))
  = matching db t k v.
Proof. unfold matching. apply filter_ext. intros r. apply holds_key. Qed.

Lemma matching_in (db : database) (t : table) (k : string) (v : value) (r : row) :
  matching db t k v = [r] -> rget r k = v.
Proof.
  intros H.
  assert (Hin : In r (matching db t k v)) by (rewrite H; now left).
  apply filter_In in Hin. now apply value_eqb_eq.
Qed.

Lemma present_one (db : database) (t : table) (k : string) (v : value) :
  present db t k v -> exists r, matching db t k v = [r].
Proof.
  unfold present. destruct (matching db t k v) as [|r [|r' l]]; simpl; try discriminate.
  intros _. now exists r.
Qed.

Lemma absent_no_row (db : database) (t : table) (k : string) (v : value) (r : row) :
  absent db t k v -> In r (rows (db t)) -> value_eqb (rget r k) v = false.
Proof.
  unfold absent, matching. intros H Hr.
  destruct (value_eqb (rget r k) v) eqn:E; [|reflexivity].
  assert (Hin : In r (filter (fun r => value_eqb (rget r k) v) (rows (db t)))).
  { apply filter_In. auto. }
  rewrite H in Hin. contradiction.
Qed.

Lemma unique_on_at_most_one (k : string) (rs : list row) (v : value) :
  unique_on k rs = true ->
  (List.length (filter (fun r => value_eqb v (rget r k)) rs) <= 1)%nat.
Proof.
  induction rs as [|r rs IH]; intros H; [simpl; lia|].
  cbn [unique_on] in H. apply andb_prop in H. destruct H as [Hr Hrs].
  cbn [filter]. destruct (value_eqb v (rget r k)) eqn:E.
  - apply value_eqb_eq in E. subst v.
    apply negb_true_iff in Hr.
    rewrite filter_none; [simpl; lia|].
    intros y Hy.
    destruct (value_eqb (rget r k) (rget y k)) eqn:E'; [|reflexivity].
    assert (Hex : existsb (fun r' => value_eqb (rget r k) (rget r' k)) rs = true).
    { apply existsb_exists. now exists y. }
    rewrite Hex in Hr. discriminate.
  - now apply IH.
Qed.

Lemma sql_sum_from (vs : list value) (a : Z) :
  fold_left sql_add vs (VInt a)
  = VInt (a + fold_right Z.add 0
                         (flat_map (fun v => match v with VInt z => [z] | _ => [] end) vs)).
Proof.
  revert a. induction vs as [|v vs IH]; intros a; simpl.
  - f_equal. lia.
  - destruct v; simpl; rewrite ?IH; try reflexivity. f_equal. lia.
Qed.

(** SUM is the sum of the integers among the values, NULL without any. *)
Lemma sql_sum_total (vs : list value) :
  sql_sum vs = total (flat_map (fun v => match v with VInt z => [z] | _ => [] end) vs).
Proof.
  unfold sql_sum. induction vs as [|v vs IH]; [reflexivity|].
  destruct v; simpl; auto.
  rewrite sql_sum_from. reflexivity.
Qed.

Lemma filter_update_rows (t : table) (k : string) (v : value)
      (vals : list (string * value)) (rs : list row) :
  (forall r, rget (row_update r vals) k = rget r k) ->
  filter (fun r => value_eqb (rget r k) v) (update_rows t [PEq (c t k) v] vals rs)
  = map (fun r => row_update r vals) (filter (fun r => value_eqb (rget r k) v) rs).
Proof.
  intros Hkey. unfold update_rows.
  induction rs as [|r rs IH]; [reflexivity|].
  cbn [map filter]. rewrite holds_key.
  destruct (value_eqb (rget r k) v) eqn:E.
  - rewrite Hkey, E. cbn [map]. now rewrite IH.
  - rewrite E. exact IH.
Qed.

(** The row that the UPDATE of a patch stores is the stored row with the
    payload's values laid over it. *)
Lemma patched_by_update (t : table) (key : string) (id : Z)
      (items : list (string * value)) (rs : list row) :
  NoDup (map fst items) ->
  patched key id items rs
          (update_rows t [PEq (c t key) (VInt id)] (non_null items) rs).
Proof.
  intros H. unfold patched, update_rows. apply Forall2_map_same.
  intros r. rewrite holds_key.
  destruct (value_eqb (rget r key) (VInt id)); [|reflexivity].
  intros k. pose proof (NoDup_keys_non_null items H) as Hn.
  now rewrite rget_row_update.
Qed.

Lemma patched_nothing (key : string) (id : Z) (items : list (string * value))
      (rs : list row) :
  non_null items = [] -> patched key id items rs rs.
Proof.
  intros H. unfold patched.
  rewrite <- (map_id rs) at 2. apply Forall2_map_same.
  intros r. destruct (value_eqb (rget r key) (VInt id)); [|reflexivity].
  intros k. unfold written. now rewrite H.
Qed.

(** ** Joins *)

Lemma in_eval_join (db : database) (l : from_clause) (t : table)
      (onclause : predicate) (j : jrow) :
  In j (eval_from db (FJoin l t onclause)) ->
  exists jl r,
    j = jl ++ [(t, r)]
    /\ In jl (eval_from db l)
    /\ In r (rows (db t))
    /\ holds j onclause = true.
Proof.
  cbn [eval_from]. intros H.
  apply in_flat_map in H. destruct H as (jl & Hjl & H).
  apply in_flat_map in H. destruct H as (r & Hr & H).
  cbv zeta in H.
  destruct (holds (jl ++ [(t, r)]) onclause) eqn:E; [|contradiction].
  destruct H as [<-|[]]. exists jl, r. auto.
Qed.

Lemma in_eval_table (db : database) (t : table) (j : jrow) :
  In j (eval_from db (FTable t)) -> exists r, j = [(t, r)] /\ In r (rows (db t)).
Proof.
  cbn [eval_from]. intros H. apply in_map_iff in H.
  destruct H as (r & <- & Hr). now exists r.
Qed.

(** Every row of a join starts with a row of its leftmost table. *)
Lemma eval_from_head (db : database) (f : from_clause) (j : jrow) :
  In j (eval_from db f) ->
  exists r rest, j = (leftmost f, r) :: rest /\ In r (rows (db (leftmost f))).
Proof.
  revert j. induction f as [t|l IH t onclause]; intros j H.
  - apply in_eval_table in H. destruct H as (r & -> & Hr). now exists r, [].
  - apply in_eval_join in H. destruct H as (jl & r & -> & Hjl & _ & _).
    destruct (IH jl Hjl) as (r0 & rest & -> & Hr0).
    exists r0, (rest ++ [(t, r)]). auto.
Qed.

(** No row of a join carries a key that its leftmost table does not have. *)
Lemma no_row_for_absent_key (db : database) (f : from_clause) (k : string)
      (v : value) (w : list predicate) :
  absent db (leftmost f) k v ->
  In (PEq (c (leftmost f) k) v) w ->
  filter (holds_all w) (eval_from db f) = [].
Proof.
  intros Ha Hin. apply filter_none. intros j Hj.
  apply holds_all_false with (p := PEq (c (leftmost f) k) v); [exact Hin|].
  destruct (eval_from_head db f j Hj) as (r & rest & -> & Hr).
  simpl. rewrite table_eqb_refl. now apply absent_no_row with (db := db) (t := leftmost f).
Qed.

Lemma jget_table_row (j : jrow) (t : table) (k : string) :
  jget j (t, k) = rget (table_row j t) k.
Proof.
  induction j as [|[t' r] j IH]; simpl; [reflexivity|].
  destruct (table_eqb t' t); auto.
Qed.

Lemma table_row_app_in (j rest : jrow) (t : table) :
  In t (map fst j) -> table_row (j ++ rest) t = table_row j t.
Proof.
  induction j as [|[t' r] j IH]; simpl; [contradiction|].
  intros [->|H].
  - now rewrite table_eqb_refl.
  - destruct (table_eqb t' t); auto.
Qed.

Lemma table_row_app_notin (j rest : jrow) (t : table) :
  ~ In t (map fst j) -> table_row (j ++ rest) t = table_row rest t.
Proof.
  induction j as [|[t' r] j IH]; simpl; [reflexivity|].
  intros H. rewrite table_eqb_neq.
  - apply IH. intros Hin. apply H. now right.
  - intros ->. apply H. now left.
Qed.

Lemma table_row_notin (j : jrow) (t : table) :
  ~ In t (map fst j) -> table_row j t = [].
Proof.
  intros H. rewrite <- (app_nil_r j). now rewrite table_row_app_notin.
Qed.

(** The rows of a join are made of one row per table of the join. *)
Lemma eval_from_tables (db : database) (f : from_clause) (j : jrow) :
  In j (eval_from db f) -> map fst j = tables_of f.
Proof.
  revert j. induction f as [t|l IH t onclause]; intros j H.
  - apply in_eval_table in H. now destruct H as (r & -> & _).
  - apply in_eval_join in H. destruct H as (jl & r & -> & Hjl & _ & _).
    rewrite map_app, (IH jl Hjl). reflexivity.
Qed.

Lemma eval_from_table_row (db : database) (f : from_clause) (j : jrow) (t : table) :
  In j (eval_from db f) -> In t (tables_of f) -> In (table_row j t) (rows (db t)).
Proof.
  revert j. induction f as [t0|l IH t0 onclause]; intros j H Ht.
  - apply in_eval_table in H. destruct H as (r & -> & Hr).
    destruct Ht as [->|[]]. simpl. now rewrite table_eqb_refl.
  - apply in_eval_join in H. destruct H as (jl & r & -> & Hjl & Hr & _).
    pose proof (eval_from_tables db l jl Hjl) as Hshape.
    destruct (in_dec table_eq_dec t (tables_of l)) as [Hin|Hnotin].
    + rewrite table_row_app_in by now rewrite Hshape. auto.
    + rewrite table_row_app_notin by now rewrite Hshape.
      cbn [tables_of] in Ht. apply in_app_or in Ht.
      destruct Ht as [Ht|[->|[]]]; [contradiction|].
      simpl. now rewrite table_eqb_refl.
Qed.

Lemma jget_app (j rest : jrow) (a : column) :
  jget j a <> VNull -> jget (j ++ rest) a = jget j a.
Proof.
  destruct a as [t k]. rewrite !jget_table_row. intros H.
  destruct (in_dec table_eq_dec t (map fst j)) as [Hin|Hnotin].
  - now rewrite table_row_app_in.
  - rewrite (table_row_notin j t Hnotin) in H. now contradiction H.
Qed.

Lemma holds_eq_col_app (j rest : jrow) (a b : column) :
  holds j (PEqCol a b) = true -> holds (j ++ rest) (PEqCol a b) = true.
Proof.
  simpl. intros H. destruct (value_eqb_not_null _ _ H) as [Ha Hb].
  now rewrite !jget_app.
Qed.

(** The column comparisons of the ON clauses hold on every row of the
    join. *)
Lemma eval_from_on_clauses (db : database) (f : from_clause) (j : jrow)
      (a b : column) :
  In j (eval_from db f) -> In (PEqCol a b) (on_clauses f) ->
  value_eqb (jget j a) (jget j b) = true.
Proof.
  revert j. induction f as [t|l IH t onclause]; intros j H Hp; [contradiction|].
  apply in_eval_join in H. destruct H as (jl & r & -> & Hjl & _ & Hon).
  cbn [on_clauses] in Hp. apply in_app_or in Hp. destruct Hp as [Hp|[->|[]]].
  - apply (holds_eq_col_app jl [(t, r)] a b). simpl. now apply IH.
  - exact Hon.
Qed.

(** A filter on a key of a joined table: no row of the join passes it when
    the table has no such key. *)
Lemma absent_key_filters_all (db : database) (f : from_clause) (t : table)
      (k : string) (v : value) (j : jrow) :
  In t (tables_of f) -> absent db t k v ->
  In j (eval_from db f) -> holds j (PEq (c t k) v) = false.
Proof.
  intros Ht Ha Hj. simpl. unfold c. rewrite jget_table_row.
  apply absent_no_row with (db := db) (t := t); [exact Ha|].
  now apply eval_from_table_row with (f := f).
Qed.

(** A filter on a column that the join equates with the key of a joined
    table: no row passes it either. *)
Lemma absent_reference_filters_all (db : database) (f : from_clause) (t : table)
      (k : string) (a : column) (v : value) (j : jrow) :
  In t (tables_of f) -> absent db t k v ->
  In (PEqCol (c t k) a) (on_clauses f) ->
  In j (eval_from db f) -> holds j (PEq a v) = false.
Proof.
  intros Ht Ha Hon Hj.
  pose proof (absent_key_filters_all db f t k v j Ht Ha Hj) as Hkey.
  pose proof (eval_from_on_clauses db f j (c t k) a Hj Hon) as Heq.
  simpl in *. destruct (value_eqb (jget j a) v) eqn:E; [|reflexivity].
  apply value_eqb_eq in E. rewrite E in Heq. rewrite Heq in Hkey. discriminate.
Qed.

(** A join step on the key of the joined table is a look-up of that key. *)
Lemma join_step_lookup (db : database) (j : jrow) (t : table) (k : string)
      (a : column) :
  In (fst a) (map fst j) -> ~ In t (map fst j) ->
  flat_map
    (fun r => if holds (j ++ [(t, r)]) (PEqCol a (c t k))
              then [j ++ [(t, r)]] else [])
    (rows (db t))
  = map (fun r => j ++ [(t, r)]) (matching db t k (jget j a)).
Proof.
  intros Ha Ht. unfold matching, c.
  induction (rows (db t)) as [|r rs IH]; [reflexivity|].
  cbn [flat_map filter map]. rewrite IH.
  assert (E : holds (j ++ [(t, r)]) (PEqCol a (t, k))
              = value_eqb (rget r k) (jget j a)).
  { assert (E1 : jget (j ++ [(t, r)]) (t, k) = rget r k).
    { rewrite jget_table_row, table_row_app_notin by exact Ht.
      simpl. now rewrite table_eqb_refl. }
    assert (E2 : jget (j ++ [(t, r)]) a = jget j a).
    { destruct a as [ta ka]. rewrite !jget_table_row.
      now rewrite table_row_app_in. }
    simpl. rewrite E2, E1. apply value_eqb_sym. }
  rewrite E.
  destruct (value_eqb (rget r k) (jget j a)); reflexivity.
Qed.

(** A criterion on the leftmost table of a join can be applied to that
    table first. *)
Lemma where_on_leftmost (db : database) (f : from_clause) (k : string) (v : value) :
  ~ In (leftmost f) (joined_tables f) ->
  filter (holds_all [PEq (c (leftmost f) k) v]) (eval_from db f)
  = eval_from (restricted db (leftmost f) k v) f.
Proof.
  induction f as [t|l IH t onclause]; intros Hfresh.
  - cbn [eval_from leftmost]. unfold restricted. rewrite set_table_same. cbn [rows].
    unfold matching. induction (rows (db t)) as [|r rs IHr]; [reflexivity|].
    cbn [map filter]. rewrite holds_key.
    destruct (value_eqb (rget r k) v); cbn [map]; now rewrite IHr.
  - cbn [eval_from leftmost joined_tables] in *.
    assert (Hl : ~ In (leftmost l) (joined_tables l)).
    { intros Hin. apply Hfresh. apply in_or_app. now left. }
    assert (Ht : t <> leftmost l).
    { intros ->. apply Hfresh. apply in_or_app. right. now left. }
    rewrite <- (IH Hl). rewrite filter_of_flat_map.
    rewrite <- filter_flat_map_if.
    apply flat_map_ext_in. intros j Hj.
    unfold restricted. rewrite set_table_other by exact Ht.
    destruct (eval_from_head db l j Hj) as (r0 & rest & -> & _).
    rewrite holds_on_head, filter_of_flat_map.
    destruct (value_eqb (rget r0 k) v) eqn:E.
    + apply flat_map_ext. intros r. cbv zeta.
      destruct (holds (((leftmost l, r0) :: rest) ++ [(t, r)]) onclause);
        [|reflexivity].
      cbn [filter]. rewrite <- app_comm_cons, holds_on_head, E. reflexivity.
    + apply flat_map_none. intros r _. cbv zeta.
      destruct (holds (((leftmost l, r0) :: rest) ++ [(t, r)]) onclause);
        [|reflexivity].
      cbn [filter]. rewrite <- app_comm_cons, holds_on_head, E. reflexivity.
Qed.

Lemma capacity_on_geometries (db : database) (T st : Z) (s u : row) :
  unique_on "object_geometry_id" (rows (db object_geometries_data)) = true ->
  map (fun j => jget j (c services_data "capacity_real"))
      (filter
         (holds_all [PEq (c object_geometries_data "territory_id") (VInt T);
                     PEq (c services_data "service_type_id") (VInt st)])
         (flat_map
            (fun r =>
               if holds ([(services_data, s); (urban_objects_data, u)]
                           ++ [(object_geometries_data, r)])
                        (PEqCol (c urban_objects_data "object_geometry_id")
                                (c object_geometries_data "object_geometry_id"))
               then [[(services_data, s); (urban_objects_data, u)]
                       ++ [(object_geometries_data, r)]]
               else [])
            (rows (db object_geometries_data))))
  = if existsb
         (fun g =>
            value_eqb (rget u "object_geometry_id") (rget g "object_geometry_id")
            && value_eqb (rget g "territory_id") (VInt T))
         (rows (db object_geometries_data))
       && value_eqb (rget s "service_type_id") (VInt st)
    then [rget s "capacity_real"] else [].
Proof.
  intros HG. rewrite filter_of_flat_map, map_of_flat_map.
  rewrite <- existsb_and_const.
  rewrite <- (semi_join
                (fun g => value_eqb (rget u "object_geometry_id")
                                    (rget g "object_geometry_id"))
                (fun g => value_eqb (rget g "territory_id") (VInt T)
                          && value_eqb (rget s "service_type_id") (VInt st)))
    by now apply unique_on_at_most_one.
  apply flat_map_ext. intros g. cbn.
  destruct (value_eqb (rget u "object_geometry_id") (rget g "object_geometry_id"));
    [|reflexivity].
  cbn. unfold holds_all. cbn. rewrite andb_true_r.
  destruct (value_eqb (rget g "territory_id") (VInt T)
            && value_eqb (rget s "service_type_id") (VInt st)); reflexivity.
Qed.

Lemma capacity_join_rows (db : database) (T st : Z) :
  unique_on "service_id" (rows (db urban_objects_data)) = true ->
  unique_on "object_geometry_id" (rows (db object_geometries_data)) = true ->
  map (fun j => jget j (c services_data "capacity_real"))
      (filter
         (holds_all [PEq (c object_geometries_data "territory_id") (VInt T);
                     PEq (c services_data "service_type_id") (VInt st)])
         (eval_from db
            (FJoin
               (FJoin (FTable services_data)
                      urban_objects_data
                      (PEqCol (c services_data "service_id")
                              (c urban_objects_data "service_id")))
               object_geometries_data
               (PEqCol (c urban_objects_data "object_geometry_id")
                       (c object_geometries_data "object_geometry_id")))))
  = map (fun s => rget s "capacity_real") (services_in db T st).
Proof.
  intros HU HG. cbn [eval_from].
  rewrite flat_map_of_map, flat_map_of_flat_map, filter_of_flat_map, map_of_flat_map.
  unfold services_in. rewrite map_of_filter.
  apply flat_map_ext. intros s.
  rewrite flat_map_of_flat_map, filter_of_flat_map, map_of_flat_map.
  unfold operates_in. rewrite <- existsb_and_const.
  rewrite <- (semi_join
                (fun u => value_eqb (rget s "service_id") (rget u "service_id"))
                (fun u =>
                   existsb
                     (fun g =>
                        value_eqb (rget u "object_geometry_id")
                                  (rget g "object_geometry_id")
                        && value_eqb (rget g "territory_id") (VInt T))
                     (rows (db object_geometries_data))
                   && value_eqb (rget s "service_type_id") (VInt st)))
    by now apply unique_on_at_most_one.
  apply flat_map_ext. intros u.
  replace (holds ([(services_data, s)] ++ [(urban_objects_data, u)])
                 (PEqCol (c services_data "service_id")
                         (c urban_objects_data "service_id")))
    with (value_eqb (rget s "service_id") (rget u "service_id")) by reflexivity.
  destruct (value_eqb (rget s "service_id") (rget u "service_id")); [|reflexivity].
  cbn [flat_map andb]. rewrite app_nil_r.
  now apply capacity_on_geometries.
Qed.

(** ** The connection *)

(** Reading never writes. *)
Lemma execute_select (conn : AsyncConnection) (cols : list selectable)
      (f : option from_clause) (w : list predicate) :
  execute (Select cols f w) conn
  = (inr (eval_select (session conn) cols f w), logged conn [Select cols f w]).
Proof. reflexivity. Qed.

Lemma execute_check (conn : AsyncConnection) (t : table) (k : string) (z : Z) :
  execute (where_ (select [STable t]) [col_eq (c t k) (VInt z)]) conn
  = (inr (matching (session conn) t k (VInt z)), logged conn [check t k (VInt z)]).
Proof.
  unfold execute, logged, check, where_, select, col_eq.
  cbn [is_null app run]. now rewrite eval_select_key.
Qed.

Lemma execute_check_str (conn : AsyncConnection) (t : table) (k : string) (s : string) :
  execute (where_ (select [STable t]) [col_eq (c t k) (VStr s)]) conn
  = (inr (matching (session conn) t k (VStr s)), logged conn [check t k (VStr s)]).
Proof.
  unfold execute, logged, check, where_, select, col_eq.
  cbn [is_null app run]. now rewrite eval_select_key.
Qed.

(** An UPDATE by key of a row that is there returns one row and stores the
    updated rows. *)
Lemma execute_update_present (conn : AsyncConnection) (t : table) (key : string)
      (id : Z) (vals : list (string * value)) (ret : list selectable) :
  present (session conn) t key (VInt id) ->
  vals <> [] ->
  let s := Update t [PEq (c t key) (VInt id)] vals ret in
  exists x,
    execute s conn
    = (inr [x],
       mk_conn (set_table (session conn) t
                  (mk_stored (update_rows t [PEq (c t key) (VInt id)] vals
                                          (rows (session conn t)))
                             (next_id (session conn t))))
               (committed conn) (executed conn ++ [s])).
Proof.
  intros Hp Hv s. subst s. unfold execute. cbn [run].
  destruct vals as [|kv vals]; [contradiction|].
  rewrite matching_hits. destruct (present_one _ _ _ _ Hp) as [r E]. rewrite E.
  cbn [map]. eexists. reflexivity.
Qed.

Lemma logged_logged (conn : AsyncConnection) (a b : list statement) :
  logged (logged conn a) b = logged conn (a ++ b).
Proof. unfold logged. simpl. now rewrite <- app_assoc. Qed.

Lemma logged_nil (conn : AsyncConnection) : logged conn [] = conn.
Proof. destruct conn. unfold logged. simpl. now rewrite app_nil_r. Qed.

Lemma get_physical_object_by_id_reads (v : value) (conn : AsyncConnection) :
  session (snd (get_physical_object_by_id_from_db v conn)) = session conn
  /\ committed (snd (get_physical_object_by_id_from_db v conn)) = committed conn.
Proof.
  unfold get_physical_object_by_id_from_db, bind.
  unfold where_, select_from, select. rewrite execute_select.
  match goal with |- context [one_or_none ?l] => destruct l as [|r [|r' l']] end;
    cbn; auto.
Qed.

Lemma get_living_building_by_id_reads (v : value) (conn : AsyncConnection) :
  session (snd (get_living_building_by_id_from_db v conn)) = session conn
  /\ (committed (snd (get_living_building_by_id_from_db v conn)) = committed conn
      \/ committed (snd (get_living_building_by_id_from_db v conn)) = session conn).
Proof.
  unfold get_living_building_by_id_from_db, bind.
  unfold where_, select_from, select. rewrite execute_select.
  match goal with |- context [one ?l] => destruct l as [|r [|r' l']] end;
    cbn; auto.
Qed.

(** Running a function of the logic layer up to and including a check that
    finds nothing. *)
Ltac check_fails H :=
  unfold bind; rewrite execute_check; rewrite H; reflexivity.

Ltac check_passes H :=
  let r := fresh "r" in
  let E := fresh "E" in
  unfold bind; rewrite execute_check;
  destruct (present_one _ _ _ _ H) as [r E]; rewrite E; cbn [one_or_none ret].

Ltac run_listing :=
  unfold where_, select_from, select, join, col_eq; cbn [is_null app];
  unfold bind; rewrite execute_select; unfold eval_select; cbn [from_of];
  cbn [session logged].

Ltac run_query :=
  unfold where_, select_from, select, join, col_eq; cbn [is_null app];
  unfold bind; rewrite execute_select;
  unfold generated; cbn [snd fst executed logged ret];
  rewrite last_last; reflexivity.

Ltac no_row_by_reference crit t k Ha :=
  rewrite filter_none;
  [ reflexivity
  | let j := fresh "j" in
    let Hj := fresh "Hj" in
    intros j Hj; apply (holds_all_false _ j crit);
    [ simpl; auto 10
    | eapply (absent_reference_filters_all _ _ t k);
      [ | exact Ha | | exact Hj ]; simpl; auto 10 ] ].

Ltac no_row_by_key t k v Ha :=
  rewrite filter_none;
  [ reflexivity
  | let j := fresh "j" in
    let Hj := fresh "Hj" in
    intros j Hj; apply (holds_all_false _ j (PEq (c t k) v));
    [ simpl; auto 10
    | eapply (absent_key_filters_all _ _ t k);
      [ | exact Ha | exact Hj ]; simpl; auto 10 ] ].

Section Collect.

Variables (fk : string) (parent : table) (parent_key : string).
Variables (fk_value : value) (not_found : string).

Let collect := collect_values_to_update fk parent parent_key fk_value not_found.

(** When the new value of the foreign key exists (or the payload has
    none), the loop ends with all the fields that are not [None], having
    executed look-ups only. *)
Lemma collect_found (items : list (string * value)) :
  forall (acc : list (string * value)) (conn : AsyncConnection),
    (looks_up fk items = true ->
     exists z, fk_value = VInt z
               /\ present (session conn) parent parent_key (VInt z)) ->
    exists ss,
      collect items acc conn = (inr (set_values acc (non_null items)), logged conn ss)
      /\ existsb is_write ss = false.
Proof.
  induction items as [|[k v] items IH]; intros acc conn H.
  - exists []. now rewrite logged_nil.
  - unfold collect in *. cbn [collect_values_to_update non_null filter snd].
    simpl in H. destruct (is_null v) eqn:Ev; cbn [negb] in *.
    + apply IH. exact H.
    + destruct (String.eqb k fk) eqn:Ek; cbn [andb orb] in H.
      * destruct (H eq_refl) as (z & -> & Hp).
        unfold bind. rewrite execute_check.
        destruct (present_one _ _ _ _ Hp) as [r E]. rewrite E.
        cbn [one_or_none ret].
        destruct (IH (set_value acc k v) (logged conn [check parent parent_key (VInt z)]))
          as (ss & E' & W).
        { intros _. exists z. split; [reflexivity|exact Hp]. }
        exists (check parent parent_key (VInt z) :: ss).
        rewrite E', logged_logged. split; [reflexivity|exact W].
      * unfold bind at 1. cbn [ret]. apply IH. exact H.
Qed.

(** When it does not exist, the loop raises the 404, having executed
    look-ups only. *)
Lemma collect_missing (z : Z) (items : list (string * value)) :
  fk_value = VInt z ->
  forall (acc : list (string * value)) (conn : AsyncConnection),
    looks_up fk items = true ->
    absent (session conn) parent parent_key (VInt z) ->
    exists ss,
      collect items acc conn = (inl (HTTPException 404 not_found), logged conn ss)
      /\ existsb is_write ss = false.
Proof.
  intros Hz.
  induction items as [|[k v] items IH]; intros acc conn H Ha.
  - discriminate.
  - unfold collect in *. cbn [collect_values_to_update].
    simpl in H. destruct (is_null v) eqn:Ev; cbn [negb andb orb] in H.
    + apply IH; assumption.
    + destruct (String.eqb k fk) eqn:Ek; cbn [orb] in H.
      * rewrite Hz. unfold bind. rewrite execute_check.
        unfold absent in Ha. rewrite Ha. cbn [one_or_none ret raise].
        exists [check parent parent_key (VInt z)]. split; reflexivity.
      * unfold bind at 1. cbn [ret]. apply IH; assumption.
Qed.

End Collect.

Ltac run_collect_found :=
  match goal with
  | |- context [collect_values_to_update ?a ?b ?c ?d ?e ?f ?g ?h] =>
      let ss := fresh "ss" in
      let Ec := fresh "Ec" in
      let W := fresh "W" in
      destruct (collect_found a b c d e f g h) as (ss & Ec & W);
      [cbn [session logged] | rewrite Ec, logged_logged]
  end.

Ltac run_update Hpres key id :=
  match goal with
  | |- context [execute (Update ?t ?w ?v ?ret) ?cn] =>
      let x := fresh "x" in
      let Ex := fresh "Ex" in
      destruct (execute_update_present cn t key id v ret) as [x Ex];
      [exact Hpres | discriminate | rewrite Ex]
  end.

(** * The criteria of the generated queries *)

(** The listings scoped to a territory and the reads scoped to a physical
    object filter on the scope and on the inputs that are not [None], and
    on nothing else. *)
Lemma listings_filter_on_the_given_inputs_only :
  (forall (conn : AsyncConnection) (T : Z) (type_id : option Z) (name : option string),
      present (session conn) territories_data "territory_id" (VInt T) ->
      let scope := PEq (c object_geometries_data "territory_id") (VInt T) in
      let of_objects :=
        scope
          :: optional type_id
               (fun t => PEq (c physical_objects_data "physical_object_type_id") (VInt t))
          ++ optional name
               (fun n => PIlike (c physical_objects_data "name") ("%" ++ n ++ "%")%string) in
      let of_services :=
        scope
          :: optional type_id
               (fun t => PEq (c services_data "service_type_id") (VInt t))
          ++ optional name
               (fun n => PIlike (c services_data "name") ("%" ++ n ++ "%")%string) in
      whereclause_of
        (generated (get_physical_objects_by_territory_id_from_db T type_id name conn))
      = of_objects
      /\ whereclause_of
           (generated (get_physical_objects_with_geometry_by_territory_id_from_db
                         T type_id name conn))
         = of_objects
      /\ whereclause_of
           (generated (get_services_by_territory_id_from_db T type_id name conn))
         = of_services
      /\ whereclause_of
           (generated (get_services_with_geometry_by_territory_id_from_db
                         T type_id name conn))
         = of_services)
  /\ (forall (conn : AsyncConnection) (id : Z) (st tt : option Z),
         present (session conn) physical_objects_data "physical_object_id" (VInt id) ->
         let criteria :=
           PEq (c urban_objects_data "physical_object_id") (VInt id)
             :: optional st (fun t => PEq (c services_data "service_type_id") (VInt t))
             ++ optional tt
                  (fun t => PEq (c territory_types_dict "territory_type_id") (VInt t)) in
         whereclause_of
           (generated (get_services_by_physical_object_id_from_db id st tt conn))
         = criteria
         /\ whereclause_of
              (generated (get_services_with_geometry_by_physical_object_id_from_db
                            id st tt conn))
            = criteria).
Proof.
  split.
  - intros conn T type_id name Hp scope of_objects of_services.
    subst scope of_objects of_services. repeat split.
    + unfold get_physical_objects_by_territory_id_from_db. check_passes Hp.
      destruct type_id, name; run_query.
    + unfold get_physical_objects_with_geometry_by_territory_id_from_db.
      check_passes Hp. destruct type_id, name; run_query.
    + unfold get_services_by_territory_id_from_db. check_passes Hp.
      destruct type_id, name; run_query.
    + unfold get_services_with_geometry_by_territory_id_from_db. check_passes Hp.
      destruct type_id, name; run_query.
  - intros conn id st tt Hp criteria. subst criteria. split.
    + unfold get_services_by_physical_object_id_from_db. check_passes Hp.
      destruct st, tt; run_query.
    + unfold get_services_with_geometry_by_physical_object_id_from_db.
      check_passes Hp. destruct st, tt; run_query.
Qed.

(** The capacity aggregation compares the service type with its input
    whatever the input is: for [None] the criterion is [IS NULL]. *)
Lemma capacity_always_filters_on_the_service_type :
  forall (conn : AsyncConnection) (T : Z) (service_type_id : option Z),
    present (session conn) territories_data "territory_id" (VInt T) ->
    whereclause_of
      (generated (get_services_capacity_by_territory_id_from_db T service_type_id conn))
    = [PEq (c object_geometries_data "territory_id") (VInt T);
       match service_type_id with
       | Some st => PEq (c services_data "service_type_id") (VInt st)
       | None => PIsNull (c services_data "service_type_id")
       end].
Proof.
  intros conn T service_type_id Hp.
  unfold get_services_capacity_by_territory_id_from_db. check_passes Hp.
  destruct service_type_id; cbn [py_int];
    unfold where_, select_from, select, join, col_eq; cbn [is_null app];
    unfold bind; rewrite execute_select;
    unfold eval_select; cbn [from_of scalar]; unfold ret;
    unfold generated; cbn [snd fst executed logged];
    rewrite last_last; reflexivity.
Qed.

(** C1 on the fixture. The capacity aggregation of territory 5 with no
    service type given does not drop the filter on the service type: the
    query it generates carries the criterion [service_type_id IS NULL]
    next to the scope, and it returns NULL, where the join with the scope
    alone sums to 25. *)
Theorem capacity_without_service_type_still_filters :
  generated (get_services_capacity_by_territory_id_from_db 5 None fixture_conn)
  = capacity_query [PEq (c object_geometries_data "territory_id") (VInt 5);
                    PIsNull (c services_data "service_type_id")]
  /\ fst (get_services_capacity_by_territory_id_from_db 5 None fixture_conn)
     = inr VNull
  /\ fst (execute (capacity_query
                     [PEq (c object_geometries_data "territory_id") (VInt 5)])
                  fixture_conn)
     = inr [[("sum_1", VInt 25)]].
Proof. repeat split. Qed.

(** * Partial updates *)

Lemma patch_physical_object_applied
      (conn : AsyncConnection) (p : PhysicalObjectsDataPatch) (id : Z) :
  present (session conn) physical_objects_data "physical_object_id" (VInt id) ->
  match patch_physical_object_type_id p with
  | Some t => present (session conn) physical_object_types_dict
                      "physical_object_type_id" (VInt t)
  | None => True
  end ->
  patch_applied physical_objects_data "physical_object_id" id
                (model_dump_physical_object p)
                conn (snd (patch_physical_object_to_db p id conn)).
Proof.
  intros Hpres Hfk. unfold patch_applied, patch_physical_object_to_db.
  check_passes Hpres. run_collect_found.
  { destruct (patch_physical_object_type_id p) as [t|] eqn:Et.
    - intros _. exists t. split; [reflexivity|exact Hfk].
    - unfold model_dump_physical_object. rewrite Et. cbn.
      rewrite !andb_false_r. discriminate. }
  unfold values, returning, where_, update, col_eq. cbn [is_null app].
  rewrite values_to_update_distinct by apply model_dump_physical_object_keys.
  pose proof (patched_by_update physical_objects_data "physical_object_id" id
                (model_dump_physical_object p)
                (rows (session conn physical_objects_data))
                (model_dump_physical_object_keys p)) as Hrows.
  destruct (non_null (model_dump_physical_object p)) as [|kv vals] eqn:En.
  - cbn. repeat split.
    + apply patched_nothing. exact En.
    + intros C. now contradiction C.
  - run_update Hpres "physical_object_id" id.
    cbn [one ret commit session committed executed logged].
    match goal with |- context [get_physical_object_by_id_from_db ?v ?cn] =>
      destruct (get_physical_object_by_id_reads v cn) as [Hs Hc] end.
    rewrite Hs, Hc. cbn [session committed].
    repeat split.
    + rewrite set_table_same. exact Hrows.
    + intros t Ht. now apply set_table_other.
Qed.

Lemma patch_living_building_applied
      (conn : AsyncConnection) (p : LivingBuildingsDataPatch) (id : Z) :
  present (session conn) living_buildings_data "living_building_id" (VInt id) ->
  match lb_patch_physical_object_id p with
  | Some po => present (session conn) physical_objects_data
                       "physical_object_id" (VInt po)
  | None => True
  end ->
  patch_applied living_buildings_data "living_building_id" id
                (model_dump_living_building p)
                conn (snd (patch_living_building_to_db p id conn)).
Proof.
  intros Hpres Hfk. unfold patch_applied, patch_living_building_to_db.
  check_passes Hpres. run_collect_found.
  { destruct (lb_patch_physical_object_id p) as [t|] eqn:Et.
    - intros _. exists t. split; [reflexivity|exact Hfk].
    - unfold model_dump_living_building. rewrite Et. cbn.
      rewrite !andb_false_r. discriminate. }
  unfold values, returning, where_, update, col_eq. cbn [is_null app].
  rewrite values_to_update_distinct by apply model_dump_living_building_keys.
  pose proof (patched_by_update living_buildings_data "living_building_id" id
                (model_dump_living_building p)
                (rows (session conn living_buildings_data))
                (model_dump_living_building_keys p)) as Hrows.
  destruct (non_null (model_dump_living_building p)) as [|kv vals] eqn:En.
  - cbn. repeat split.
    + apply patched_nothing. exact En.
    + intros C. now contradiction C.
  - run_update Hpres "living_building_id" id.
    cbn [one ret commit session committed executed logged].
    match goal with |- context [get_living_building_by_id_from_db ?v ?cn] =>
      destruct (get_living_building_by_id_reads v cn) as [Hs Hc] end.
    rewrite Hs. cbn [session committed] in *.
    repeat split.
    + rewrite set_table_same. exact Hrows.
    + intros t Ht. now apply set_table_other.
    + intros _. destruct Hc as [Hc|Hc]; exact Hc.
Qed.

Lemma patch_physical_object_refused
      (conn : AsyncConnection) (p : PhysicalObjectsDataPatch) (id t : Z) :
  present (session conn) physical_objects_data "physical_object_id" (VInt id) ->
  patch_physical_object_type_id p = Some t ->
  absent (session conn) physical_object_types_dict "physical_object_type_id" (VInt t) ->
  patch_refused "Given physical object type id is not found" conn
                (patch_physical_object_to_db p id conn).
Proof.
  intros Hpres Et Ha. unfold patch_refused, patch_physical_object_to_db.
  check_passes Hpres.
  match goal with
  | |- context [collect_values_to_update ?a ?b ?c ?d ?e ?f ?g ?h] =>
      destruct (collect_missing a b c d e t f) with (acc := g) (conn := h)
        as (ss & Ec & W)
  end.
  - now rewrite Et.
  - unfold model_dump_physical_object. now rewrite Et.
  - exact Ha.
  - rewrite Ec, logged_logged. cbn. repeat split. eexists. split; [reflexivity|exact W].
Qed.

Lemma patch_living_building_refused
      (conn : AsyncConnection) (p : LivingBuildingsDataPatch) (id po : Z) :
  present (session conn) living_buildings_data "living_building_id" (VInt id) ->
  lb_patch_physical_object_id p = Some po ->
  absent (session conn) physical_objects_data "physical_object_id" (VInt po) ->
  patch_refused "Given physical object id is not found" conn
                (patch_living_building_to_db p id conn).
Proof.
  intros Hpres Et Ha. unfold patch_refused, patch_living_building_to_db.
  check_passes Hpres.
  match goal with
  | |- context [collect_values_to_update ?a ?b ?c ?d ?e ?f ?g ?h] =>
      destruct (collect_missing a b c d e po f) with (acc := g) (conn := h)
        as (ss & Ec & W)
  end.
  - now rewrite Et.
  - unfold model_dump_living_building. now rewrite Et.
  - exact Ha.
  - rewrite Ec, logged_logged. cbn. repeat split. eexists. split; [reflexivity|exact W].
Qed.

(** C2. A patch of an existing physical object, or of an existing living
    building, writes the fields of the payload that are not [None] and
    leaves every other column of the row, every other row and every other
    table as stored.  When the payload changes the foreign key
    ([physical_object_type_id], or a living building's
    [physical_object_id]) to an id that does not exist, the call raises the
    404 and nothing is written. *)
Theorem patch_writes_the_given_fields_and_keeps_the_rest :
  (forall (conn : AsyncConnection) (p : PhysicalObjectsDataPatch) (id : Z),
      present (session conn) physical_objects_data "physical_object_id" (VInt id) ->
      (match patch_physical_object_type_id p with
       | Some t => present (session conn) physical_object_types_dict
                           "physical_object_type_id" (VInt t)
       | None => True
       end ->
       patch_applied physical_objects_data "physical_object_id" id
                     (model_dump_physical_object p)
                     conn (snd (patch_physical_object_to_db p id conn)))
      /\ (forall t,
             patch_physical_object_type_id p = Some t ->
             absent (session conn) physical_object_types_dict
                    "physical_object_type_id" (VInt t) ->
             patch_refused "Given physical object type id is not found" conn
                           (patch_physical_object_to_db p id conn)))
  /\ (forall (conn : AsyncConnection) (p : LivingBuildingsDataPatch) (id : Z),
         present (session conn) living_buildings_data "living_building_id" (VInt id) ->
         (match lb_patch_physical_object_id p with
          | Some po => present (session conn) physical_objects_data
                               "physical_object_id" (VInt po)
          | None => True
          end ->
          patch_applied living_buildings_data "living_building_id" id
                        (model_dump_living_building p)
                        conn (snd (patch_living_building_to_db p id conn)))
         /\ (forall po,
                lb_patch_physical_object_id p = Some po ->
                absent (session conn) physical_objects_data
                       "physical_object_id" (VInt po) ->
                patch_refused "Given physical object id is not found" conn
                              (patch_living_building_to_db p id conn))).
Proof.
  split; intros conn p id Hpres; split.
  - now apply patch_physical_object_applied.
  - intros t. now apply patch_physical_object_refused.
  - now apply patch_living_building_applied.
  - intros po. now apply patch_living_building_refused.
Qed.

Lemma patch_writes_the_given_fields_and_keeps_the_rest_witness :
  patch_applied physical_objects_data "physical_object_id" 10
                (model_dump_physical_object rename_to_B)
                fixture_conn (snd (patch_physical_object_to_db rename_to_B 10 fixture_conn))
  /\ patch_refused "Given physical object type id is not found" fixture_conn
                   (patch_physical_object_to_db retype_to_77 10 fixture_conn).
Proof.
  split.
  - apply (proj1 (proj1 patch_writes_the_given_fields_and_keeps_the_rest
                        fixture_conn rename_to_B 10 eq_refl)).
    exact I.
  - apply (proj2 (proj1 patch_writes_the_given_fields_and_keeps_the_rest
                        fixture_conn retype_to_77 10 eq_refl) 77);
      reflexivity.
Defined.

Example patch_name_only_on_fixture :
  matching (session (snd (patch_physical_object_to_db rename_to_B 10 fixture_conn)))
           physical_objects_data "physical_object_id" (VInt 10)
  = [[("physical_object_id", VInt 10); ("physical_object_type_id", VInt 2);
      ("name", VStr "B"); ("properties", VJson (JObj (MCons "x" (JInt 1) MNil)))]].
Proof. reflexivity. Qed.

Example patch_to_missing_type_on_fixture :
  rows (session (snd (patch_physical_object_to_db retype_to_77 10 fixture_conn))
                physical_objects_data)
  = rows (fixture physical_objects_data).
Proof. reflexivity. Qed.

(** * Creation of a physical object with its geometry *)

(** C3, as amended. With an existing territory and an existing physical
    object type, the composite create stores one new row in each of
    [physical_objects_data], [object_geometries_data] and
    [urban_objects_data] (the last linking the first two), commits, and
    returns a mapping of exactly three entries: the generated physical
    object id, the generated object geometry id and the territory id of the
    request.  The generated urban object id is not part of it. *)
Theorem composite_create_returns_two_generated_ids_and_the_territory :
  forall (conn : AsyncConnection) (p : PhysicalObjectsDataPost),
    present (session conn) territories_data "territory_id"
            (VInt (post_territory_id p)) ->
    present (session conn) physical_object_types_dict "physical_object_type_id"
            (VInt (post_physical_object_type_id p)) ->
    let db := session conn in
    let po := next_id (db physical_objects_data) in
    let og := next_id (db object_geometries_data) in
    let uo := next_id (db urban_objects_data) in
    let out := add_physical_object_with_geometry_to_db p conn in
    fst out = inr [("physical_object_id", VInt po);
                   ("object_geometry_id", VInt og);
                   ("territory_id", VInt (post_territory_id p))]
    /\ rows (session (snd out) physical_objects_data)
       = rows (db physical_objects_data) ++ [physical_object_row po p]
    /\ rows (session (snd out) object_geometries_data)
       = rows (db object_geometries_data) ++ [object_geometry_row og p]
    /\ rows (session (snd out) urban_objects_data)
       = rows (db urban_objects_data) ++ [urban_object_row uo po og]
    /\ (forall t, t <> physical_objects_data -> t <> object_geometries_data ->
                  t <> urban_objects_data -> session (snd out) t = db t)
    /\ committed (snd out) = session (snd out).
Proof.
  intros conn p Ht Hp db po og uo out. subst db po og uo out.
  unfold add_physical_object_with_geometry_to_db.
  check_passes Ht. rewrite execute_check. cbn [session logged].
  destruct (present_one _ _ _ _ Hp) as [r' E']. rewrite E'.
  cbn [one_or_none ret]. cbn.
  repeat split.
  intros t H1 H2 H3. now rewrite !set_table_other.
Qed.

Lemma composite_create_returns_two_generated_ids_and_the_territory_witness :
  fst (add_physical_object_with_geometry_to_db barn fixture_conn)
  = inr [("physical_object_id", VInt 13);
         ("object_geometry_id", VInt 102);
         ("territory_id", VInt 5)].
Proof.
  apply (composite_create_returns_two_generated_ids_and_the_territory
           fixture_conn barn); reflexivity.
Defined.

(** C3, as stated, fails: on the fixture the create generates the urban
    object id 1003 and stores the linking row under it, and the mapping it
    returns has no entry for an urban object id and holds 1003 nowhere. *)
Lemma composite_create_does_not_return_the_urban_object_id :
  exists d conn',
    add_physical_object_with_geometry_to_db barn fixture_conn = (inr d, conn')
    /\ In (urban_object_row 1003 13 102) (rows (session conn' urban_objects_data))
    /\ lookup d "urban_object_id" = None
    /\ ~ In (VInt 1003) (map snd d).
Proof.
  exists [("physical_object_id", VInt 13);
          ("object_geometry_id", VInt 102);
          ("territory_id", VInt 5)].
  exists (snd (add_physical_object_with_geometry_to_db barn fixture_conn)).
  split; [reflexivity|].
  split; [cbn; auto 10|].
  split; [reflexivity|].
  cbn. intros [H|[H|[H|[]]]]; discriminate.
Qed.

(** C8. When the territory of the request does not exist, or it exists and
    the physical object type does not, the composite create raises the
    matching 404 having executed the existence checks only: no INSERT (no
    write at all) is executed, and the session's tables and the committed
    tables are those from before the call. *)
Theorem failed_validation_aborts_composite_create :
  forall (conn : AsyncConnection) (p : PhysicalObjectsDataPost),
    let check_territory :=
      check territories_data "territory_id" (VInt (post_territory_id p)) in
    let check_type :=
      check physical_object_types_dict "physical_object_type_id"
            (VInt (post_physical_object_type_id p)) in
    (absent (session conn) territories_data "territory_id"
            (VInt (post_territory_id p)) ->
     add_physical_object_with_geometry_to_db p conn
     = (inl (HTTPException 404 "Given territory id is not found"),
        mk_conn (session conn) (committed conn)
                (executed conn ++ [check_territory])))
    /\ (present (session conn) territories_data "territory_id"
                (VInt (post_territory_id p)) ->
        absent (session conn) physical_object_types_dict "physical_object_type_id"
               (VInt (post_physical_object_type_id p)) ->
        add_physical_object_with_geometry_to_db p conn
        = (inl (HTTPException 404 "Given physical object type id is not found"),
           mk_conn (session conn) (committed conn)
                   (executed conn ++ [check_territory; check_type])))
    /\ existsb is_write [check_territory; check_type] = false.
Proof.
  intros conn p check_territory check_type. subst check_territory check_type.
  repeat split.
  - intros H. unfold absent in H.
    unfold add_physical_object_with_geometry_to_db. check_fails H.
  - intros Ht Hp. unfold absent in Hp.
    unfold add_physical_object_with_geometry_to_db.
    check_passes Ht.
    rewrite execute_check. cbn [session logged]. rewrite Hp.
    cbn [one_or_none ret]. unfold raise. now rewrite logged_logged.
Qed.

Lemma failed_validation_aborts_composite_create_witness :
  add_physical_object_with_geometry_to_db of_unknown_type fixture_conn
  = (inl (HTTPException 404 "Given physical object type id is not found"),
     mk_conn fixture fixture
             [check territories_data "territory_id" (VInt 5);
              check physical_object_types_dict "physical_object_type_id" (VInt 9)]).
Proof.
  apply (proj1 (proj2 (failed_validation_aborts_composite_create
                         fixture_conn of_unknown_type)));
    reflexivity.
Defined.

(** * Reads scoped to a parent that does not exist *)

(** C4. For a territory id that no row of [territories_data] carries, the
    territory-scoped reads (the two listings of physical objects, the two
    listings of services and the capacity aggregation) raise the 404
    "Given territory id is not found" after executing the existence check
    and nothing else: the session and the committed tables are as before
    and the one statement logged is not a join. *)
Theorem missing_territory_is_not_found_before_any_join :
  forall (conn : AsyncConnection) (T : Z) (type_id : option Z) (name : option string),
    absent (session conn) territories_data "territory_id" (VInt T) ->
    get_physical_objects_by_territory_id_from_db T type_id name conn
      = territory_not_found conn T
    /\ get_physical_objects_with_geometry_by_territory_id_from_db T type_id name conn
      = territory_not_found conn T
    /\ get_services_by_territory_id_from_db T type_id name conn
      = territory_not_found conn T
    /\ get_services_with_geometry_by_territory_id_from_db T type_id name conn
      = territory_not_found conn T
    /\ get_services_capacity_by_territory_id_from_db T type_id conn
      = territory_not_found conn T
    /\ is_join_query (check territories_data "territory_id" (VInt T)) = false.
Proof.
  intros conn T type_id name H. unfold absent in H.
  unfold territory_not_found.
  repeat split.
  - unfold get_physical_objects_by_territory_id_from_db. check_fails H.
  - unfold get_physical_objects_with_geometry_by_territory_id_from_db. check_fails H.
  - unfold get_services_by_territory_id_from_db. check_fails H.
  - unfold get_services_with_geometry_by_territory_id_from_db. check_fails H.
  - unfold get_services_capacity_by_territory_id_from_db. check_fails H.
Qed.

Lemma missing_territory_is_not_found_before_any_join_witness :
  absent (session fixture_conn) territories_data "territory_id" (VInt 9)
  /\ get_services_capacity_by_territory_id_from_db 9 (Some 3) fixture_conn
     = territory_not_found fixture_conn 9.
Proof.
  split; [reflexivity|].
  apply (missing_territory_is_not_found_before_any_join
           fixture_conn 9 (Some 3) None).
  reflexivity.
Defined.

(** C6. The read of a living building by id makes no existence check of
    its own: for an id that no row of [living_buildings_data] carries, the
    one statement it executes is the five-table join, and it raises
    [NoResultFound], which is not an [HTTPException]. *)
Theorem missing_living_building_raises_no_result_found :
  forall (conn : AsyncConnection) (id : Z),
    absent (session conn) living_buildings_data "living_building_id" (VInt id) ->
    let out := get_living_building_by_id_from_db (VInt id) conn in
    fst out = inl NoResultFound
    /\ (forall status detail, fst out <> inl (HTTPException status detail))
    /\ exists q, executed (snd out) = executed conn ++ [q] /\ is_join_query q = true.
Proof.
  intros conn id Ha out. subst out.
  unfold get_living_building_by_id_from_db, bind.
  unfold where_, select_from, select, join, col_eq. cbn [is_null app].
  rewrite execute_select. unfold eval_select. cbn [from_of].
  rewrite no_row_for_absent_key
    with (k := "living_building_id") (v := VInt id);
    [|exact Ha|now left].
  cbn. repeat split.
  - intros status detail H. discriminate.
  - eexists. split; reflexivity.
Qed.

Lemma missing_living_building_raises_no_result_found_witness :
  absent (session fixture_conn) living_buildings_data "living_building_id" (VInt 8)
  /\ fst (get_living_building_by_id_from_db (VInt 8) fixture_conn) = inl NoResultFound.
Proof.
  split; [reflexivity|].
  apply (missing_living_building_raises_no_result_found fixture_conn 8).
  reflexivity.
Defined.

(** * Reading back a replaced or patched physical object *)

(** With one junction row, whose geometry exists, and an existing type,
    the read of a physical object returns its row with the name of the type
    and the address of the geometry. *)
Lemma read_succeeds_with_one_geometry (conn : AsyncConnection) (id : Z) (p u g t : row) :
  matching (session conn) physical_objects_data "physical_object_id" (VInt id) = [p] ->
  matching (session conn) urban_objects_data "physical_object_id" (VInt id) = [u] ->
  matching (session conn) object_geometries_data "object_geometry_id"
           (rget u "object_geometry_id") = [g] ->
  matching (session conn) physical_object_types_dict "physical_object_type_id"
           (rget p "physical_object_type_id") = [t] ->
  fst (get_physical_object_by_id_from_db (VInt id) conn)
  = inr (p ++ [("physical_object_type_name", rget t "name");
               ("address", rget g "address")]).
Proof.
  intros Hp Hu Hg Ht.
  assert (Hid : rget p "physical_object_id" = VInt id).
  { assert (Hin : In p (matching (session conn) physical_objects_data
                                 "physical_object_id" (VInt id)))
      by (rewrite Hp; now left).
    apply filter_In in Hin. now apply value_eqb_eq. }
  unfold get_physical_object_by_id_from_db.
  unfold where_, select_from, select, join, col_eq; cbn [is_null app];
  unfold bind; rewrite execute_select; unfold eval_select; cbn [from_of].
  match goal with |- context [filter _ (eval_from ?db ?f)] =>
    pose proof (where_on_leftmost db f "physical_object_id" (VInt id)) as Hw
  end.
  cbn [leftmost] in Hw. rewrite Hw by (cbn; intuition discriminate). clear Hw.
  cbn [eval_from]. unfold restricted at 4. rewrite set_table_same.
  cbn [rows]. rewrite Hp. cbn [map flat_map]. rewrite app_nil_r.
  unfold restricted, set_table. cbn [table_eqb].
  rewrite (join_step_lookup (session conn) [(physical_objects_data, p)]
             urban_objects_data "physical_object_id"
             (c physical_objects_data "physical_object_id"))
    by (cbn; intuition discriminate).
  cbn [jget c fst snd table_eqb]. rewrite Hid, Hu.
  cbn [map flat_map]. rewrite app_nil_r.
  change ([(physical_objects_data, p)] ++ [(urban_objects_data, u)])
    with [(physical_objects_data, p); (urban_objects_data, u)].
  rewrite (join_step_lookup (session conn)
             [(physical_objects_data, p); (urban_objects_data, u)]
             object_geometries_data "object_geometry_id"
             (c urban_objects_data "object_geometry_id"))
    by (cbn; intuition discriminate).
  cbn [jget c fst snd table_eqb]. rewrite Hg.
  cbn [map flat_map]. rewrite app_nil_r.
  change ([(physical_objects_data, p); (urban_objects_data, u)]
            ++ [(object_geometries_data, g)])
    with [(physical_objects_data, p); (urban_objects_data, u);
          (object_geometries_data, g)].
  rewrite (join_step_lookup (session conn)
             [(physical_objects_data, p); (urban_objects_data, u);
              (object_geometries_data, g)]
             physical_object_types_dict "physical_object_type_id"
             (c physical_objects_data "physical_object_type_id"))
    by (cbn; intuition discriminate).
  cbn [jget c fst snd table_eqb]. rewrite Ht.
  cbn. reflexivity.
Qed.

(** With one junction row, replacing a physical object returns the stored
    row as replaced, with the name of its new type and the address of its
    geometry. *)
Lemma replace_succeeds_with_one_geometry
      (conn : AsyncConnection) (payload : PhysicalObjectsDataPut) (id : Z)
      (p u g t : row) :
  matching (session conn) physical_objects_data "physical_object_id" (VInt id) = [p] ->
  matching (session conn) physical_object_types_dict "physical_object_type_id"
           (VInt (put_physical_object_type_id payload)) = [t] ->
  matching (session conn) urban_objects_data "physical_object_id" (VInt id) = [u] ->
  matching (session conn) object_geometries_data "object_geometry_id"
           (rget u "object_geometry_id") = [g] ->
  fst (put_physical_object_to_db payload id conn)
  = inr (row_update p [("physical_object_type_id",
                        VInt (put_physical_object_type_id payload));
                       ("name", py_str (put_name payload));
                       ("properties", VJson (JObj (put_properties payload)))]
           ++ [("physical_object_type_name", rget t "name");
               ("address", rget g "address")]).
Proof.
  intros Hp Ht Hu Hg.
  pose proof (matching_in _ _ _ _ _ Hp) as Hid.
  assert (Hkey : forall r,
             rget (row_update
                     r [("physical_object_type_id",
                         VInt (put_physical_object_type_id payload));
                        ("name", py_str (put_name payload));
                        ("properties", VJson (JObj (put_properties payload)))])
                  "physical_object_id"
             = rget r "physical_object_id").
  { intros r. unfold row_update. cbn [set_values fold_left fst snd].
    now rewrite !rget_set_value. }
  assert (Htype : forall r,
             rget (row_update
                     r [("physical_object_type_id",
                         VInt (put_physical_object_type_id payload));
                        ("name", py_str (put_name payload));
                        ("properties", VJson (JObj (put_properties payload)))])
                  "physical_object_type_id"
             = VInt (put_physical_object_type_id payload)).
  { intros r. unfold row_update. cbn [set_values fold_left fst snd].
    now rewrite !rget_set_value. }
  unfold put_physical_object_to_db.
  unfold bind. rewrite execute_check. rewrite Hp. cbn [one_or_none ret].
  rewrite execute_check. cbn [session logged]. rewrite Ht. cbn [one_or_none ret].
  unfold values, returning, where_, update, col_eq. cbn [is_null app].
  match goal with |- context [set_values [] ?vals] =>
    change (set_values [] vals) with vals
  end.
  unfold execute. cbn [run session logged committed executed].
  rewrite matching_hits, Hp. cbn [map one ret commit session committed executed].
  rewrite project_star, Hkey, Hid.
  apply read_succeeds_with_one_geometry with (u := u).
  - cbn [session]. unfold matching. rewrite set_table_same. cbn [rows].
    rewrite filter_update_rows by exact Hkey.
    fold (matching (session conn) physical_objects_data "physical_object_id" (VInt id)).
    now rewrite Hp.
  - exact Hu.
  - exact Hg.
  - cbn [session]. rewrite Htype. exact Ht.
Qed.

(** C5 on the fixture. Physical object 10 exists, its type exists, and it
    sits on two geometries (two rows of [urban_objects_data]).  Replacing
    it and patching it both write and commit the row and then raise
    [MultipleResultsFound] from the read of the re-joined entity, which
    raises the same on its own. *)
Theorem reread_fails_for_object_on_two_geometries :
  present fixture physical_objects_data "physical_object_id" (VInt 10)
  /\ List.length (matching fixture urban_objects_data "physical_object_id" (VInt 10))
     = 2%nat
  /\ fst (get_physical_object_by_id_from_db (VInt 10) fixture_conn)
     = inl MultipleResultsFound
  /\ fst (put_physical_object_to_db same_as_stored 10 fixture_conn)
     = inl MultipleResultsFound
  /\ fst (patch_physical_object_to_db rename_to_B 10 fixture_conn)
     = inl MultipleResultsFound
  /\ rget (hd [] (matching
                    (committed (snd (patch_physical_object_to_db rename_to_B 10
                                                                 fixture_conn)))
                    physical_objects_data "physical_object_id" (VInt 10)))
          "name"
     = VStr "B".
Proof. repeat split. Qed.

(** The read of the geometries of the same object returns both. *)
Example geometries_of_object_on_two_geometries :
  fst (get_physical_object_geometries_from_db 10 fixture_conn)
  = inr [[("object_geometry_id", VInt 100); ("territory_id", VInt 5);
          ("address", VStr "1 Main St");
          ("geometry", VGeoJSON (VGeom 4326 "POINT (30 60)"));
          ("centre_point", VGeoJSON (VGeom 4326 "POINT (30 60)"))];
         [("object_geometry_id", VInt 101); ("territory_id", VInt 5);
          ("address", VStr "2 Side St");
          ("geometry", VGeoJSON (VGeom 4326 "POINT (31 61)"));
          ("centre_point", VGeoJSON (VGeom 4326 "POINT (31 61)"))]].
Proof. reflexivity. Qed.

(** * Capacity of the services of a territory *)

(** C7. For an existing territory and a service type, the capacity
    aggregation returns the sum of the real capacities recorded for the
    services of that type that operate in the territory, and NULL (Python's
    [None]), not zero, when there is no such service or none of them has a
    capacity recorded.  Each service is taken to hang on one urban object
    at most, and [object_geometry_id] to be a key. *)
Theorem capacity_is_the_sum_or_null :
  forall (conn : AsyncConnection) (T st : Z),
    present (session conn) territories_data "territory_id" (VInt T) ->
    unique_on "service_id" (rows (session conn urban_objects_data)) = true ->
    unique_on "object_geometry_id" (rows (session conn object_geometries_data)) = true ->
    let out := get_services_capacity_by_territory_id_from_db T (Some st) conn in
    fst out = inr (total (real_capacities (services_in (session conn) T st)))
    /\ (forall a b,
           real_capacities (services_in (session conn) T st) = [a; b] ->
           fst out = inr (VInt (a + b)))
    /\ (services_in (session conn) T st = [] ->
        fst out = inr VNull /\ fst out <> inr (VInt 0)).
Proof.
  intros conn T st Hp HU HG out.
  assert (E : fst out = inr (total (real_capacities (services_in (session conn) T st)))).
  { subst out. unfold get_services_capacity_by_territory_id_from_db.
    check_passes Hp. cbn [py_int]. run_listing.
    rewrite (capacity_join_rows (session conn) T st HU HG).
    cbn. rewrite sql_sum_total. unfold real_capacities.
    now rewrite flat_map_of_map. }
  split; [exact E|]. split.
  - intros a b Hab. rewrite E, Hab. cbn. do 2 f_equal. lia.
  - intros Hnone. rewrite E, Hnone. split; [reflexivity|discriminate].
Qed.

Lemma capacity_is_the_sum_or_null_witness :
  fst (get_services_capacity_by_territory_id_from_db 5 (Some 3) fixture_conn)
  = inr (VInt (10 + 15))
  /\ fst (get_services_capacity_by_territory_id_from_db 5 (Some 9) fixture_conn)
     = inr VNull.
Proof.
  split.
  - apply (proj1 (proj2 (capacity_is_the_sum_or_null
                           fixture_conn 5 3 eq_refl eq_refl eq_refl)) 10 15).
    reflexivity.
  - apply (proj2 (proj2 (capacity_is_the_sum_or_null
                           fixture_conn 5 9 eq_refl eq_refl eq_refl))).
    reflexivity.
Defined.

(** The join has one row per urban object that carries a service: a
    service carried by two urban objects of the territory counts twice. *)
Example capacity_counts_a_service_once_per_urban_object :
  unique_on "service_id" (rows (fixture_shared urban_objects_data)) = false
  /\ total (real_capacities (services_in fixture_shared 5 3)) = VInt 25
  /\ fst (get_services_capacity_by_territory_id_from_db
            5 (Some 3) (mk_conn fixture_shared fixture_shared []))
     = inr (VInt 35).
Proof. repeat split. Qed.

(** * Creation of a physical object type *)

(** C9. When a row of [physical_object_types_dict] already carries the name
    of the request, creating the type raises the 400 "Invalid input
    (physical object type already exists)" after the look-up of the name
    and before any write: the table is unchanged in the session and in
    what is committed, and so is its number of rows. *)
Theorem duplicate_type_name_is_rejected_before_any_write :
  forall (conn : AsyncConnection) (p : PhysicalObjectsTypesPost),
    present (session conn) physical_object_types_dict "name" (VStr (pot_name p)) ->
    let out := add_physical_object_type_to_db p conn in
    fst out = inl (HTTPException 400 "Invalid input (physical object type already exists)")
    /\ session (snd out) = session conn
    /\ committed (snd out) = committed conn
    /\ executed (snd out)
       = executed conn ++ [check physical_object_types_dict "name" (VStr (pot_name p))]
    /\ List.length (rows (session (snd out) physical_object_types_dict))
       = List.length (rows (session conn physical_object_types_dict)).
Proof.
  intros conn p H out. subst out.
  unfold add_physical_object_type_to_db, bind.
  rewrite execute_check_str.
  destruct (present_one _ _ _ _ H) as [r E]. rewrite E.
  cbn. repeat split; reflexivity.
Qed.

Lemma duplicate_type_name_is_rejected_before_any_write_witness :
  fst (add_physical_object_type_to_db {| pot_name := "road" |} fixture_conn)
  = inl (HTTPException 400 "Invalid input (physical object type already exists)").
Proof.
  apply (duplicate_type_name_is_rejected_before_any_write
           fixture_conn {| pot_name := "road" |}).
  reflexivity.
Defined.

(** * Scoped reads of services with an unknown filter id *)

(** C10. The scoped reads of services check that the scoping parent
    exists and nothing else.  Given a [service_type_id] that
    [service_types_dict] does not have, or a [territory_type_id] that
    [territory_types_dict] does not have, the reads scoped to an existing
    physical object return the empty list and raise nothing; so do the
    reads scoped to an existing territory given an unknown
    [service_type_id], whatever the other filter is. *)
Theorem unknown_filter_id_gives_the_empty_list :
  (forall (conn : AsyncConnection) (id st : Z) (tt : option Z),
      present (session conn) physical_objects_data "physical_object_id" (VInt id) ->
      absent (session conn) service_types_dict "service_type_id" (VInt st) ->
      fst (get_services_by_physical_object_id_from_db id (Some st) tt conn) = inr []
      /\ fst (get_services_with_geometry_by_physical_object_id_from_db
                id (Some st) tt conn) = inr [])
  /\ (forall (conn : AsyncConnection) (id tt : Z) (st : option Z),
         present (session conn) physical_objects_data "physical_object_id" (VInt id) ->
         absent (session conn) territory_types_dict "territory_type_id" (VInt tt) ->
         fst (get_services_by_physical_object_id_from_db id st (Some tt) conn) = inr []
         /\ fst (get_services_with_geometry_by_physical_object_id_from_db
                   id st (Some tt) conn) = inr [])
  /\ (forall (conn : AsyncConnection) (T st : Z) (name : option string),
         present (session conn) territories_data "territory_id" (VInt T) ->
         absent (session conn) service_types_dict "service_type_id" (VInt st) ->
         fst (get_services_by_territory_id_from_db T (Some st) name conn) = inr []
         /\ fst (get_services_with_geometry_by_territory_id_from_db
                   T (Some st) name conn) = inr []).
Proof.
  split; [|split].
  - intros conn id st tt Hp Ha. split.
    + unfold get_services_by_physical_object_id_from_db. check_passes Hp.
      destruct tt as [tt|]; run_listing;
        no_row_by_reference (PEq (c services_data "service_type_id") (VInt st))
                            service_types_dict "service_type_id" Ha.
    + unfold get_services_with_geometry_by_physical_object_id_from_db.
      check_passes Hp.
      destruct tt as [tt|]; run_listing;
        no_row_by_reference (PEq (c services_data "service_type_id") (VInt st))
                            service_types_dict "service_type_id" Ha.
  - intros conn id tt st Hp Ha. split.
    + unfold get_services_by_physical_object_id_from_db. check_passes Hp.
      destruct st as [st|]; run_listing;
        no_row_by_key territory_types_dict "territory_type_id" (VInt tt) Ha.
    + unfold get_services_with_geometry_by_physical_object_id_from_db.
      check_passes Hp.
      destruct st as [st|]; run_listing;
        no_row_by_key territory_types_dict "territory_type_id" (VInt tt) Ha.
  - intros conn T st name Hp Ha. split.
    + unfold get_services_by_territory_id_from_db. check_passes Hp.
      destruct name as [name|]; run_listing;
        no_row_by_reference (PEq (c services_data "service_type_id") (VInt st))
                            service_types_dict "service_type_id" Ha.
    + unfold get_services_with_geometry_by_territory_id_from_db. check_passes Hp.
      destruct name as [name|]; run_listing;
        no_row_by_reference (PEq (c services_data "service_type_id") (VInt st))
                            service_types_dict "service_type_id" Ha.
Qed.

Lemma unknown_filter_id_gives_the_empty_list_witness :
  fst (get_services_by_physical_object_id_from_db 10 (Some 9) None fixture_conn)
  = inr []
  /\ fst (get_services_by_physical_object_id_from_db 10 None (Some 9) fixture_conn)
     = inr []
  /\ fst (get_services_by_territory_id_from_db 5 (Some 9) (Some "school") fixture_conn)
     = inr [].
Proof.
  split; [|split].
  - apply (proj1 unknown_filter_id_gives_the_empty_list fixture_conn 10 9 None);
      reflexivity.
  - apply (proj1 (proj2 unknown_filter_id_gives_the_empty_list)
                 fixture_conn 10 9 None); reflexivity.
  - apply (proj2 (proj2 unknown_filter_id_gives_the_empty_list)
                 fixture_conn 5 9 (Some "school")); reflexivity.
Defined.

(** * Reads *)

Lemma read_only_logged {A : Type} (conn : AsyncConnection) (ss : list statement)
      (res : exception + A) :
  existsb is_write ss = false -> read_only conn (res, logged conn ss).
Proof.
  intros H. unfold read_only. cbn. repeat split. now exists ss.
Qed.

Ltac read_only_listing :=
  unfold bind; rewrite execute_check;
  match goal with
  | |- context [one_or_none ?l] => destruct l as [|? [|? ?]]
  end;
  cbn [one_or_none ret raise];
  [ now apply read_only_logged
  | unfold where_, select_from, select, join, col_eq; cbn [is_null app];
    rewrite execute_select; unfold ret; rewrite logged_logged;
    now apply read_only_logged
  | now apply read_only_logged ].

(** The listings and the scoped reads never write: whatever the database
    and the inputs, and whether they return or raise, the session's tables
    and the committed tables are left as they were and the statements
    executed are SELECTs. *)
Theorem listings_never_write :
  forall (conn : AsyncConnection) (id : Z) (f1 f2 : option Z) (name : option string),
    read_only conn (get_physical_objects_by_territory_id_from_db id f1 name conn)
    /\ read_only conn
         (get_physical_objects_with_geometry_by_territory_id_from_db id f1 name conn)
    /\ read_only conn (get_services_by_territory_id_from_db id f1 name conn)
    /\ read_only conn
         (get_services_with_geometry_by_territory_id_from_db id f1 name conn)
    /\ read_only conn (get_services_capacity_by_territory_id_from_db id f1 conn)
    /\ read_only conn (get_services_by_physical_object_id_from_db id f1 f2 conn)
    /\ read_only conn
         (get_services_with_geometry_by_physical_object_id_from_db id f1 f2 conn)
    /\ read_only conn (get_physical_object_geometries_from_db id conn)
    /\ read_only conn (get_physical_object_by_id_from_db (VInt id) conn).
Proof.
  intros conn id f1 f2 name.
  assert (H1 : read_only conn (get_physical_objects_by_territory_id_from_db id f1 name conn)).
  { unfold get_physical_objects_by_territory_id_from_db.
    destruct f1, name; read_only_listing. }
  assert (H2 : read_only conn
                 (get_physical_objects_with_geometry_by_territory_id_from_db
                    id f1 name conn)).
  { unfold get_physical_objects_with_geometry_by_territory_id_from_db.
    destruct f1, name; read_only_listing. }
  assert (H3 : read_only conn (get_services_by_territory_id_from_db id f1 name conn)).
  { unfold get_services_by_territory_id_from_db.
    destruct f1, name; read_only_listing. }
  assert (H4 : read_only conn
                 (get_services_with_geometry_by_territory_id_from_db id f1 name conn)).
  { unfold get_services_with_geometry_by_territory_id_from_db.
    destruct f1, name; read_only_listing. }
  assert (H5 : read_only conn (get_services_capacity_by_territory_id_from_db id f1 conn)).
  { unfold get_services_capacity_by_territory_id_from_db.
    unfold bind; rewrite execute_check.
    match goal with
    | |- context [one_or_none ?l] => destruct l as [|? [|? ?]]
    end; cbn [one_or_none ret raise]; try now apply read_only_logged.
    unfold where_, select_from, select, join. rewrite execute_select.
    unfold eval_select. cbn [from_of scalar]. unfold ret. rewrite logged_logged.
    now apply read_only_logged. }
  assert (H6 : read_only conn (get_services_by_physical_object_id_from_db id f1 f2 conn)).
  { unfold get_services_by_physical_object_id_from_db.
    destruct f1, f2; read_only_listing. }
  assert (H7 : read_only conn
                 (get_services_with_geometry_by_physical_object_id_from_db
                    id f1 f2 conn)).
  { unfold get_services_with_geometry_by_physical_object_id_from_db.
    destruct f1, f2; read_only_listing. }
  assert (H8 : read_only conn (get_physical_object_geometries_from_db id conn)).
  { unfold get_physical_object_geometries_from_db. read_only_listing. }
  assert (H9 : read_only conn (get_physical_object_by_id_from_db (VInt id) conn)).
  { unfold get_physical_object_by_id_from_db, bind.
    unfold where_, select_from, select, join, col_eq. cbn [is_null app].
    rewrite execute_select.
    match goal with
    | |- context [one_or_none ?l] => destruct l as [|? [|? ?]]
    end; cbn [one_or_none ret raise]; now apply read_only_logged. }
  tauto.
Qed.

(** The reads scoped to a physical object, for an id that no row of
    [physical_objects_data] carries, raise the 404 "Given physical object
    id is not found" after the existence check alone, which is not a
    join. *)
Theorem missing_physical_object_is_not_found_before_any_join :
  forall (conn : AsyncConnection) (id : Z) (st tt : option Z),
    absent (session conn) physical_objects_data "physical_object_id" (VInt id) ->
    get_services_by_physical_object_id_from_db id st tt conn
      = physical_object_not_found conn id
    /\ get_services_with_geometry_by_physical_object_id_from_db id st tt conn
       = physical_object_not_found conn id
    /\ get_physical_object_geometries_from_db id conn
       = physical_object_not_found conn id
    /\ is_join_query (check physical_objects_data "physical_object_id" (VInt id))
       = false.
Proof.
  intros conn id st tt H. unfold absent in H. unfold physical_object_not_found.
  repeat split.
  - unfold get_services_by_physical_object_id_from_db. check_fails H.
  - unfold get_services_with_geometry_by_physical_object_id_from_db. check_fails H.
  - unfold get_physical_object_geometries_from_db. check_fails H.
Qed.

Lemma missing_physical_object_is_not_found_before_any_join_witness :
  absent (session fixture_conn) physical_objects_data "physical_object_id" (VInt 99)
  /\ get_physical_object_geometries_from_db 99 fixture_conn
     = physical_object_not_found fixture_conn 99.
Proof.
  split; [reflexivity|].
  apply (missing_physical_object_is_not_found_before_any_join
           fixture_conn 99 None None).
  reflexivity.
Defined.

(** A territory that exists and holds no geometry: the four listings
    return the empty list and the capacity aggregation returns NULL; none
    of them raises. *)
Theorem empty_territory_lists_nothing :
  forall (conn : AsyncConnection) (T : Z) (type_id : option Z) (name : option string),
    present (session conn) territories_data "territory_id" (VInt T) ->
    absent (session conn) object_geometries_data "territory_id" (VInt T) ->
    fst (get_physical_objects_by_territory_id_from_db T type_id name conn) = inr []
    /\ fst (get_physical_objects_with_geometry_by_territory_id_from_db
              T type_id name conn) = inr []
    /\ fst (get_services_by_territory_id_from_db T type_id name conn) = inr []
    /\ fst (get_services_with_geometry_by_territory_id_from_db T type_id name conn)
       = inr []
    /\ fst (get_services_capacity_by_territory_id_from_db T type_id conn) = inr VNull.
Proof.
  intros conn T type_id name Hp Ha. repeat split.
  - unfold get_physical_objects_by_territory_id_from_db. check_passes Hp.
    destruct type_id, name; run_listing;
      no_row_by_key object_geometries_data "territory_id" (VInt T) Ha.
  - unfold get_physical_objects_with_geometry_by_territory_id_from_db.
    check_passes Hp.
    destruct type_id, name; run_listing;
      no_row_by_key object_geometries_data "territory_id" (VInt T) Ha.
  - unfold get_services_by_territory_id_from_db. check_passes Hp.
    destruct type_id, name; run_listing;
      no_row_by_key object_geometries_data "territory_id" (VInt T) Ha.
  - unfold get_services_with_geometry_by_territory_id_from_db. check_passes Hp.
    destruct type_id, name; run_listing;
      no_row_by_key object_geometries_data "territory_id" (VInt T) Ha.
  - unfold get_services_capacity_by_territory_id_from_db. check_passes Hp.
    destruct type_id; cbn [py_int]; run_listing;
      no_row_by_key object_geometries_data "territory_id" (VInt T) Ha.
Qed.

Lemma empty_territory_lists_nothing_witness :
  present (session fixture_conn) territories_data "territory_id" (VInt 6)
  /\ absent (session fixture_conn) object_geometries_data "territory_id" (VInt 6)
  /\ fst (get_services_by_territory_id_from_db 6 None None fixture_conn) = inr []
  /\ fst (get_services_capacity_by_territory_id_from_db 6 (Some 3) fixture_conn)
     = inr VNull.
Proof.
  split; [reflexivity|]. split; [reflexivity|].
  pose proof (empty_territory_lists_nothing fixture_conn 6) as H.
  split.
  - apply (H None None); reflexivity.
  - apply (H (Some 3) None); reflexivity.
Defined.

(** A physical object that exists and appears in no row of
    [urban_objects_data]: the reads of its services and of its geometries
    return the empty list. *)
Theorem unlinked_physical_object_lists_nothing :
  forall (conn : AsyncConnection) (id : Z) (st tt : option Z),
    present (session conn) physical_objects_data "physical_object_id" (VInt id) ->
    absent (session conn) urban_objects_data "physical_object_id" (VInt id) ->
    fst (get_services_by_physical_object_id_from_db id st tt conn) = inr []
    /\ fst (get_services_with_geometry_by_physical_object_id_from_db id st tt conn)
       = inr []
    /\ fst (get_physical_object_geometries_from_db id conn) = inr [].
Proof.
  intros conn id st tt Hp Ha. repeat split.
  - unfold get_services_by_physical_object_id_from_db. check_passes Hp.
    destruct st, tt; run_listing;
      no_row_by_key urban_objects_data "physical_object_id" (VInt id) Ha.
  - unfold get_services_with_geometry_by_physical_object_id_from_db.
    check_passes Hp.
    destruct st, tt; run_listing;
      no_row_by_key urban_objects_data "physical_object_id" (VInt id) Ha.
  - unfold get_physical_object_geometries_from_db. check_passes Hp.
    run_listing.
    no_row_by_key urban_objects_data "physical_object_id" (VInt id) Ha.
Qed.

Lemma unlinked_physical_object_lists_nothing_witness :
  fst (get_physical_object_geometries_from_db 12 fixture_conn) = inr []
  /\ fst (get_services_by_physical_object_id_from_db 12 None None fixture_conn)
     = inr [].
Proof.
  pose proof (unlinked_physical_object_lists_nothing fixture_conn 12 None None
                eq_refl eq_refl) as H.
  split; apply H.
Defined.

(** The symmetric form of [absent_reference_filters_all], for an ON clause
    that names the joined key second. *)
Lemma absent_referenced_filters_all (db : database) (f : from_clause) (t : table)
      (k : string) (a : column) (v : value) (j : jrow) :
  In t (tables_of f) -> absent db t k v ->
  In (PEqCol a (c t k)) (on_clauses f) ->
  In j (eval_from db f) -> holds j (PEq a v) = false.
Proof.
  intros Ht Ha Hon Hj.
  pose proof (absent_key_filters_all db f t k v j Ht Ha Hj) as Hkey.
  pose proof (eval_from_on_clauses db f j a (c t k) Hj Hon) as Heq.
  simpl in *. destruct (value_eqb (jget j a) v) eqn:E; [|reflexivity].
  apply value_eqb_eq in E. rewrite E, value_eqb_sym in Heq.
  rewrite Heq in Hkey. discriminate.
Qed.

(** The join of the read by id has no row for an object that is absent or
    unlinked. *)
Lemma read_of_unlinked_physical_object :
  forall (conn : AsyncConnection) (id : Z),
    absent (session conn) physical_objects_data "physical_object_id" (VInt id)
    \/ absent (session conn) urban_objects_data "physical_object_id" (VInt id) ->
    fst (get_physical_object_by_id_from_db (VInt id) conn)
    = inl (HTTPException 404 "Given id is not found").
Proof.
  intros conn id H.
  unfold get_physical_object_by_id_from_db.
  unfold where_, select_from, select, join, col_eq; cbn [is_null app].
  unfold bind. rewrite execute_select. unfold eval_select. cbn [from_of].
  rewrite filter_none; [reflexivity|].
  intros j Hj.
  apply (holds_all_false _ j (PEq (c physical_objects_data "physical_object_id") (VInt id)));
    [now left|].
  destruct H as [H|H].
  - eapply (absent_key_filters_all _ _ physical_objects_data "physical_object_id");
      [ | exact H | exact Hj ]. simpl. auto.
  - eapply (absent_referenced_filters_all _ _ urban_objects_data "physical_object_id");
      [ | exact H | | exact Hj ]; simpl; auto.
Qed.

(** The read of a physical object by id raises the 404 "Given id is not
    found" for an id that no physical object carries, and also for a
    physical object that exists and no urban object links to a geometry. *)
Theorem unlinked_physical_object_reads_as_not_found :
  forall (conn : AsyncConnection) (id : Z),
    absent (session conn) physical_objects_data "physical_object_id" (VInt id)
    \/ absent (session conn) urban_objects_data "physical_object_id" (VInt id) ->
    fst (get_physical_object_by_id_from_db (VInt id) conn)
    = inl (HTTPException 404 "Given id is not found").
Proof. exact read_of_unlinked_physical_object. Qed.

Lemma unlinked_physical_object_reads_as_not_found_witness :
  present fixture physical_objects_data "physical_object_id" (VInt 12)
  /\ fst (get_physical_object_by_id_from_db (VInt 12) fixture_conn)
     = inl (HTTPException 404 "Given id is not found").
Proof.
  split; [reflexivity|].
  apply (unlinked_physical_object_reads_as_not_found fixture_conn 12).
  right. reflexivity.
Defined.

(** * Replacements *)

Lemma replaced_by_update (t : table) (key : string) (id : Z)
      (vals : list (string * value)) (rs : list row) :
  NoDup (map fst vals) ->
  replaced key id vals rs (update_rows t [PEq (c t key) (VInt id)] vals rs).
Proof.
  intros H. unfold replaced, update_rows. apply Forall2_map_same.
  intros r. rewrite holds_key.
  destruct (value_eqb (rget r key) (VInt id)); [|reflexivity].
  intros k. now apply rget_row_update.
Qed.

Lemma physical_object_values_keys (p : PhysicalObjectsDataPut) :
  NoDup (map fst (physical_object_values p)).
Proof. simpl. repeat constructor; simpl; intuition discriminate. Qed.

Lemma living_building_values_keys (p : LivingBuildingsDataPut) :
  NoDup (map fst (living_building_values p)).
Proof. simpl. repeat constructor; simpl; intuition discriminate. Qed.

Ltac run_replace Hpres key id :=
  unfold values, returning, where_, update, col_eq; cbn [is_null app];
  match goal with |- context [set_values [] ?vals] =>
    change (set_values [] vals) with vals
  end;
  run_update Hpres key id;
  cbn [one ret commit session committed executed logged].

(** What the replacement of a physical object stores. *)
Lemma put_physical_object_applied :
  forall (conn : AsyncConnection) (p : PhysicalObjectsDataPut) (id : Z),
    present (session conn) physical_objects_data "physical_object_id" (VInt id) ->
    present (session conn) physical_object_types_dict "physical_object_type_id"
            (VInt (put_physical_object_type_id p)) ->
    replace_applied physical_objects_data "physical_object_id" id
                    (physical_object_values p)
                    conn (snd (put_physical_object_to_db p id conn)).
Proof.
  intros conn p id Hpres Htype.
  unfold replace_applied, put_physical_object_to_db.
  check_passes Hpres. rewrite execute_check. cbn [session logged].
  destruct (present_one _ _ _ _ Htype) as [t Et]. rewrite Et.
  cbn [one_or_none ret]. rewrite logged_logged.
  run_replace Hpres "physical_object_id" id.
  match goal with |- context [get_physical_object_by_id_from_db ?v ?cn] =>
    destruct (get_physical_object_by_id_reads v cn) as [Hs Hc] end.
  rewrite Hs, Hc. cbn [session committed].
  repeat split.
  - rewrite set_table_same. cbn [rows].
    apply (replaced_by_update physical_objects_data "physical_object_id" id
             (physical_object_values p)).
    apply physical_object_values_keys.
  - intros t' Ht'. now apply set_table_other.
Qed.

(** Replacing a physical object that exists with a type that exists sets
    its type, its name and its properties to those of the request (a
    request without a name stores NULL for the name), leaves every other
    column, row and table as stored, and commits, whatever the read that
    follows returns. *)
Theorem replace_physical_object_sets_every_field :
  forall (conn : AsyncConnection) (p : PhysicalObjectsDataPut) (id : Z),
    present (session conn) physical_objects_data "physical_object_id" (VInt id) ->
    present (session conn) physical_object_types_dict "physical_object_type_id"
            (VInt (put_physical_object_type_id p)) ->
    replace_applied physical_objects_data "physical_object_id" id
                    (physical_object_values p)
                    conn (snd (put_physical_object_to_db p id conn)).
Proof. exact put_physical_object_applied. Qed.

Lemma replace_physical_object_sets_every_field_witness :
  replace_applied physical_objects_data "physical_object_id" 11
                  (physical_object_values nameless)
                  fixture_conn (snd (put_physical_object_to_db nameless 11 fixture_conn)).
Proof.
  apply (replace_physical_object_sets_every_field fixture_conn nameless 11);
    reflexivity.
Defined.

(** Replacing a physical object checks the object, then the type, before
    it writes: for an id that no physical object carries it raises the 404
    "Given physical object id is not found", for a type that does not exist
    the 404 "Given physical object type id is not found", and in both cases
    nothing is written. *)
Theorem replace_physical_object_validates_first :
  forall (conn : AsyncConnection) (p : PhysicalObjectsDataPut) (id : Z),
    let out := put_physical_object_to_db p id conn in
    (absent (session conn) physical_objects_data "physical_object_id" (VInt id) ->
     fst out = inl (HTTPException 404 "Given physical object id is not found")
     /\ read_only conn out)
    /\ (present (session conn) physical_objects_data "physical_object_id" (VInt id) ->
        absent (session conn) physical_object_types_dict "physical_object_type_id"
               (VInt (put_physical_object_type_id p)) ->
        fst out = inl (HTTPException 404 "Given physical object type id is not found")
        /\ read_only conn out).
Proof.
  intros conn p id out. subst out. split.
  - intros Ha. unfold absent in Ha. unfold put_physical_object_to_db, bind.
    rewrite execute_check, Ha. cbn [one_or_none ret raise].
    split; [reflexivity|]. now apply read_only_logged.
  - intros Hp Ha. unfold absent in Ha. unfold put_physical_object_to_db.
    check_passes Hp. rewrite execute_check. cbn [session logged]. rewrite Ha.
    cbn [one_or_none ret raise]. rewrite logged_logged.
    split; [reflexivity|]. now apply read_only_logged.
Qed.

Lemma replace_physical_object_validates_first_witness :
  fst (put_physical_object_to_db nameless 99 fixture_conn)
  = inl (HTTPException 404 "Given physical object id is not found")
  /\ fst (put_physical_object_to_db
            {| put_physical_object_type_id := 9; put_name := None;
               put_properties := MNil |} 11 fixture_conn)
     = inl (HTTPException 404 "Given physical object type id is not found").
Proof.
  split.
  - apply (proj1 (replace_physical_object_validates_first fixture_conn nameless 99)).
    reflexivity.
  - apply (proj2 (replace_physical_object_validates_first
                    fixture_conn
                    {| put_physical_object_type_id := 9; put_name := None;
                       put_properties := MNil |} 11)); reflexivity.
Defined.

(** Replacing a physical object that exists and that no urban object links
    to a geometry: the replacement is written and committed, and the call
    then raises the 404 "Given id is not found" of the read that follows. *)
Theorem replace_of_unlinked_physical_object_commits_then_raises :
  forall (conn : AsyncConnection) (p : PhysicalObjectsDataPut) (id : Z),
    present (session conn) physical_objects_data "physical_object_id" (VInt id) ->
    present (session conn) physical_object_types_dict "physical_object_type_id"
            (VInt (put_physical_object_type_id p)) ->
    absent (session conn) urban_objects_data "physical_object_id" (VInt id) ->
    let out := put_physical_object_to_db p id conn in
    fst out = inl (HTTPException 404 "Given id is not found")
    /\ replace_applied physical_objects_data "physical_object_id" id
                       (physical_object_values p) conn (snd out).
Proof.
  intros conn p id Hpres Htype Ha out.
  split; [|now apply put_physical_object_applied].
  subst out. unfold put_physical_object_to_db.
  destruct (present_one _ _ _ _ Hpres) as [r0 E0].
  pose proof (matching_in _ _ _ _ _ E0) as Hid.
  check_passes Hpres. rewrite execute_check. cbn [session logged].
  destruct (present_one _ _ _ _ Htype) as [t Et]. rewrite Et.
  cbn [one_or_none ret]. rewrite logged_logged.
  unfold values, returning, where_, update, col_eq; cbn [is_null app].
  match goal with |- context [set_values [] ?vals] =>
    change (set_values [] vals) with vals
  end.
  unfold execute at 1. cbn [run session logged committed executed].
  rewrite matching_hits, E. cbn [map one ret commit session committed executed].
  rewrite project_star.
  assert (Hkey : rget (row_update
                         r [("physical_object_type_id",
                             VInt (put_physical_object_type_id p));
                            ("name", py_str (put_name p));
                            ("properties", VJson (JObj (put_properties p)))])
                      "physical_object_id" = VInt id).
  { unfold row_update. cbn [set_values fold_left fst snd].
    rewrite !rget_set_value. cbn.
    rewrite E0 in E. now inversion E; subst. }
  rewrite Hkey.
  apply read_of_unlinked_physical_object. right.
  cbn [session]. exact Ha.
Qed.

Lemma replace_of_unlinked_physical_object_commits_then_raises_witness :
  fst (put_physical_object_to_db nameless 12 fixture_conn)
  = inl (HTTPException 404 "Given id is not found")
  /\ matching (committed (snd (put_physical_object_to_db nameless 12 fixture_conn)))
              physical_objects_data "physical_object_id" (VInt 12)
     = [[("physical_object_id", VInt 12); ("physical_object_type_id", VInt 1);
         ("name", VNull); ("properties", VJson (JObj MNil))]].
Proof.
  split.
  - apply (replace_of_unlinked_physical_object_commits_then_raises
             fixture_conn nameless 12); reflexivity.
  - reflexivity.
Defined.

(** * Living buildings *)

Lemma execute_insert (conn : AsyncConnection) (t : table)
      (vals : list (string * value)) (ret : list selectable) :
  execute (Insert t vals ret) conn
  = (inr [project ret [(t, new_row t (next_id (session conn t)) vals)]],
     mk_conn (set_table (session conn) t
                (mk_stored (rows (session conn t)
                            ++ [new_row t (next_id (session conn t)) vals])
                           (next_id (session conn t) + 1)))
             (committed conn) (executed conn ++ [Insert t vals ret])).
Proof. reflexivity. Qed.

(** Replacing a living building that exists with a reference to a physical
    object that exists sets its four fields to those of the request, NULL
    for the ones the request leaves out, leaves every other column, row and
    table as stored, and commits, whatever the read that follows returns. *)
Theorem replace_living_building_sets_every_field :
  forall (conn : AsyncConnection) (p : LivingBuildingsDataPut) (id : Z),
    present (session conn) living_buildings_data "living_building_id" (VInt id) ->
    present (session conn) physical_objects_data "physical_object_id"
            (VInt (lb_put_physical_object_id p)) ->
    replace_applied living_buildings_data "living_building_id" id
                    (living_building_values p)
                    conn (snd (put_living_building_to_db p id conn)).
Proof.
  intros conn p id Hpres Hpo.
  unfold replace_applied, put_living_building_to_db.
  check_passes Hpres. rewrite execute_check. cbn [session logged].
  destruct (present_one _ _ _ _ Hpo) as [t Et]. rewrite Et.
  cbn [one_or_none ret]. rewrite logged_logged.
  run_replace Hpres "living_building_id" id.
  match goal with |- context [get_living_building_by_id_from_db ?v ?cn] =>
    destruct (get_living_building_by_id_reads v cn) as [Hs Hc] end.
  rewrite Hs. cbn [session committed] in *.
  repeat split.
  - rewrite set_table_same. cbn [rows].
    apply (replaced_by_update living_buildings_data "living_building_id" id
             (living_building_values p)).
    apply living_building_values_keys.
  - intros t' Ht'. now apply set_table_other.
  - destruct Hc as [Hc|Hc]; exact Hc.
Qed.

Lemma replace_living_building_sets_every_field_witness :
  replace_applied living_buildings_data "living_building_id" 7
                  (living_building_values (flat_of 10))
                  fixture_conn (snd (put_living_building_to_db (flat_of 10) 7 fixture_conn)).
Proof.
  apply (replace_living_building_sets_every_field fixture_conn (flat_of 10) 7);
    reflexivity.
Defined.

(** Creating and replacing a living building check their references
    before they write.  The replacement raises the 404 "Given living
    building id is not found" for an id that no living building carries;
    both raise the 404 "Given physical object id is not found" for a
    reference to a physical object that does not exist; in each case
    nothing is written. *)
Theorem living_building_writes_validate_first :
  forall (conn : AsyncConnection),
    (forall (p : LivingBuildingsDataPut) (id : Z),
        absent (session conn) living_buildings_data "living_building_id" (VInt id) ->
        fst (put_living_building_to_db p id conn)
        = inl (HTTPException 404 "Given living building id is not found")
        /\ read_only conn (put_living_building_to_db p id conn))
    /\ (forall (p : LivingBuildingsDataPut) (id : Z),
           present (session conn) living_buildings_data "living_building_id" (VInt id) ->
           absent (session conn) physical_objects_data "physical_object_id"
                  (VInt (lb_put_physical_object_id p)) ->
           fst (put_living_building_to_db p id conn)
           = inl (HTTPException 404 "Given physical object id is not found")
           /\ read_only conn (put_living_building_to_db p id conn))
    /\ (forall (p : LivingBuildingsDataPost),
           absent (session conn) physical_objects_data "physical_object_id"
                  (VInt (lb_post_physical_object_id p)) ->
           fst (add_living_building_to_db p conn)
           = inl (HTTPException 404 "Given physical object id is not found")
           /\ read_only conn (add_living_building_to_db p conn)).
Proof.
  intros conn. split; [|split].
  - intros p id Ha. unfold absent in Ha. unfold put_living_building_to_db, bind.
    rewrite execute_check, Ha. cbn [one_or_none ret raise].
    split; [reflexivity|]. now apply read_only_logged.
  - intros p id Hp Ha. unfold absent in Ha. unfold put_living_building_to_db.
    check_passes Hp. rewrite execute_check. cbn [session logged]. rewrite Ha.
    cbn [one_or_none ret raise]. rewrite logged_logged.
    split; [reflexivity|]. now apply read_only_logged.
  - intros p Ha. unfold absent in Ha. unfold add_living_building_to_db, bind.
    rewrite execute_check, Ha. cbn [one_or_none ret raise].
    split; [reflexivity|]. now apply read_only_logged.
Qed.

Lemma living_building_writes_validate_first_witness :
  fst (put_living_building_to_db (flat_of 10) 8 fixture_conn)
  = inl (HTTPException 404 "Given living building id is not found")
  /\ fst (put_living_building_to_db (flat_of 99) 7 fixture_conn)
     = inl (HTTPException 404 "Given physical object id is not found")
  /\ fst (add_living_building_to_db (new_flat_of 99) fixture_conn)
     = inl (HTTPException 404 "Given physical object id is not found").
Proof.
  pose proof (living_building_writes_validate_first fixture_conn) as [H1 [H2 H3]].
  split; [|split].
  - apply (H1 (flat_of 10) 8). reflexivity.
  - apply (H2 (flat_of 99) 7); reflexivity.
  - apply (H3 (new_flat_of 99)). reflexivity.
Defined.

(** What the creation of a living building stores. *)
Lemma add_living_building_stores :
  forall (conn : AsyncConnection) (p : LivingBuildingsDataPost),
    present (session conn) physical_objects_data "physical_object_id"
            (VInt (lb_post_physical_object_id p)) ->
    let id := next_id (session conn living_buildings_data) in
    let conn' := snd (add_living_building_to_db p conn) in
    rows (session conn' living_buildings_data)
    = rows (session conn living_buildings_data) ++ [living_building_row id p]
    /\ next_id (session conn' living_buildings_data) = id + 1
    /\ (forall t, t <> living_buildings_data -> session conn' t = session conn t)
    /\ committed conn' = session conn'.
Proof.
  intros conn p Hp id conn'. subst id conn'.
  unfold add_living_building_to_db.
  check_passes Hp.
  unfold values, returning, insert. cbn [app].
  match goal with |- context [set_values [] ?vals] =>
    change (set_values [] vals) with vals
  end.
  rewrite execute_insert.
  unfold scalar_one, bind. cbn [one ret commit session committed executed].
  match goal with |- context [get_living_building_by_id_from_db ?v ?cn] =>
    destruct (get_living_building_by_id_reads v cn) as [Hs Hc]; rewrite Hs;
    cbn [session committed] in Hc |- *
  end.
  split; [now rewrite set_table_same|].
  split; [now rewrite set_table_same|].
  split.
  - intros t Ht. now apply set_table_other.
  - destruct Hc as [Hc|Hc]; exact Hc.
Qed.

(** Creating a living building for a physical object that exists stores
    one new row, under the next id of the sequence, and commits it, whatever
    the read that follows returns; every other table is as before. *)
Theorem create_living_building_stores_the_row :
  forall (conn : AsyncConnection) (p : LivingBuildingsDataPost),
    present (session conn) physical_objects_data "physical_object_id"
            (VInt (lb_post_physical_object_id p)) ->
    let id := next_id (session conn living_buildings_data) in
    let conn' := snd (add_living_building_to_db p conn) in
    rows (session conn' living_buildings_data)
    = rows (session conn living_buildings_data) ++ [living_building_row id p]
    /\ next_id (session conn' living_buildings_data) = id + 1
    /\ (forall t, t <> living_buildings_data -> session conn' t = session conn t)
    /\ committed conn' = session conn'.
Proof. exact add_living_building_stores. Qed.

Lemma create_living_building_stores_the_row_witness :
  rows (session (snd (add_living_building_to_db (new_flat_of 12) fixture_conn))
                living_buildings_data)
  = rows (fixture living_buildings_data) ++ [living_building_row 8 (new_flat_of 12)].
Proof.
  apply (create_living_building_stores_the_row fixture_conn (new_flat_of 12)).
  reflexivity.
Defined.

(** The same with the ON clause written the other way round. *)
Lemma join_step_lookup_flipped (db : database) (j : jrow) (t : table) (k : string)
      (a : column) :
  In (fst a) (map fst j) -> ~ In t (map fst j) ->
  flat_map
    (fun r => if holds (j ++ [(t, r)]) (PEqCol (c t k) a)
              then [j ++ [(t, r)]] else [])
    (rows (db t))
  = map (fun r => j ++ [(t, r)]) (matching db t k (jget j a)).
Proof.
  intros Ha Ht. rewrite <- (join_step_lookup db j t k a Ha Ht).
  apply flat_map_ext. intros r.
  replace (holds (j ++ [(t, r)]) (PEqCol (c t k) a))
    with (holds (j ++ [(t, r)]) (PEqCol a (c t k)));
    [reflexivity|]. simpl. apply value_eqb_sym.
Qed.

(** The join of the read of a living building, step by step. *)
Lemma read_living_building_joined :
  forall (conn : AsyncConnection) (id : Z) (b p t u g : row),
    matching (session conn) living_buildings_data "living_building_id" (VInt id)
    = [b] ->
    matching (session conn) physical_objects_data "physical_object_id"
             (rget b "physical_object_id") = [p] ->
    matching (session conn) physical_object_types_dict "physical_object_type_id"
             (rget p "physical_object_type_id") = [t] ->
    matching (session conn) urban_objects_data "physical_object_id"
             (rget b "physical_object_id") = [u] ->
    matching (session conn) object_geometries_data "object_geometry_id"
             (rget u "object_geometry_id") = [g] ->
    fst (get_living_building_by_id_from_db (VInt id) conn)
    = inr [("living_building_id", rget b "living_building_id");
           ("residents_number", rget b "residents_number");
           ("living_area", rget b "living_area");
           ("properties", rget b "properties");
           ("physical_object_id", rget p "physical_object_id");
           ("physical_object_name", rget p "name");
           ("physical_object_properties", rget p "properties");
           ("physical_object_type_id", rget t "physical_object_type_id");
           ("physical_object_type_name", rget t "name");
           ("physical_object_address", rget g "address")].
Proof.
  intros conn id b p t u g Hb Hp Ht Hu Hg.
  pose proof (matching_in _ _ _ _ _ Hp) as Hpid.
  unfold get_living_building_by_id_from_db.
  unfold where_, select_from, select, join, col_eq; cbn [is_null app];
  unfold bind; rewrite execute_select; unfold eval_select; cbn [from_of].
  match goal with |- context [filter _ (eval_from ?db ?f)] =>
    pose proof (where_on_leftmost db f "living_building_id" (VInt id)) as Hw
  end.
  cbn [leftmost] in Hw. rewrite Hw by (cbn; intuition discriminate). clear Hw.
  cbn [eval_from]. unfold restricted at 5. rewrite set_table_same.
  cbn [rows]. rewrite Hb. cbn [map flat_map]. rewrite app_nil_r.
  unfold restricted, set_table. cbn [table_eqb].
  rewrite (join_step_lookup_flipped (session conn) [(living_buildings_data, b)]
             physical_objects_data "physical_object_id"
             (c living_buildings_data "physical_object_id"))
    by (cbn; intuition discriminate).
  cbn [jget c fst snd table_eqb]. rewrite Hp.
  cbn [map flat_map]. rewrite app_nil_r.
  change ([(living_buildings_data, b)] ++ [(physical_objects_data, p)])
    with [(living_buildings_data, b); (physical_objects_data, p)].
  rewrite (join_step_lookup (session conn)
             [(living_buildings_data, b); (physical_objects_data, p)]
             physical_object_types_dict "physical_object_type_id"
             (c physical_objects_data "physical_object_type_id"))
    by (cbn; intuition discriminate).
  cbn [jget c fst snd table_eqb]. rewrite Ht.
  cbn [map flat_map]. rewrite app_nil_r.
  change ([(living_buildings_data, b); (physical_objects_data, p)]
            ++ [(physical_object_types_dict, t)])
    with [(living_buildings_data, b); (physical_objects_data, p);
          (physical_object_types_dict, t)].
  rewrite (join_step_lookup_flipped (session conn)
             [(living_buildings_data, b); (physical_objects_data, p);
              (physical_object_types_dict, t)]
             urban_objects_data "physical_object_id"
             (c physical_objects_data "physical_object_id"))
    by (cbn; intuition discriminate).
  cbn [jget c fst snd table_eqb]. rewrite Hpid, Hu.
  cbn [map flat_map]. rewrite app_nil_r.
  change ([(living_buildings_data, b); (physical_objects_data, p);
           (physical_object_types_dict, t)] ++ [(urban_objects_data, u)])
    with [(living_buildings_data, b); (physical_objects_data, p);
          (physical_object_types_dict, t); (urban_objects_data, u)].
  rewrite (join_step_lookup (session conn)
             [(living_buildings_data, b); (physical_objects_data, p);
              (physical_object_types_dict, t); (urban_objects_data, u)]
             object_geometries_data "object_geometry_id"
             (c urban_objects_data "object_geometry_id"))
    by (cbn; intuition discriminate).
  cbn [jget c fst snd table_eqb]. rewrite Hg.
  cbn. now rewrite Hpid.
Qed.

(** The read of a living building whose physical object has a type and
    sits on one geometry returns the living building with its physical
    object, the name of the type and the address of the geometry. *)
Theorem living_building_read_returns_the_joined_entity :
  forall (conn : AsyncConnection) (id : Z) (b p t u g : row),
    matching (session conn) living_buildings_data "living_building_id" (VInt id)
    = [b] ->
    matching (session conn) physical_objects_data "physical_object_id"
             (rget b "physical_object_id") = [p] ->
    matching (session conn) physical_object_types_dict "physical_object_type_id"
             (rget p "physical_object_type_id") = [t] ->
    matching (session conn) urban_objects_data "physical_object_id"
             (rget b "physical_object_id") = [u] ->
    matching (session conn) object_geometries_data "object_geometry_id"
             (rget u "object_geometry_id") = [g] ->
    fst (get_living_building_by_id_from_db (VInt id) conn)
    = inr [("living_building_id", rget b "living_building_id");
           ("residents_number", rget b "residents_number");
           ("living_area", rget b "living_area");
           ("properties", rget b "properties");
           ("physical_object_id", rget p "physical_object_id");
           ("physical_object_name", rget p "name");
           ("physical_object_properties", rget p "properties");
           ("physical_object_type_id", rget t "physical_object_type_id");
           ("physical_object_type_name", rget t "name");
           ("physical_object_address", rget g "address")].
Proof. exact read_living_building_joined. Qed.

(** The read of a living building, when it returns, has committed what
    the session held; when it raises it has committed nothing.  It never
    changes the session's tables. *)
Theorem living_building_read_commits_on_success :
  forall (conn : AsyncConnection) (v : value),
    let out := get_living_building_by_id_from_db v conn in
    session (snd out) = session conn
    /\ (forall dto, fst out = inr dto -> committed (snd out) = session conn)
    /\ (forall e, fst out = inl e -> committed (snd out) = committed conn).
Proof.
  intros conn v out. subst out.
  unfold get_living_building_by_id_from_db, bind.
  unfold where_, select_from, select. rewrite execute_select.
  match goal with |- context [one ?l] => destruct l as [|r [|r' l']] end;
    cbn; repeat split; intros; try discriminate; reflexivity.
Qed.

Lemma living_building_read_commits_on_success_witness :
  exists dto,
    fst (get_living_building_by_id_from_db (VInt 7) fixture_conn) = inr dto
    /\ committed (snd (get_living_building_by_id_from_db (VInt 7) fixture_conn))
       = session fixture_conn.
Proof.
  pose proof (living_building_read_commits_on_success fixture_conn (VInt 7)) as H.
  cbv zeta in H. destruct H as (_ & H & _).
  eexists. split; [vm_compute; reflexivity|].
  eapply H. vm_compute. reflexivity.
Defined.

Lemma living_building_read_returns_the_joined_entity_witness :
  fst (get_living_building_by_id_from_db (VInt 7) fixture_conn)
  = inr [("living_building_id", VInt 7);
         ("residents_number", VInt 3);
         ("living_area", VFloat (S754_finite false 5981343255101440 (-47)));
         ("properties", VJson (JObj MNil));
         ("physical_object_id", VInt 11);
         ("physical_object_name", VStr "Tower");
         ("physical_object_properties", VJson (JObj MNil));
         ("physical_object_type_id", VInt 1);
         ("physical_object_type_name", VStr "building");
         ("physical_object_address", VStr "1 Main St")].
Proof.
  apply (living_building_read_returns_the_joined_entity
           fixture_conn 7
           [("living_building_id", VInt 7); ("physical_object_id", VInt 11);
            ("residents_number", VInt 3);
            ("living_area", VFloat (S754_finite false 5981343255101440 (-47)));
            ("properties", VJson (JObj MNil))]
           [("physical_object_id", VInt 11); ("physical_object_type_id", VInt 1);
            ("name", VStr "Tower"); ("properties", VJson (JObj MNil))]
           [("physical_object_type_id", VInt 1); ("name", VStr "building")]
           [("urban_object_id", VInt 1002); ("physical_object_id", VInt 11);
            ("object_geometry_id", VInt 100); ("service_id", VInt 52)]
           [("object_geometry_id", VInt 100); ("territory_id", VInt 5);
            ("geometry", VGeom 4326 "POINT (30 60)");
            ("centre_point", VGeom 4326 "POINT (30 60)");
            ("address", VStr "1 Main St")]);
    reflexivity.
Defined.

Lemma matching_after_insert (db : database) (t : table) (k : string) (v : value)
      (r : row) (n : Z) :
  matching (set_table db t (mk_stored (rows (db t) ++ [r]) n)) t k v
  = matching db t k v ++ (if value_eqb (rget r k) v then [r] else []).
Proof.
  unfold matching. rewrite set_table_same. cbn [rows].
  now rewrite filter_app.
Qed.

(** The read of a living building whose physical object no urban object
    links to a geometry raises [NoResultFound]. *)
Lemma living_building_read_of_unlinked_object (conn : AsyncConnection) (id : Z)
      (b : row) :
  matching (session conn) living_buildings_data "living_building_id" (VInt id)
  = [b] ->
  absent (session conn) urban_objects_data "physical_object_id"
         (rget b "physical_object_id") ->
  fst (get_living_building_by_id_from_db (VInt id) conn) = inl NoResultFound.
Proof.
  intros Hb Ha.
  unfold get_living_building_by_id_from_db.
  unfold where_, select_from, select, join, col_eq; cbn [is_null app];
  unfold bind; rewrite execute_select; unfold eval_select; cbn [from_of].
  rewrite filter_none; [reflexivity|].
  intros j Hj. unfold holds_all. cbn [forallb holds]. rewrite andb_true_r.
  destruct (value_eqb (jget j (c living_buildings_data "living_building_id")) (VInt id))
    eqn:Eid; [exfalso|reflexivity].
  assert (Hrow : table_row j living_buildings_data = b).
  { assert (Hin : In (table_row j living_buildings_data)
                     (matching (session conn) living_buildings_data
                               "living_building_id" (VInt id))).
    { apply filter_In. split.
      - eapply eval_from_table_row; [exact Hj|]. simpl. auto.
      - unfold c in Eid. now rewrite jget_table_row in Eid. }
    rewrite Hb in Hin. destruct Hin as [<-|[]]. reflexivity. }
  pose proof (eval_from_on_clauses _ _ j
                (c physical_objects_data "physical_object_id")
                (c living_buildings_data "physical_object_id") Hj) as H1.
  pose proof (eval_from_on_clauses _ _ j
                (c urban_objects_data "physical_object_id")
                (c physical_objects_data "physical_object_id") Hj) as H3.
  cbn [on_clauses app] in H1, H3.
  specialize (H1 ltac:(simpl; auto 10)). specialize (H3 ltac:(simpl; auto 10)).
  apply value_eqb_eq in H1.
  unfold c in H1 at 2. rewrite (jget_table_row j living_buildings_data) in H1.
  rewrite Hrow in H1. rewrite H1 in H3.
  unfold c in H3. rewrite jget_table_row in H3.
  assert (Hu : In (table_row j urban_objects_data)
                  (rows (session conn urban_objects_data))).
  { eapply eval_from_table_row; [exact Hj|]. simpl. auto 10. }
  rewrite (absent_no_row _ _ _ _ _ Ha Hu) in H3. discriminate.
Qed.

(** Creating a living building for a physical object that exists and that
    no urban object links to a geometry: the row is stored and committed,
    and the call then raises [NoResultFound] from the read that follows. *)
Theorem create_living_building_for_unlinked_object_commits_then_raises :
  forall (conn : AsyncConnection) (p : LivingBuildingsDataPost),
    present (session conn) physical_objects_data "physical_object_id"
            (VInt (lb_post_physical_object_id p)) ->
    absent (session conn) urban_objects_data "physical_object_id"
           (VInt (lb_post_physical_object_id p)) ->
    absent (session conn) living_buildings_data "living_building_id"
           (VInt (next_id (session conn living_buildings_data))) ->
    let out := add_living_building_to_db p conn in
    fst out = inl NoResultFound
    /\ rows (committed (snd out) living_buildings_data)
       = rows (session conn living_buildings_data)
         ++ [living_building_row (next_id (session conn living_buildings_data)) p].
Proof.
  intros conn p Hp Hu Hfresh out. subst out. split.
  - unfold add_living_building_to_db.
    check_passes Hp.
    unfold values, returning, insert. cbn [app].
    match goal with |- context [set_values [] ?vals] =>
      change (set_values [] vals) with vals
    end.
    rewrite execute_insert.
    unfold scalar_one, bind. cbn [one ret commit session committed executed].
    apply living_building_read_of_unlinked_object
      with (b := living_building_row (next_id (session conn living_buildings_data)) p).
    + cbn [session logged]. rewrite matching_after_insert.
      unfold absent in Hfresh. rewrite Hfresh. cbn.
      now rewrite Z.eqb_refl.
    + exact Hu.
  - destruct (add_living_building_stores conn p Hp) as (Hr & _ & _ & Hc).
    rewrite Hc. exact Hr.
Qed.

Lemma create_living_building_for_unlinked_object_commits_then_raises_witness :
  fst (add_living_building_to_db (new_flat_of 12) fixture_conn) = inl NoResultFound.
Proof.
  apply (create_living_building_for_unlinked_object_commits_then_raises
           fixture_conn (new_flat_of 12)); reflexivity.
Defined.

(** Creating a living building for a physical object that has a type and
    sits on one geometry returns the new living building, under the next
    id of the sequence and with the values of the request, joined with its
    physical object, the name of the type and the address of the
    geometry. *)
Theorem create_living_building_returns_the_joined_entity :
  forall (conn : AsyncConnection) (p : LivingBuildingsDataPost) (po t u g : row),
    matching (session conn) physical_objects_data "physical_object_id"
             (VInt (lb_post_physical_object_id p)) = [po] ->
    matching (session conn) physical_object_types_dict "physical_object_type_id"
             (rget po "physical_object_type_id") = [t] ->
    matching (session conn) urban_objects_data "physical_object_id"
             (VInt (lb_post_physical_object_id p)) = [u] ->
    matching (session conn) object_geometries_data "object_geometry_id"
             (rget u "object_geometry_id") = [g] ->
    absent (session conn) living_buildings_data "living_building_id"
           (VInt (next_id (session conn living_buildings_data))) ->
    fst (add_living_building_to_db p conn)
    = inr [("living_building_id", VInt (next_id (session conn living_buildings_data)));
           ("residents_number", py_int (lb_post_residents_number p));
           ("living_area", py_float (lb_post_living_area p));
           ("properties", VJson (JObj (lb_post_properties p)));
           ("physical_object_id", VInt (lb_post_physical_object_id p));
           ("physical_object_name", rget po "name");
           ("physical_object_properties", rget po "properties");
           ("physical_object_type_id", rget t "physical_object_type_id");
           ("physical_object_type_name", rget t "name");
           ("physical_object_address", rget g "address")].
Proof.
  intros conn p po t u g Hpo Ht Hu Hg Hfresh.
  pose proof (matching_in _ _ _ _ _ Hpo) as Hid.
  unfold add_living_building_to_db, bind.
  rewrite execute_check, Hpo. cbn [one_or_none ret].
  unfold values, returning, insert. cbn [app].
  match goal with |- context [set_values [] ?vals] =>
    change (set_values [] vals) with vals
  end.
  rewrite execute_insert.
  unfold scalar_one, bind. cbn [one ret commit session committed executed].
  match goal with |- context [get_living_building_by_id_from_db ?v ?cn] =>
    change v with (VInt (next_id (session conn living_buildings_data)));
    rewrite (read_living_building_joined
               cn (next_id (session conn living_buildings_data))
               (living_building_row (next_id (session conn living_buildings_data)) p)
               po t u g)
  end.
  - cbn. now rewrite Hid.
  - cbn [session logged]. rewrite matching_after_insert.
    unfold absent in Hfresh. rewrite Hfresh. cbn. now rewrite Z.eqb_refl.
  - exact Hpo.
  - exact Ht.
  - exact Hu.
  - exact Hg.
Qed.

Lemma create_living_building_returns_the_joined_entity_witness :
  fst (add_living_building_to_db (new_flat_of 11) fixture_conn)
  = inr [("living_building_id", VInt 8);
         ("residents_number", VInt 4);
         ("living_area", VNull);
         ("properties", VJson (JObj MNil));
         ("physical_object_id", VInt 11);
         ("physical_object_name", VStr "Tower");
         ("physical_object_properties", VJson (JObj MNil));
         ("physical_object_type_id", VInt 1);
         ("physical_object_type_name", VStr "building");
         ("physical_object_address", VStr "1 Main St")].
Proof.
  apply (create_living_building_returns_the_joined_entity
           fixture_conn (new_flat_of 11)
           [("physical_object_id", VInt 11); ("physical_object_type_id", VInt 1);
            ("name", VStr "Tower"); ("properties", VJson (JObj MNil))]
           [("physical_object_type_id", VInt 1); ("name", VStr "building")]
           [("urban_object_id", VInt 1002); ("physical_object_id", VInt 11);
            ("object_geometry_id", VInt 100); ("service_id", VInt 52)]
           [("object_geometry_id", VInt 100); ("territory_id", VInt 5);
            ("geometry", VGeom 4326 "POINT (30 60)");
            ("centre_point", VGeom 4326 "POINT (30 60)");
            ("address", VStr "1 Main St")]);
    reflexivity.
Defined.

(** * Physical object types *)

(** What the creation of a physical object type under a new name returns
    and leaves. *)
Lemma add_type_outcome (conn : AsyncConnection) (p : PhysicalObjectsTypesPost) :
  absent (session conn) physical_object_types_dict "name" (VStr (pot_name p)) ->
  add_physical_object_type_to_db p conn
  = (inr (physical_object_type_row
            (next_id (session conn physical_object_types_dict)) p),
     let s := set_table (session conn) physical_object_types_dict
                (mk_stored
                   (rows (session conn physical_object_types_dict)
                    ++ [physical_object_type_row
                          (next_id (session conn physical_object_types_dict)) p])
                   (next_id (session conn physical_object_types_dict) + 1)) in
     mk_conn s s
       ((executed conn
         ++ [check physical_object_types_dict "name" (VStr (pot_name p))])
        ++ [Insert physical_object_types_dict
                   [("name", VStr (pot_name p))]
                   [STable physical_object_types_dict]])).
Proof.
  intros Ha. unfold absent in Ha.
  unfold add_physical_object_type_to_db, bind.
  rewrite execute_check_str, Ha. cbn [one_or_none ret].
  unfold values, returning, insert. cbn [app].
  match goal with |- context [set_values [] ?vals] =>
    change (set_values [] vals) with vals
  end.
  rewrite execute_insert. reflexivity.
Qed.

(** Creating a physical object type under a name that no type carries
    stores one new row, under the next id of the sequence, commits it and
    returns it; every other table is as before.  Creating a type under the
    same name again then raises the 400. *)
Theorem create_type_then_create_again :
  forall (conn : AsyncConnection) (p : PhysicalObjectsTypesPost),
    absent (session conn) physical_object_types_dict "name" (VStr (pot_name p)) ->
    let id := next_id (session conn physical_object_types_dict) in
    let out := add_physical_object_type_to_db p conn in
    fst out = inr (physical_object_type_row id p)
    /\ rows (session (snd out) physical_object_types_dict)
       = rows (session conn physical_object_types_dict)
         ++ [physical_object_type_row id p]
    /\ (forall t, t <> physical_object_types_dict ->
                  session (snd out) t = session conn t)
    /\ committed (snd out) = session (snd out)
    /\ fst (add_physical_object_type_to_db p (snd out))
       = inl (HTTPException 400 "Invalid input (physical object type already exists)").
Proof.
  intros conn p Ha id out. subst id out.
  rewrite (add_type_outcome conn p Ha). unfold absent in Ha.
  cbn [fst snd session committed].
  split; [reflexivity|]. split; [now rewrite set_table_same|].
  split; [intros t Ht; now apply set_table_other|]. split; [reflexivity|].
  unfold add_physical_object_type_to_db, bind.
  rewrite execute_check_str. cbn [session]. rewrite matching_after_insert, Ha.
  cbn. now rewrite String.eqb_refl.
Qed.

Lemma create_type_then_create_again_witness :
  fst (add_physical_object_type_to_db {| pot_name := "bridge" |} fixture_conn)
  = inr [("physical_object_type_id", VInt 3); ("name", VStr "bridge")].
Proof.
  apply (create_type_then_create_again fixture_conn {| pot_name := "bridge" |}).
  reflexivity.
Defined.

Lemma unique_on_snoc (k : string) (rs : list row) (r : row) :
  unique_on k rs = true ->
  (forall x, In x rs -> value_eqb (rget x k) (rget r k) = false) ->
  unique_on k (rs ++ [r]) = true.
Proof.
  induction rs as [|a rs IH]; intros Hu Hr; [reflexivity|].
  cbn [unique_on app] in *. apply andb_prop in Hu. destruct Hu as [Ha Hrs].
  apply andb_true_intro. split.
  - rewrite existsb_app. cbn [existsb]. rewrite orb_false_r.
    apply negb_true_iff in Ha. rewrite Ha. cbn [orb].
    rewrite (Hr a) by now left. reflexivity.
  - apply IH; [exact Hrs|]. intros x Hx. apply Hr. now right.
Qed.

(** Creating a physical object type keeps the names of the types distinct:
    whatever the request and whether the call returns or raises, no two
    types carry the same name after it if none did before. *)
Theorem create_type_keeps_names_unique :
  forall (conn : AsyncConnection) (p : PhysicalObjectsTypesPost),
    unique_on "name" (rows (session conn physical_object_types_dict)) = true ->
    unique_on "name"
              (rows (session (snd (add_physical_object_type_to_db p conn))
                             physical_object_types_dict)) = true.
Proof.
  intros conn p Hu.
  unfold add_physical_object_type_to_db, bind.
  rewrite execute_check_str.
  destruct (matching (session conn) physical_object_types_dict "name"
                     (VStr (pot_name p))) as [|r [|r' l]] eqn:E;
    cbn [one_or_none ret raise]; try exact Hu.
  unfold values, returning, insert. cbn [app].
  match goal with |- context [set_values [] ?vals] =>
    change (set_values [] vals) with vals
  end.
  rewrite execute_insert. cbn [one ret commit snd session logged].
  rewrite set_table_same. cbn [rows].
  apply unique_on_snoc; [exact Hu|].
  intros x Hx.
  change (rget (new_row physical_object_types_dict
                        (next_id (session conn physical_object_types_dict))
                        [("name", VStr (pot_name p))]) "name")
    with (VStr (pot_name p)).
  now apply absent_no_row with (db := session conn) (t := physical_object_types_dict).
Qed.

Lemma create_type_keeps_names_unique_witness :
  unique_on "name"
            (rows (session (snd (add_physical_object_type_to_db
                                   {| pot_name := "bridge" |} fixture_conn))
                           physical_object_types_dict)) = true.
Proof.
  apply (create_type_keeps_names_unique fixture_conn {| pot_name := "bridge" |}).
  reflexivity.
Defined.

Lemma insert_on_perm {A : Type} (key : A -> value) (x : A) (l : list A) :
  Permutation (insert_on key x l) (x :: l).
Proof.
  induction l as [|y l IH]; simpl; [apply Permutation_refl|].
  destruct (value_leb (key x) (key y)); [apply Permutation_refl|].
  apply perm_trans with (y :: x :: l); [now apply perm_skip|apply perm_swap].
Qed.

Lemma sort_on_perm {A : Type} (key : A -> value) (l : list A) :
  Permutation (sort_on key l) l.
Proof.
  induction l as [|x l IH]; simpl; [apply perm_nil|].
  apply perm_trans with (x :: sort_on key l);
    [apply insert_on_perm|now apply perm_skip].
Qed.

Lemma value_leb_total (a b : value) : value_leb a b = false -> value_leb b a = true.
Proof.
  destruct a, b; simpl; try discriminate; try reflexivity.
  intros H. apply Z.leb_gt in H. apply Z.leb_le. lia.
Qed.

Lemma insert_on_sorted {A : Type} (key : A -> value) (x : A) (l : list A) :
  Sorted (fun a b => value_leb (key a) (key b) = true) l ->
  Sorted (fun a b => value_leb (key a) (key b) = true) (insert_on key x l).
Proof.
  induction l as [|y l IH]; intros H; simpl.
  - repeat constructor.
  - destruct (value_leb (key x) (key y)) eqn:E.
    + constructor; [exact H|]. now constructor.
    + inversion H as [|? ? Hl Hhd]; subst. constructor; [now apply IH|].
      apply value_leb_total in E.
      destruct l as [|z l]; simpl.
      * now constructor.
      * inversion Hhd; subst.
        destruct (value_leb (key x) (key z)); now constructor.
Qed.

Lemma sort_on_sorted {A : Type} (key : A -> value) (l : list A) :
  Sorted (fun a b => value_leb (key a) (key b) = true) (sort_on key l).
Proof.
  induction l as [|x l IH]; simpl; [constructor|now apply insert_on_sorted].
Qed.

Lemma map_insert_on {A B : Type} (f : A -> B) (key : A -> value) (key' : B -> value)
      (x : A) (l : list A) :
  (forall a, key' (f a) = key a) ->
  map f (insert_on key x l) = insert_on key' (f x) (map f l).
Proof.
  intros H. induction l as [|y l IH]; simpl; [reflexivity|].
  rewrite !H. destruct (value_leb (key x) (key y)); simpl; [reflexivity|].
  now rewrite IH.
Qed.

Lemma map_sort_on {A B : Type} (f : A -> B) (key : A -> value) (key' : B -> value)
      (l : list A) :
  (forall a, key' (f a) = key a) ->
  map f (sort_on key l) = sort_on key' (map f l).
Proof.
  intros H. induction l as [|x l IH]; simpl; [reflexivity|].
  now rewrite (map_insert_on f key key' _ _ H), IH.
Qed.

Lemma filter_all {A : Type} (l : list A) : filter (fun _ => true) l = l.
Proof. induction l; simpl; congruence. Qed.

Lemma types_listing (conn : AsyncConnection) :
  fst (get_physical_object_types_from_db conn)
  = inr (sort_on (fun r => rget r "physical_object_type_id")
                 (rows (session conn physical_object_types_dict))).
Proof.
  unfold get_physical_object_types_from_db, bind, order_by, select.
  cbn [execute_ordered eval_ordered from_of selectable_table eval_from ret fst].
  f_equal. unfold PhysicalObjectTypeDTO. rewrite map_id.
  change (holds_all []) with (fun _ : jrow => true). rewrite filter_all.
  rewrite (map_sort_on (project [STable physical_object_types_dict]) _
                       (fun r => rget r "physical_object_type_id")).
  - f_equal. rewrite map_map.
    rewrite (map_ext _ (fun r => r)); [apply map_id|].
    intros r. apply project_star.
  - intros j. unfold project, c. cbn [flat_map project_one].
    now rewrite app_nil_r, jget_table_row.
Qed.

(** The listing of the physical object types returns every stored type
    once, in ascending order of id, and writes nothing. *)
Theorem types_are_listed_once_in_id_order :
  forall (conn : AsyncConnection),
    exists l,
      fst (get_physical_object_types_from_db conn) = inr l
      /\ Permutation l (rows (session conn physical_object_types_dict))
      /\ Sorted (fun a b => value_leb (rget a "physical_object_type_id")
                                      (rget b "physical_object_type_id") = true) l
      /\ read_only conn (get_physical_object_types_from_db conn).
Proof.
  intros conn. eexists. split; [apply types_listing|].
  split; [apply sort_on_perm|]. split.
  - apply (sort_on_sorted (fun r => rget r "physical_object_type_id")).
  - unfold read_only. cbn. repeat split. eexists. split; reflexivity.
Qed.

(** A physical object type created under a new name is in the listing
    that follows, with the id it was given. *)
Theorem created_type_is_listed :
  forall (conn : AsyncConnection) (p : PhysicalObjectsTypesPost),
    absent (session conn) physical_object_types_dict "name" (VStr (pot_name p)) ->
    exists l,
      fst (get_physical_object_types_from_db
             (snd (add_physical_object_type_to_db p conn))) = inr l
      /\ In (physical_object_type_row
               (next_id (session conn physical_object_types_dict)) p) l.
Proof.
  intros conn p Ha. eexists. split; [apply types_listing|].
  rewrite (add_type_outcome conn p Ha). cbn [snd session].
  rewrite set_table_same. cbn [rows].
  eapply Permutation_in; [apply Permutation_sym, sort_on_perm|].
  apply in_or_app. right. now left.
Qed.

Lemma created_type_is_listed_witness :
  exists l,
    fst (get_physical_object_types_from_db
           (snd (add_physical_object_type_to_db {| pot_name := "bridge" |}
                                                fixture_conn))) = inr l
    /\ In [("physical_object_type_id", VInt 3); ("name", VStr "bridge")] l.
Proof.
  apply (created_type_is_listed fixture_conn {| pot_name := "bridge" |}).
  reflexivity.
Defined.

(** * Creation of a physical object with its geometry, read back *)

Lemma add_physical_object_with_geometry_outcome
      (conn : AsyncConnection) (p : PhysicalObjectsDataPost) :
  present (session conn) territories_data "territory_id"
          (VInt (post_territory_id p)) ->
  present (session conn) physical_object_types_dict "physical_object_type_id"
          (VInt (post_physical_object_type_id p)) ->
  let db := session conn in
  let po := next_id (db physical_objects_data) in
  let og := next_id (db object_geometries_data) in
  let uo := next_id (db urban_objects_data) in
  session (snd (add_physical_object_with_geometry_to_db p conn))
  = set_table
      (set_table
         (set_table db physical_objects_data
            (mk_stored (rows (db physical_objects_data)
                        ++ [physical_object_row po p]) (po + 1)))
         object_geometries_data
         (mk_stored (rows (db object_geometries_data)
                     ++ [object_geometry_row og p]) (og + 1)))
      urban_objects_data
      (mk_stored (rows (db urban_objects_data) ++ [urban_object_row uo po og])
                 (uo + 1)).
Proof.
  intros Ht Hp db po og uo. subst db po og uo.
  unfold add_physical_object_with_geometry_to_db.
  check_passes Ht. rewrite execute_check. cbn [session logged].
  destruct (present_one _ _ _ _ Hp) as [r' E']. rewrite E'.
  cbn [one_or_none ret]. cbn. reflexivity.
Qed.

(** A physical object created with its geometry can be read back: the
    read by the id that the creation returned gives the object as requested,
    with the name of its type and the address of the request, provided the
    ids that the sequences give next are not already in use. *)
Theorem created_physical_object_reads_back :
  forall (conn : AsyncConnection) (p : PhysicalObjectsDataPost) (t : row),
    present (session conn) territories_data "territory_id"
            (VInt (post_territory_id p)) ->
    matching (session conn) physical_object_types_dict "physical_object_type_id"
             (VInt (post_physical_object_type_id p)) = [t] ->
    let po := next_id (session conn physical_objects_data) in
    let og := next_id (session conn object_geometries_data) in
    absent (session conn) physical_objects_data "physical_object_id" (VInt po) ->
    absent (session conn) urban_objects_data "physical_object_id" (VInt po) ->
    absent (session conn) object_geometries_data "object_geometry_id" (VInt og) ->
    fst (get_physical_object_by_id_from_db
           (VInt po) (snd (add_physical_object_with_geometry_to_db p conn)))
    = inr (physical_object_row po p
           ++ [("physical_object_type_name", rget t "name");
               ("address", py_str (post_address p))]).
Proof.
  intros conn p t Ht Htype po og Hpo Huo Hog. subst po og.
  assert (Hp : present (session conn) physical_object_types_dict
                       "physical_object_type_id"
                       (VInt (post_physical_object_type_id p))).
  { unfold present. now rewrite Htype. }
  pose proof (add_physical_object_with_geometry_outcome conn p Ht Hp) as Hs.
  cbv zeta in Hs. unfold absent in *.
  apply (read_succeeds_with_one_geometry
           _ _ (physical_object_row (next_id (session conn physical_objects_data)) p)
           (urban_object_row (next_id (session conn urban_objects_data))
                             (next_id (session conn physical_objects_data))
                             (next_id (session conn object_geometries_data)))
           (object_geometry_row (next_id (session conn object_geometries_data)) p)
           t).
  - rewrite Hs. unfold matching, set_table. cbn [table_eqb rows].
    fold (matching (session conn)) in *. rewrite filter_app.
    unfold matching in Hpo. rewrite Hpo. cbn. now rewrite Z.eqb_refl.
  - rewrite Hs. unfold matching, set_table. cbn [table_eqb rows].
    rewrite filter_app. unfold matching in Huo. rewrite Huo. cbn.
    now rewrite Z.eqb_refl.
  - rewrite Hs. unfold matching, set_table. cbn [table_eqb rows].
    rewrite filter_app. cbn [rget urban_object_row String.eqb Ascii.eqb Bool.eqb].
    unfold matching in Hog. cbn. rewrite Hog. cbn. now rewrite Z.eqb_refl.
  - rewrite Hs. unfold matching, set_table. cbn [table_eqb rows].
    exact Htype.
Qed.

Lemma created_physical_object_reads_back_witness :
  fst (get_physical_object_by_id_from_db
         (VInt 13) (snd (add_physical_object_with_geometry_to_db barn fixture_conn)))
  = inr [("physical_object_id", VInt 13); ("physical_object_type_id", VInt 2);
         ("name", VStr "Barn"); ("properties", VJson (JObj MNil));
         ("physical_object_type_name", VStr "road"); ("address", VNull)].
Proof.
  apply (created_physical_object_reads_back
           fixture_conn barn
           [("physical_object_type_id", VInt 2); ("name", VStr "road")]);
    reflexivity.
Defined.

(** * Partial updates of a row that does not exist *)

(** A patch of a physical object, or of a living building, that does not
    exist raises the 404 of the object ("Given physical object id is not
    found", "Given living building id is not found") whatever the payload,
    having executed the existence check alone: the payload's foreign key is
    not looked up and nothing is written. *)
Theorem patch_of_missing_row_is_not_found :
  forall (conn : AsyncConnection) (id : Z),
    (forall p : PhysicalObjectsDataPatch,
        absent (session conn) physical_objects_data "physical_object_id" (VInt id) ->
        patch_physical_object_to_db p id conn
        = (inl (HTTPException 404 "Given physical object id is not found"),
           logged conn [check physical_objects_data "physical_object_id" (VInt id)]))
    /\ (forall p : LivingBuildingsDataPatch,
           absent (session conn) living_buildings_data "living_building_id" (VInt id) ->
           patch_living_building_to_db p id conn
           = (inl (HTTPException 404 "Given living building id is not found"),
              logged conn [check living_buildings_data "living_building_id" (VInt id)])).
Proof.
  intros conn id. split; intros p H; unfold absent in H.
  - unfold patch_physical_object_to_db. check_fails H.
  - unfold patch_living_building_to_db. check_fails H.
Qed.

Lemma patch_of_missing_row_is_not_found_witness :
  fst (patch_physical_object_to_db retype_to_77 99 fixture_conn)
  = inl (HTTPException 404 "Given physical object id is not found").
Proof.
  rewrite (proj1 (patch_of_missing_row_is_not_found fixture_conn 99) retype_to_77);
    reflexivity.
Defined.

(** * Filters of the listings *)

Lemma in_select_rows (db : database) (cols : list selectable) (f : from_clause)
      (w : list predicate) (r : row) :
  (forall a, cols <> [SSum a]) ->
  In r (eval_select db cols (Some f) w) ->
  exists j, r = project cols j
            /\ In j (eval_from db f)
            /\ forall p, In p w -> holds j p = true.
Proof.
  intros Hc H. unfold eval_select in H. cbn [from_of] in H.
  assert (H' : In r (map (project cols) (filter (holds_all w) (eval_from db f)))).
  { destruct cols as [|[] [|]]; try exact H. now contradiction (Hc a). }
  apply in_map_iff in H'. destruct H' as (j & <- & Hj).
  apply filter_In in Hj. destruct Hj as [Hj Hw].
  exists j. repeat split; [exact Hj|].
  intros p Hp. unfold holds_all in Hw. rewrite forallb_forall in Hw. now apply Hw.
Qed.

(** From a listing that returned [l] and a row of [l] to the row of the
    join that it was projected from. *)
Ltac listed_row Hl Hin :=
  unfold where_, select_from, select, join, col_eq in Hl; cbn [is_null app] in Hl;
  rewrite execute_select in Hl;
  match type of Hl with
  | context [eval_select ?a ?b ?c ?d] =>
      let rs := fresh "rs" in
      let Ers := fresh "Ers" in
      remember (eval_select a b c d) as rs eqn:Ers;
      cbn in Hl; injection Hl as <-;
      rewrite map_id in Hin; subst rs;
      apply in_select_rows in Hin; [|intros ?; discriminate]
  end.

(** A type filter is exact: every physical object that a listing of a
    territory returns under a type filter has that type, and every service
    that a listing of a territory or of a physical object returns under a
    service type filter has that service type. *)
Theorem type_filters_are_exact :
  forall (conn : AsyncConnection) (id ty : Z) (name : option string) (tt : option Z)
         (l : list row) (r : row),
    (fst (get_physical_objects_by_territory_id_from_db id (Some ty) name conn) = inr l ->
     In r l -> rget r "physical_object_type_id" = VInt ty)
    /\ (fst (get_services_by_territory_id_from_db id (Some ty) name conn) = inr l ->
        In r l -> rget r "service_type_id" = VInt ty)
    /\ (fst (get_services_by_physical_object_id_from_db id (Some ty) tt conn) = inr l ->
        In r l -> rget r "service_type_id" = VInt ty).
Proof.
  intros conn id ty name tt l r. split; [|split].
  - unfold get_physical_objects_by_territory_id_from_db, bind.
    rewrite execute_check.
    destruct (matching (session conn) territories_data "territory_id" (VInt id))
      as [|x [|x' xs]]; cbn [one_or_none ret raise fst]; try discriminate.
    intros Hl Hin.
    assert (H : exists j,
               rget r "physical_object_type_id"
               = jget j (c physical_objects_data "physical_object_type_id")
               /\ holds j (PEq (c physical_objects_data "physical_object_type_id") (VInt ty))
                  = true).
    { destruct name; listed_row Hl Hin; destruct Hin as (j & -> & _ & Hw);
        exists j; (split; [reflexivity | apply Hw; cbn; tauto]). }
    destruct H as (j & -> & H). now apply value_eqb_eq in H.
  - unfold get_services_by_territory_id_from_db, bind.
    rewrite execute_check.
    destruct (matching (session conn) territories_data "territory_id" (VInt id))
      as [|x [|x' xs]]; cbn [one_or_none ret raise fst]; try discriminate.
    intros Hl Hin.
    assert (H : exists j,
               rget r "service_type_id" = jget j (c service_types_dict "service_type_id")
               /\ holds j (PEqCol (c service_types_dict "service_type_id")
                                  (c services_data "service_type_id")) = true
               /\ holds j (PEq (c services_data "service_type_id") (VInt ty)) = true).
    { destruct name; listed_row Hl Hin; destruct Hin as (j & -> & Hj & Hw);
        exists j; (split; [reflexivity | split; [|apply Hw; cbn; tauto]]);
        apply (eval_from_on_clauses _ _ _ _ _ Hj); cbn; tauto. }
    destruct H as (j & -> & Hon & H). cbn [holds] in Hon, H.
    apply value_eqb_eq in Hon, H. congruence.
  - unfold get_services_by_physical_object_id_from_db, bind.
    rewrite execute_check.
    destruct (matching (session conn) physical_objects_data "physical_object_id" (VInt id))
      as [|x [|x' xs]]; cbn [one_or_none ret raise fst]; try discriminate.
    intros Hl Hin.
    assert (H : exists j,
               rget r "service_type_id" = jget j (c service_types_dict "service_type_id")
               /\ holds j (PEqCol (c service_types_dict "service_type_id")
                                  (c services_data "service_type_id")) = true
               /\ holds j (PEq (c services_data "service_type_id") (VInt ty)) = true).
    { destruct tt; listed_row Hl Hin; destruct Hin as (j & -> & Hj & Hw);
        exists j; (split; [reflexivity | split; [|apply Hw; cbn; tauto]]);
        apply (eval_from_on_clauses _ _ _ _ _ Hj); cbn; tauto. }
    destruct H as (j & -> & Hon & H). cbn [holds] in Hon, H.
    apply value_eqb_eq in Hon, H. congruence.
Qed.

Lemma type_filters_are_exact_witness :
  exists l,
    fst (get_services_by_territory_id_from_db 5 (Some 3) None fixture_conn) = inr l
    /\ l <> []
    /\ forall r, In r l -> rget r "service_type_id" = VInt 3.
Proof.
  eexists. split; [vm_compute; reflexivity|]. split; [discriminate|].
  intros r.
  apply (proj1 (proj2 (type_filters_are_exact fixture_conn 5 3 None None _ r))).
  vm_compute. reflexivity.
Defined.

Lemma select_rows_in (db : database) (cols : list selectable) (f : from_clause)
      (w : list predicate) (j : jrow) :
  (forall a, cols <> [SSum a]) ->
  In j (eval_from db f) -> (forall p, In p w -> holds j p = true) ->
  In (project cols j) (eval_select db cols (Some f) w).
Proof.
  intros Hc Hj Hw. unfold eval_select. cbn [from_of].
  assert (H : In (project cols j)
                 (map (project cols) (filter (holds_all w) (eval_from db f)))).
  { apply in_map, filter_In. split; [exact Hj|].
    unfold holds_all. rewrite forallb_forall. exact Hw. }
  destruct cols as [|[] [|]]; try exact H. now contradiction (Hc a).
Qed.

(** The listing without its optional filters, run to its rows. *)
Ltac unfiltered_listing :=
  unfold where_, select_from, select, join, col_eq; cbn [is_null app];
  rewrite execute_select;
  match goal with
  | |- context [eval_select ?a ?b ?c ?d] =>
      let rs := fresh "rs" in
      let Ers := fresh "Ers" in
      remember (eval_select a b c d) as rs eqn:Ers;
      cbn; eexists; split; [reflexivity|];
      rewrite map_id; subst rs
  end.

(** A row of the filtered listing is a row of the unfiltered one. *)
Ltac narrowed Hl :=
  let r := fresh "r" in
  let Hin := fresh "Hin" in
  let j := fresh "j" in
  let Hj := fresh "Hj" in
  let Hw := fresh "Hw" in
  intros r Hin; listed_row Hl Hin; destruct Hin as (j & -> & Hj & Hw);
  apply select_rows_in;
  [ intros ?; discriminate
  | exact Hj
  | intros p Hp; apply Hw; cbn in Hp |- *; tauto ].

(** The optional filters only narrow a listing: when a listing of the
    physical objects or of the services of a territory, or of the services
    of a physical object, returns under some filters, the same call without
    filters returns as well, and every entity of the filtered answer is in
    the unfiltered one. *)
Theorem filters_only_narrow :
  forall (conn : AsyncConnection) (id : Z) (ty tt : option Z) (name : option string)
         (l : list row),
    (fst (get_physical_objects_by_territory_id_from_db id ty name conn) = inr l ->
     exists l0,
       fst (get_physical_objects_by_territory_id_from_db id None None conn) = inr l0
       /\ incl l l0)
    /\ (fst (get_services_by_territory_id_from_db id ty name conn) = inr l ->
        exists l0,
          fst (get_services_by_territory_id_from_db id None None conn) = inr l0
          /\ incl l l0)
    /\ (fst (get_services_by_physical_object_id_from_db id ty tt conn) = inr l ->
        exists l0,
          fst (get_services_by_physical_object_id_from_db id None None conn) = inr l0
          /\ incl l l0).
Proof.
  intros conn id ty tt name l. split; [|split].
  - unfold get_physical_objects_by_territory_id_from_db, bind.
    rewrite !execute_check.
    destruct (matching (session conn) territories_data "territory_id" (VInt id))
      as [|x [|x' xs]]; cbn [one_or_none ret raise fst]; try discriminate.
    intros Hl. unfiltered_listing.
    destruct ty, name; narrowed Hl.
  - unfold get_services_by_territory_id_from_db, bind.
    rewrite !execute_check.
    destruct (matching (session conn) territories_data "territory_id" (VInt id))
      as [|x [|x' xs]]; cbn [one_or_none ret raise fst]; try discriminate.
    intros Hl. unfiltered_listing.
    destruct ty, name; narrowed Hl.
  - unfold get_services_by_physical_object_id_from_db, bind.
    rewrite !execute_check.
    destruct (matching (session conn) physical_objects_data "physical_object_id" (VInt id))
      as [|x [|x' xs]]; cbn [one_or_none ret raise fst]; try discriminate.
    intros Hl. unfiltered_listing.
    destruct ty, tt; narrowed Hl.
Qed.

Lemma filters_only_narrow_witness :
  exists l l0,
    fst (get_services_by_territory_id_from_db 5 (Some 3) None fixture_conn) = inr l
    /\ l <> []
    /\ fst (get_services_by_territory_id_from_db 5 None None fixture_conn) = inr l0
    /\ incl l l0.
Proof.
  assert (H : exists l,
             fst (get_services_by_territory_id_from_db 5 (Some 3) None fixture_conn)
             = inr l /\ l <> []).
  { eexists. split; [vm_compute; reflexivity | discriminate]. }
  destruct H as (l & Hl & Hne).
  destruct (proj1 (proj2 (filters_only_narrow fixture_conn 5 (Some 3) None None l)) Hl)
    as (l0 & H0 & Hi).
  exists l, l0. tauto.
Defined.

(** * Services of a territory, with and without geometry *)


